(** * WxFixBoot: the disk / operating-system discovery engine

    A shallow embedding of the OS detector ([get_oss]), the checkability
    classifier ([find_checkable_file_systems]), the filesystem checker driver
    ([filesystem_check]) and the partition-to-OS matcher
    ([partition_matches_os]) of WxFixBoot, together with the properties the
    specification states about them.

    Python values are modelled as follows: [str] as [string], exit codes as
    [Z], [None]-able values as [option], the global dictionaries [DISK_INFO]
    and [OS_INFO] as [gmap string _], a dictionary that is iterated in
    insertion order as an association list, and the calls into CoreTools,
    CoreStartupTools, DialogTools and [os] as capabilities of an abstract
    environment whose answers are recorded in a trace. *)

From Stdlib Require Import ZArith String Ascii DecimalString.
From stdpp Require Import base option list gmap strings sorting.

Local Open Scope Z_scope.
Local Open Scope string_scope.
Local Open Scope list_scope.

(** ** Strings *)

Definition Unknown : string := "Unknown".
Definition NotApplicable : string := "N/A".

(** The double quote and the newline, as one-character strings. *)
Definition DQUOTE : string := String "034"%char EmptyString.
Definition NEWLINE : ascii := "010"%char.

(** [s.replace('\n', '')] *)
Fixpoint remove_newlines (s : string) : string :=
  match s with
  | EmptyString => EmptyString
  | String c s' =>
      if Ascii.eqb c NEWLINE then remove_newlines s'
      else String c (remove_newlines s')
  end.

(** Whitespace of [str.isspace] and [str.split], on the ASCII range:
    tab, line feed, vertical tab, form feed, carriage return, the four
    separators 28..31 and the space. *)
Definition is_whitespace (c : ascii) : bool :=
  let n := N_of_ascii c in
  ((9 <=? n) && (n <=? 13) || (28 <=? n) && (n <=? 32))%N.

Fixpoint all_whitespace (s : string) : bool :=
  match s with
  | EmptyString => true
  | String c s' => is_whitespace c && all_whitespace s'
  end.

(** [s.isspace()]: at least one character, and all of them whitespace. *)
Definition isspace (s : string) : bool :=
  match s with
  | EmptyString => false
  | String _ _ => all_whitespace s
  end.

(** [x in (a, b, ...)] and [x in some_list] on strings. *)
Definition str_in (x : string) (l : list string) : bool :=
  bool_decide (x ∈ l).

(** ** The data model *)

(** One row of [DISK_INFO]. The key "Aliases" is only present on some rows
    (the detector tests for it with ["Aliases" in DISK_INFO[partition]]). *)
Record DiskEntry := mkDiskEntry {
  Type_ : string;
  FileSystem : string;
  UUID : string;
  Product : string;
  Aliases : option (list string)
}.

(** One row of [OS_INFO]. *)
Record OSRecord := mkOSRecord {
  Name : string;
  IsCurrentOS : bool;
  Arch : string;
  Partition : string;
  PackageManager : string;
  RawFSTabInfo : list string;
  EFIPartition : string;
  BootPartition : string
}.

(** [SYSTEM_INFO], with the keys the modelled functions use. *)
Record SystemInfo := mkSystemInfo {
  IsLiveDisk : bool;
  CurrentOS : option OSRecord;
  DisableBootloaderOperations : bool;
  DisableBootloaderOperationsBecause : list string
}.

#[export] Instance DiskEntry_eq_dec : EqDecision DiskEntry.
Proof. solve_decision. Defined.
#[export] Instance OSRecord_eq_dec : EqDecision OSRecord.
Proof. solve_decision. Defined.
#[export] Instance SystemInfo_eq_dec : EqDecision SystemInfo.
Proof. solve_decision. Defined.

(** Exceptions the modelled code can raise by itself. *)
Inductive exn :=
| KeyError (key : string)
| IndexError
| UnboundLocalError (name : string).

Inductive Outcome (A : Type) :=
| Ok (a : A)
| Raise (e : exn).
Arguments Ok {A} a.
Arguments Raise {A} e.

(** ** Sorted keys of a dictionary: [keys = list(d.keys()); keys.sort()] *)

Definition string_le (a b : string) : Prop := String.leb a b = true.

#[export] Instance string_le_dec : RelDecision string_le.
Proof. intros a b. unfold string_le. apply _. Defined.

#[export] Instance string_le_total : Total string_le.
Proof. intros a b. apply String.leb_total. Qed.

Definition sorted_keys {V} (d : gmap string V) : list string :=
  merge_sort string_le (map fst (map_to_list d)).

(** ** The partition-to-OS matcher (Tools/BackendTools/helpers.py) *)

Module Matcher.

Section Matcher.
Context (OS_INFO : gmap string OSRecord) (DISK_INFO : gmap string DiskEntry).

(** [DISK_INFO[key]["UUID"]] *)
Definition disk_uuid (key : string) : Outcome string :=
  match DISK_INFO !! key with
  | Some d => Ok (UUID d)
  | None => Raise (KeyError key)
  end.

(** [field != "Unknown" and partition in (field, DISK_INFO[field]["UUID"])]:
    the tuple is built, so the inventory is indexed, before the membership
    test. *)
Definition role_test (partition field : string) : Outcome bool :=
  if bool_decide (field ≠ Unknown) then
    match disk_uuid field with
    | Ok uuid => Ok (str_in partition [field; uuid])
    | Raise e => Raise e
    end
  else Ok false.

Definition partition_matches_os (partition _os : string) : Outcome bool :=
  match OS_INFO !! _os with
  | None => Raise (KeyError _os)      (* the logging lines index OS_INFO[_os] *)
  | Some r =>
      if bool_decide (partition = Unknown) then Ok false
      else
        match role_test partition (Partition r) with
        | Raise e => Raise e
        | Ok true => Ok true
        | Ok false =>
            match role_test partition (BootPartition r) with
            | Raise e => Raise e
            | Ok true => Ok true
            | Ok false =>
                match role_test partition (EFIPartition r) with
                | Raise e => Raise e
                | Ok true => Ok true
                | Ok false => Ok false
                end
            end
        end
  end.

(** The specification's words: a role field matches when it is known and the
    identifier is its device path or its inventory UUID. *)
Definition role_matches (partition field : string) : Prop :=
  field ≠ Unknown ∧
  ∃ d, DISK_INFO !! field = Some d ∧ (partition = field ∨ partition = UUID d).

(** A known role field is a key of the inventory. *)
Definition role_in_inventory (field : string) : Prop :=
  field ≠ Unknown → is_Some (DISK_INFO !! field).

End Matcher.

End Matcher.

(** ** The environment

    The process runner, the mount manager, the startup probes, the dialogs
    and the [os] module are capabilities the modelled code consumes. Each is
    a function of an abstract world that returns its answer and the next
    world; nothing is assumed about the answers. *)

Inductive WinVersion := Win9x | WinXP | WinVista | Win7 | Win8 | Win10.

Class Environment (World : Type) := {
  env_get_partition_mounted_at : string → World → string * World;
  env_is_mounted : string → World → bool * World;
  env_any_mounted : list string → World → bool * World;
  env_get_mount_point_of : string → World → string * World;
  env_mount_partition : string → string → World → Z * World;
  env_unmount : string → World → Z * World;
  (** [start_process(cmd, ...)]: exit code and captured output. *)
  env_start_process : string → World → (Z * string) * World;
  env_path_exists : string → World → bool * World;
  env_path_isdir : string → World → bool * World;
  env_rmdir : string → World → unit * World;
  env_has_windows : WinVersion → string → World → bool * World;
  env_determine_os_architecture : string → World → option string * World;
  env_get_os_name_with_lsb :
    string → string → bool → World → option string * World;
  env_ask_for_os_name : string → bool → World → option string * World;
  env_determine_package_manager : string → string → World → string * World;
  env_get_fstab_info :
    string → string → World → (list string * string * string) * World;
  env_show_msg_dlg : string → string → World → unit * World;
  env_show_yes_no_dlg : string → string → World → bool * World
}.

(** A call of a capability, with the answer it gave. *)
Inductive Event :=
| EvGetPartitionMountedAt (mount_point : string) (r : string)
| EvIsMounted (partition : string) (r : bool)
| EvAnyMounted (aliases : list string) (r : bool)
| EvGetMountPointOf (partition : string) (r : string)
| EvMountPartition (partition mount_point : string) (r : Z)
| EvUnmount (target : string) (r : Z)
| EvStartProcess (cmd : string) (r : Z * string)
| EvPathExists (path : string) (r : bool)
| EvPathIsdir (path : string) (r : bool)
| EvRmdir (path : string) (r : unit)
| EvHasWindows (v : WinVersion) (mount_point : string) (r : bool)
| EvDetermineOsArchitecture (mount_point : string) (r : option string)
| EvGetOsNameWithLsb (partition mount_point : string) (is_current_os : bool)
    (r : option string)
| EvAskForOsName (partition : string) (is_current_os : bool)
    (r : option string)
| EvDeterminePackageManager (apt_cmd dnf_cmd : string) (r : string)
| EvGetFstabInfo (mount_point os_name : string)
    (r : list string * string * string)
| EvShowMsgDlg (kind message : string) (r : unit)
| EvShowYesNoDlg (message title : string) (r : bool).

(** ** The state and the monad of the modelled functions *)

(** The world and the global tables the functions write. [DISK_INFO] is only
    read by them and is passed as an argument. *)
Record State (World : Type) := mkState {
  st_world : World;
  st_OS_INFO : gmap string OSRecord;
  st_SYSTEM_INFO : SystemInfo
}.
Arguments mkState {World}.
Arguments st_world {World}.
Arguments st_OS_INFO {World}.
Arguments st_SYSTEM_INFO {World}.

(** A computation returns a value or raises, leaves a state (global
    mutations survive an exception) and lists the capability calls it made,
    oldest first. *)
Definition M (World A : Type) : Type :=
  State World → Outcome A * State World * list Event.

Section Monad.
Context {World : Type}.

Definition ret {A} (a : A) : M World A := λ st, (Ok a, st, []).

Definition bind {A B} (m : M World A) (f : A → M World B) : M World B :=
  λ st,
    match m st with
    | (Ok a, st1, evs1) =>
        let '(r, st2, evs2) := f a st1 in (r, st2, evs1 ++ evs2)
    | (Raise e, st1, evs1) => (Raise e, st1, evs1)
    end.

Definition raise {A} (e : exn) : M World A := λ st, (Raise e, st, []).

Definition get_OS_INFO : M World (gmap string OSRecord) :=
  λ st, (Ok (st_OS_INFO st), st, []).

Definition get_SYSTEM_INFO : M World SystemInfo :=
  λ st, (Ok (st_SYSTEM_INFO st), st, []).

Definition put_OS_INFO (t : gmap string OSRecord) : M World unit :=
  λ st, (Ok tt, mkState (st_world st) t (st_SYSTEM_INFO st), []).

Definition put_SYSTEM_INFO (i : SystemInfo) : M World unit :=
  λ st, (Ok tt, mkState (st_world st) (st_OS_INFO st) i, []).

(** A call of a capability: thread the world, log the call and its answer. *)
Definition external {A} (f : World → A * World) (ev : A → Event)
  : M World A :=
  λ st,
    let '(r, w) := f (st_world st) in
    (Ok r, mkState w (st_OS_INFO st) (st_SYSTEM_INFO st), [ev r]).

End Monad.

Declare Scope py_scope.
Delimit Scope py_scope with py.
Notation "x <- m ;; k" := (bind m (λ x, k))
  (at level 100, m at next level, right associativity) : py_scope.
Notation "m ;; k" := (bind m (λ _, k))
  (at level 100, right associativity) : py_scope.
Local Open Scope py_scope.

(** What one iteration of a [for] loop tells the loop: go on with the next
    element ([continue], or the end of the body) or leave ([break]). *)
Inductive LoopCtl := Next | Break.

Section Loops.
Context {World : Type}.

Fixpoint for_in {A} (l : list A) (body : A → M World LoopCtl)
  : M World unit :=
  match l with
  | [] => ret tt
  | x :: l' =>
      c <- body x ;;
      match c with
      | Next => for_in l' body
      | Break => ret tt
      end
  end.

End Loops.

(** ** The capabilities as the code calls them *)

Section Capabilities.
Context {World : Type} {env : Environment World}.

Definition get_partition_mounted_at (mount_point : string) : M World string :=
  external (env_get_partition_mounted_at mount_point)
           (EvGetPartitionMountedAt mount_point).
Definition is_mounted (partition : string) : M World bool :=
  external (env_is_mounted partition) (EvIsMounted partition).
Definition any_mounted (aliases : list string) : M World bool :=
  external (env_any_mounted aliases) (EvAnyMounted aliases).
Definition get_mount_point_of (partition : string) : M World string :=
  external (env_get_mount_point_of partition) (EvGetMountPointOf partition).
Definition mount_partition (partition mount_point : string) : M World Z :=
  external (env_mount_partition partition mount_point)
           (EvMountPartition partition mount_point).
Definition unmount (target : string) : M World Z :=
  external (env_unmount target) (EvUnmount target).
(** [start_process(cmd, return_output=True)] *)
Definition start_process_output (cmd : string) : M World (Z * string) :=
  external (env_start_process cmd) (EvStartProcess cmd).
(** [start_process(cmd)]: the exit code alone. *)
Definition start_process (cmd : string) : M World Z :=
  r <- start_process_output cmd ;; ret (fst r).
Definition path_exists (path : string) : M World bool :=
  external (env_path_exists path) (EvPathExists path).
Definition path_isdir (path : string) : M World bool :=
  external (env_path_isdir path) (EvPathIsdir path).
Definition rmdir (path : string) : M World unit :=
  external (env_rmdir path) (EvRmdir path).
Definition has_windows (v : WinVersion) (mount_point : string)
  : M World bool :=
  external (env_has_windows v mount_point) (EvHasWindows v mount_point).
Definition has_windows_9x := has_windows Win9x.
Definition has_windows_xp := has_windows WinXP.
Definition has_windows_vista := has_windows WinVista.
Definition has_windows_7 := has_windows Win7.
Definition has_windows_8 := has_windows Win8.
Definition has_windows_10 := has_windows Win10.
Definition determine_os_architecture (mount_point : string)
  : M World (option string) :=
  external (env_determine_os_architecture mount_point)
           (EvDetermineOsArchitecture mount_point).
Definition get_os_name_with_lsb (partition mount_point : string)
  (is_current_os : bool) : M World (option string) :=
  external (env_get_os_name_with_lsb partition mount_point is_current_os)
           (EvGetOsNameWithLsb partition mount_point is_current_os).
Definition ask_for_os_name (partition : string) (is_current_os : bool)
  : M World (option string) :=
  external (env_ask_for_os_name partition is_current_os)
           (EvAskForOsName partition is_current_os).
Definition determine_package_manager (apt_cmd dnf_cmd : string)
  : M World string :=
  external (env_determine_package_manager apt_cmd dnf_cmd)
           (EvDeterminePackageManager apt_cmd dnf_cmd).
Definition get_fstab_info (mount_point os_name : string)
  : M World (list string * string * string) :=
  external (env_get_fstab_info mount_point os_name)
           (EvGetFstabInfo mount_point os_name).
Definition show_msg_dlg (kind message : string) : M World unit :=
  external (env_show_msg_dlg kind message) (EvShowMsgDlg kind message).
Definition show_yes_no_dlg (message title : string) : M World bool :=
  external (env_show_yes_no_dlg message title) (EvShowYesNoDlg message title).

End Capabilities.

(** ** The OS detector (Tests/Tools/StartupTools/MainStartupToolsTestFunctions.py) *)

(** What [get_oss] returns: [(OS_INFO, SYSTEM_INFO)] or [(False, False)]. *)
Inductive GetOssResult :=
| OSsFound (os_info : gmap string OSRecord) (system_info : SystemInfo)
| NoOSFound.

Definition MOUNTPOINTS : string := "/mnt/wxfixboot/mountpoints".

(** The distribution probe run on the live system. *)
Definition DISTRO_PROBE : string :=
  "python -c " +:+ DQUOTE +:+
  "from __future__ import print_function; import platform; print(' '.join(platform.linux_distribution()));"
  +:+ DQUOTE.

Section Detector.
Context {World : Type} {env : Environment World}.
Context (DISK_INFO : gmap string DiskEntry).

(** [DISK_INFO[key]] *)
Definition disk_info (key : string) : M World DiskEntry :=
  match DISK_INFO !! key with
  | Some d => ret d
  | None => raise (KeyError key)
  end.

(** [OS_INFO[os_name] = {...}], all keys of the row. *)
Definition store_os (os_name : string) (r : OSRecord) : M World unit :=
  t <- get_OS_INFO ;; put_OS_INFO (<[os_name := r]> t).

(** [SYSTEM_INFO["CurrentOS"] = OS_INFO[os_name].copy()] *)
Definition snapshot_current_os (os_name : string) : M World unit :=
  t <- get_OS_INFO ;;
  match t !! os_name with
  | None => raise (KeyError os_name)
  | Some r =>
      i <- get_SYSTEM_INFO ;;
      put_SYSTEM_INFO
        (mkSystemInfo (IsLiveDisk i) (Some r) (DisableBootloaderOperations i)
                      (DisableBootloaderOperationsBecause i))
  end.

(** The mounting prologue of the macOS and Windows branches: [None] stands
    for the [continue] after a failed mount, otherwise
    [(was_mounted, mount_point)]. *)
Definition mount_if_needed (partition : string)
  : M World (option (bool * string)) :=
  mounted <- is_mounted partition ;;
  if mounted then
    mount_point <- get_mount_point_of partition ;;
    ret (Some (false, mount_point))
  else
    let mount_point := MOUNTPOINTS +:+ partition in
    r <- mount_partition partition mount_point ;;
    if bool_decide (r ≠ 0) then ret None
    else ret (Some (true, mount_point)).

(** The epilogue of the macOS and Windows branches: unmount what the
    prologue mounted; [break] when that fails. *)
Definition unmount_if_needed (was_mounted : bool) (mount_point : string)
  : M World LoopCtl :=
  if was_mounted then
    r <- unmount mount_point ;;
    if bool_decide (r ≠ 0) then ret Break else ret Next
  else ret Next.

(** Look for Mac OS X. *)
Definition look_for_mac (partition : string) : M World LoopCtl :=
  let os_name := "Mac OS X (" +:+ partition +:+ ")" in
  acquired <- mount_if_needed partition ;;
  match acquired with
  | None => ret Next
  | Some (was_mounted, mount_point) =>
      k1 <- path_exists (mount_point +:+ "/mach_kernel") ;;
      found <- (if k1 then ret true
                else path_exists
                       (mount_point +:+ "/System/Library/Kernels/kernel")) ;;
      (if found then
         store_os os_name
           (mkOSRecord os_name false Unknown partition "Mac App Store"
                       [Unknown] Unknown Unknown)
       else ret tt) ;;
      unmount_if_needed was_mounted mount_point
  end.

(** The cascade of Windows edition probes, first match wins. *)
Definition windows_edition (mount_point : string) : M World string :=
  b <- has_windows_9x mount_point ;;
  if b then ret "Windows 95/98/ME" else
  b <- has_windows_xp mount_point ;;
  if b then ret "Windows XP" else
  b <- has_windows_vista mount_point ;;
  if b then ret "Windows Vista" else
  b <- has_windows_7 mount_point ;;
  if b then ret "Windows 7" else
  b <- has_windows_8 mount_point ;;
  if b then ret "Windows 8/8.1" else
  b <- has_windows_10 mount_point ;;
  if b then ret "Windows 10" else
  ret "Windows".

(** [isdir(mp+"/WinNT") or isdir(mp+"/Windows") or isdir(mp+"/WINDOWS")] *)
Definition has_windows_dir (mount_point : string) : M World bool :=
  b <- path_isdir (mount_point +:+ "/WinNT") ;;
  if b then ret true else
  b <- path_isdir (mount_point +:+ "/Windows") ;;
  if b then ret true else
  path_isdir (mount_point +:+ "/WINDOWS").

(** Look for Windows. *)
Definition look_for_windows (partition : string) : M World LoopCtl :=
  acquired <- mount_if_needed partition ;;
  match acquired with
  | None => ret Next
  | Some (was_mounted, mount_point) =>
      marker <- has_windows_dir mount_point ;;
      (if negb marker then ret tt
       else
         edition <- windows_edition mount_point ;;
         let os_name := edition +:+ " (" +:+ partition +:+ ")" in
         store_os os_name
           (mkOSRecord os_name false Unknown partition "Windows Installer"
                       [Unknown] Unknown Unknown)) ;;
      unmount_if_needed was_mounted mount_point
  end.

(** Is the partition the live root, directly or through an alias? *)
Definition is_live_root (root_fs partition : string) (d : DiskEntry) : bool :=
  let root_fs_is_alias :=
    match Aliases d with
    | Some aliases => str_in root_fs aliases
    | None => false
    end in
  bool_decide (partition = root_fs) || root_fs_is_alias.

(** The name fallback: the release metadata, then the operator. *)
Definition name_fallback (partition mount_point : string)
  (is_current_os : bool) : M World (option string) :=
  os_name <- get_os_name_with_lsb partition mount_point is_current_os ;;
  match os_name with
  | None => ask_for_os_name partition is_current_os
  | Some _ => ret os_name
  end.

(** [retval != 0 or os_name == "" or os_name.isspace()] *)
Definition blank_name (retval : Z) (os_name : string) : bool :=
  bool_decide (retval ≠ 0) || bool_decide (os_name = "") || isspace os_name.

(** The probes of the Linux branch, from the distribution probe to the
    storing of the row. *)
Definition probe_linux (partition mount_point cmd apt_cmd dnf_cmd : string)
  (chroot is_current_os : bool) : M World unit :=
  out <- start_process_output cmd ;;
  let '(retval, temp) := out in
  let os_name := remove_newlines temp in
  os_arch <- determine_os_architecture mount_point ;;
  os_name <-
    (if blank_name retval os_name && bool_decide (os_arch ≠ None)
     then name_fallback partition mount_point is_current_os
     else ret (Some os_name)) ;;
  package_manager <- determine_package_manager apt_cmd dnf_cmd ;;
  match os_name, os_arch with
  | Some os_name, Some os_arch =>
      if bool_decide (package_manager ≠ Unknown) then
        fstab <- get_fstab_info mount_point os_name ;;
        let '(raw_fstab_info, efi_partition, boot_partition) := fstab in
        store_os os_name
          (mkOSRecord os_name is_current_os os_arch partition package_manager
                      raw_fstab_info efi_partition boot_partition) ;;
        if negb chroot then snapshot_current_os os_name else ret tt
      else ret tt
  | _, _ => ret tt
  end.

(** Look for Linux. *)
Definition look_for_linux (root_fs partition : string) (d : DiskEntry)
  : M World LoopCtl :=
  if is_live_root root_fs partition d then
    probe_linux partition "" DISTRO_PROBE "which apt-get" "which dnf"
                false true ;;
    ret Next
  else
    let mount_point := MOUNTPOINTS +:+ partition in
    r <- mount_partition partition mount_point ;;
    if bool_decide (r ≠ 0) then ret Next
    else
      probe_linux partition mount_point
        ("chroot " +:+ mount_point +:+ " " +:+ DISTRO_PROBE)
        ("chroot " +:+ mount_point +:+ " which apt-get")
        ("chroot " +:+ mount_point +:+ " which dnf")
        true false ;;
      r <- unmount mount_point ;;
      if bool_decide (r ≠ 0) then ret Break
      else rmdir mount_point ;; ret Next.

(** The body of the scan loop. *)
Definition get_oss_body (root_fs partition : string) : M World LoopCtl :=
  d <- disk_info partition ;;
  if bool_decide (Type_ d = "Device") then ret Next
  else if str_in (FileSystem d) ["hfsplus"; "hfs"; "apfs"] then
    look_for_mac partition
  else if str_in (FileSystem d) ["vfat"; "ntfs"; "exfat"] then
    look_for_windows partition
  else look_for_linux root_fs partition d.

Definition get_oss : M World GetOssResult :=
  root_fs <- get_partition_mounted_at "/" ;;
  for_in (sorted_keys DISK_INFO) (get_oss_body root_fs) ;;
  os_info <- get_OS_INFO ;;
  system_info <- get_SYSTEM_INFO ;;
  if bool_decide (1 ≤ size os_info)%nat then ret (OSsFound os_info system_info)
  else ret NoOSFound.

End Detector.

(** ** The checkability classifier (Tools/BackendTools/helpers.py) *)

(** A loop without [break] that updates local variables. *)
Section Accumulate.
Context {World : Type}.

Fixpoint for_acc {A S} (l : list A) (acc : S) (body : A → S → M World S)
  : M World S :=
  match l with
  | [] => ret acc
  | x :: l' => acc' <- body x acc ;; for_acc l' acc' body
  end.

End Accumulate.

(** A dictionary iterated in insertion order. *)
Fixpoint dict_set {V} (k : string) (v : V) (d : list (string * V))
  : list (string * V) :=
  match d with
  | [] => [(k, v)]
  | (k', v') :: d' =>
      if bool_decide (k' = k) then (k, v) :: d'
      else (k', v') :: dict_set k v d'
  end.

Fixpoint dict_get {V} (k : string) (d : list (string * V)) : option V :=
  match d with
  | [] => None
  | (k', v') :: d' => if bool_decide (k' = k) then Some v' else dict_get k d'
  end.

(** A row of [filesystems_to_check]. *)
Record CheckEntry := mkCheckEntry {
  Remount : bool;
  MountPoint : string
}.

(** The local variables a loop iteration of [find_checkable_file_systems]
    assigns; [reason] is assigned only on the branches that skip. *)
Record Verdict := mkVerdict {
  mount_point : string;
  check_this_fs : bool;
  remount_fs_after : bool;
  reason : option string
}.

Definition CHECKER_MISSING : string := "filesystem checker was not found.".
Definition DISK_BUSY : string := "disk is busy.".
Definition NOT_RECOGNISED : string := "filesystem was not recognised.".
Definition LVM_PARTITION : string := "LVM Partition".

(** The line appended to [do_not_check_list]. *)
Definition skip_line (disk reason : string) : string :=
  disk +:+ ", because the " +:+ reason.

Definition NEWLINE_STR : string := String NEWLINE EmptyString.

(** The message that reports [do_not_check_list] to the operator. *)
Definition skip_report (do_not_check_list : list string) : string :=
  "The following filesystems will not be checked:"
  +:+ NEWLINE_STR +:+ NEWLINE_STR
  +:+ String.concat NEWLINE_STR do_not_check_list
  +:+ NEWLINE_STR +:+ NEWLINE_STR
  +:+ "The most likely reason for this is that some of the filesystems are in use, or that the required filesystem checkers weren't found. WxFixBoot will now continue to check the remaining filesystems.".

Section Gate.
Context {World : Type} {env : Environment World}.
Context (DISK_INFO : gmap string DiskEntry).

(** [DISK_INFO[disk]["Aliases"]] *)
Definition disk_aliases (d : DiskEntry) : M World (list string) :=
  match Aliases d with
  | Some aliases => ret aliases
  | None => raise (KeyError "Aliases")
  end.

(** One iteration of the loop of [find_missing_fsck_modules]. *)
Definition missing_fsck_body (disk : string) (failed_list : list string)
  : M World (list string) :=
  d <- disk_info DISK_INFO disk ;;
  if negb (str_in (FileSystem d) [Unknown; NotApplicable]) then
    r <- start_process ("which fsck." +:+ FileSystem d) ;;
    if bool_decide (r ≠ 0) then
      ret (failed_list ++ ["fsck." +:+ FileSystem d])
    else ret failed_list
  else ret failed_list.

Definition find_missing_fsck_modules : M World (list string) :=
  for_acc (sorted_keys DISK_INFO) [] missing_fsck_body.

(** The chain of rules applied to one partition. *)
Definition checkable_verdict (root_fs : string)
  (missing_fsck_modules : list string) (disk : string) (d : DiskEntry)
  : M World Verdict :=
  if str_in ("fsck." +:+ FileSystem d) missing_fsck_modules then
    ret (mkVerdict "None" false false (Some CHECKER_MISSING))
  else
    system_info <- get_SYSTEM_INFO ;;
    if negb (IsLiveDisk system_info) && bool_decide (disk = root_fs) then
      ret (mkVerdict "/" false false (Some DISK_BUSY))
    else
      root_is_alias <-
        (if bool_decide (Product d = LVM_PARTITION) then
           aliases <- disk_aliases d ;; ret (str_in root_fs aliases)
         else ret false) ;;
      if root_is_alias then
        ret (mkVerdict "/" false false (Some DISK_BUSY))
      else if str_in (FileSystem d) [Unknown; NotApplicable] then
        ret (mkVerdict "None" false false (Some NOT_RECOGNISED))
      else
        mounted <- is_mounted disk ;;
        if negb mounted then ret (mkVerdict "None" true false None)
        else
          no_alias_mounted <-
            (if bool_decide (Product d = LVM_PARTITION) then
               aliases <- disk_aliases d ;;
               any <- any_mounted aliases ;;
               ret (negb any)
             else ret false) ;;
          if no_alias_mounted then ret (mkVerdict "None" true false None)
          else
            mount_point <- get_mount_point_of disk ;;
            r <- unmount disk ;;
            if bool_decide (r ≠ 0) then
              ret (mkVerdict mount_point false false (Some DISK_BUSY))
            else ret (mkVerdict mount_point true true None).

(** One iteration of the loop over the sorted keys, on the local variables
    [filesystems_to_check] and [do_not_check_list]. *)
Definition checkable_body (root_fs : string)
  (missing_fsck_modules : list string) (disk : string)
  (acc : list (string * CheckEntry) * list string)
  : M World (list (string * CheckEntry) * list string) :=
  let '(filesystems_to_check, do_not_check_list) := acc in
  d <- disk_info DISK_INFO disk ;;
  if bool_decide (Type_ d = "Device") then ret acc
  else
    v <- checkable_verdict root_fs missing_fsck_modules disk d ;;
    if check_this_fs v then
      ret (dict_set disk (mkCheckEntry (remount_fs_after v) (mount_point v))
                    filesystems_to_check,
           do_not_check_list)
    else
      match reason v with
      | Some reason =>
          ret (filesystems_to_check,
               do_not_check_list ++ [skip_line disk reason])
      | None => raise (UnboundLocalError "reason")
      end.

(** The part of [find_checkable_file_systems] before the report: it leaves
    [filesystems_to_check] and [do_not_check_list]. *)
Definition checkable_scan
  : M World (list (string * CheckEntry) * list string) :=
  root_fs <- get_partition_mounted_at "/" ;;
  missing_fsck_modules <- find_missing_fsck_modules ;;
  for_acc (sorted_keys DISK_INFO) ([], [])
          (checkable_body root_fs missing_fsck_modules).

Definition find_checkable_file_systems
  : M World (list (string * CheckEntry)) :=
  scanned <- checkable_scan ;;
  let '(filesystems_to_check, do_not_check_list) := scanned in
  (if bool_decide (do_not_check_list ≠ []) then
     show_msg_dlg "info" (skip_report do_not_check_list)
   else ret tt) ;;
  ret filesystems_to_check.

End Gate.

(** ** The filesystem check (Tools/BackendTools/essentials.py) *)

(** [s.split()]: the maximal runs of characters that are not whitespace. *)
Fixpoint split_words (s word : string) : list string :=
  match s with
  | EmptyString => if bool_decide (word = "") then [] else [word]
  | String c s' =>
      if is_whitespace c then
        if bool_decide (word = "") then split_words s' ""
        else word :: split_words s' ""
      else split_words s' (word +:+ String c EmptyString)
  end.

Definition split (s : string) : list string := split_words s "".

(** [str(n)] on an integer. *)
Definition str_of_int (n : Z) : string := NilZero.string_of_int (Z.to_int n).

(** An element of the list [OPERATIONS]: a function, or a tuple of a
    function and its arguments. Functions are identified by their names. *)
Inductive Operation :=
| OpFunction (f : string)
| OpTuple (f : string) (args : list string).

Definition BADBLOCKS : string := "badblocks -sv ".

Section Essentials.
Context {World : Type} {env : Environment World}.
Context (DISK_INFO : gmap string DiskEntry) (OPERATIONS : list Operation).

(** [exec_list[0]] *)
Definition first_word (exec_list : list string) : M World string :=
  match exec_list with
  | w :: _ => ret w
  | [] => raise IndexError
  end.

(** The loop over [OPERATIONS] that sets [doing_bootloader_operations]. *)
Fixpoint doing_bootloader_operations (ops : list Operation)
  (manage_bootloader_function : string) : bool :=
  match ops with
  | [] => false
  | OpTuple f _ :: ops' =>
      if bool_decide (manage_bootloader_function = f) then true
      else doing_bootloader_operations ops' manage_bootloader_function
  | OpFunction _ :: ops' =>
      doing_bootloader_operations ops' manage_bootloader_function
  end.

Definition handle_filesystem_check_return_values (exec_cmds : string)
  (retval : Z) (partition manage_bootloader_function : string)
  : M World unit :=
  let exec_list := split exec_cmds in
  fixed <-
    (if bool_decide (retval ∈ [1; 2; 3]) then
       w <- first_word exec_list ;; ret (bool_decide (w ≠ "badblocks"))
     else ret false) ;;
  if (fixed : bool) then
    w <- first_word exec_list ;;
    if bool_decide (w = "xfs_repair") then
      show_msg_dlg "warning"
        ("Corruption was found on the filesystem: " +:+ partition
         +:+ "! Fortunately, it looks like the checker utility has fixed the corruption. Click okay to continue.")
    else if str_in w ["fsck.jfs"; "fsck.minix"; "fsck.reiserfs"; "fsck.vfat";
                      "fsck.ext2"; "fsck.ex3"; "fsck.ext4"; "fsck.ext4dev"]
    then
      show_msg_dlg "warning"
        ("The filesystem checker found and successfully fixed errors on partition: "
         +:+ partition +:+ ". Click okay to continue.")
    else ret tt
  else
    let doing := doing_bootloader_operations OPERATIONS
                   manage_bootloader_function in
    first_word exec_list ;;        (* the logged message indexes exec_list[0] *)
    if doing then
      result <-
        show_yes_no_dlg
          ("Error! The filesystem checker gave exit value: "
           +:+ str_of_int retval
           +:+ "! This could indicate filesystem corruption, a problem with the filesystem checker, or bad sectors on partition: "
           +:+ partition
           +:+ ". If you perform bootloader operations on this partition, your system could become unstable or unbootable. Do you want to disable bootloader operations, as is strongly recommended?")
          "WxFixBoot - Disable Bootloader Operations?" ;;
      if (result : bool) then
        i <- get_SYSTEM_INFO ;;
        put_SYSTEM_INFO
          (mkSystemInfo (IsLiveDisk i) (CurrentOS i) true
             (DisableBootloaderOperationsBecause i
              ++ ["Filesystem corruption was detected on " +:+ partition]))
      else ret tt
    else ret tt.

Definition NOT_SUPPORTED (disk : string) : string :=
  "The filesystem on Disk: " +:+ disk
  +:+ " could not be checked, as WxFixBoot doesn't support checking it yet. "
  +:+ disk +:+ " will now be skipped.".

(** The command list and [run_badblocks] for one disk; [run_badblocks] is
    [False] unless a branch sets it. *)
Definition plan_check (_type disk fs : string) : M World (string * bool) :=
  let run_badblocks := false in
  if bool_decide (_type = "Quick") then
    if bool_decide (fs = "jfs") then
      ret ("fsck.jfs -vf " +:+ disk, run_badblocks)
    else if bool_decide (fs = "minix") then
      ret ("fsck.minix -avf " +:+ disk, run_badblocks)
    else if bool_decide (fs = "reiserfs") then
      ret ("fsck.reiserfs -apf " +:+ disk, run_badblocks)
    else if bool_decide (fs = "xfs") then
      ret ("xfs_repair -Pvd " +:+ disk, run_badblocks)
    else if str_in fs ["hfs"; "hfsplus"] then
      ret ("fsck.hfsplus -fy " +:+ disk, run_badblocks)
    else if bool_decide (fs = "vfat") then
      ret ("fsck.vfat -yv " +:+ disk, run_badblocks)
    else if str_in fs ["ext2"; "ext3"; "ext4"; "ext4dev"] then
      ret ("fsck." +:+ fs +:+ " -yvf " +:+ disk, run_badblocks)
    else
      show_msg_dlg "error" (NOT_SUPPORTED disk) ;; ret ("", run_badblocks)
  else
    if bool_decide (fs = "jfs") then
      ret ("fsck.jfs -vf " +:+ disk, true)
    else if bool_decide (fs = "minix") then
      ret ("fsck.minix -avf " +:+ disk, true)
    else if bool_decide (fs = "reiserfs") then
      ret ("fsck.reiserfs -apf " +:+ disk, true)
    else if bool_decide (fs = "xfs") then
      ret ("xfs_repair -Pvd " +:+ disk, true)
    else if str_in fs ["hfs"; "hfsplus"] then
      ret ("fsck.hfsplus -fy " +:+ disk, true)
    else if bool_decide (fs = "vfat") then
      ret ("fsck.vfat -yvt " +:+ disk, run_badblocks)
    else if str_in fs ["ext2"; "ext3"; "ext4"; "ext4dev"] then
      ret ("fsck." +:+ fs +:+ " -yvcf " +:+ disk, run_badblocks)
    else
      show_msg_dlg "info" (NOT_SUPPORTED disk) ;; ret ("", run_badblocks).

(** Run a command and hand a nonzero exit code to the handler. *)
Definition run_and_handle (cmd disk manage_bootloader_function : string)
  : M World unit :=
  retval <- start_process cmd ;;
  if bool_decide (retval = 0) then ret tt
  else handle_filesystem_check_return_values cmd retval disk
         manage_bootloader_function.

(** One iteration of the loop over [filesystems_to_check]. *)
Definition filesystem_check_body (_type manage_bootloader_function : string)
  (filesystems_to_check : list (string * CheckEntry)) (disk : string)
  : M World LoopCtl :=
  d <- disk_info DISK_INFO disk ;;
  plan <- plan_check _type disk (FileSystem d) ;;
  let '(exec_cmds, run_badblocks) := plan in
  (if bool_decide (exec_cmds ≠ "") then
     run_and_handle exec_cmds disk manage_bootloader_function
   else ret tt) ;;
  (if (run_badblocks : bool) then
     run_and_handle (BADBLOCKS +:+ disk) disk manage_bootloader_function
   else ret tt) ;;
  match dict_get disk filesystems_to_check with
  | None => raise (KeyError disk)
  | Some entry =>
      (if Remount entry then
         mount_partition disk (MountPoint entry) ;; ret tt
       else ret tt) ;;
      ret Next
  end.

(** The progress updates of the window are not modelled. *)
Definition filesystem_check (_type manage_bootloader_function : string)
  : M World unit :=
  filesystems_to_check <- find_checkable_file_systems DISK_INFO ;;
  show_msg_dlg "info"
    "WxFixBoot will now perform the disk checks. You may wish to open the terminal output box to view the progress information." ;;
  for_in (map fst filesystems_to_check)
         (filesystem_check_body _type manage_bootloader_function
                                filesystems_to_check).

End Essentials.

(** ** Reading traces *)

(** The families of filesystems the scan loop distinguishes. *)
Definition mac_family (d : DiskEntry) : bool :=
  str_in (FileSystem d) ["hfsplus"; "hfs"; "apfs"].
Definition windows_family (d : DiskEntry) : bool :=
  str_in (FileSystem d) ["vfat"; "ntfs"; "exfat"].
Definition is_device (d : DiskEntry) : bool :=
  bool_decide (Type_ d = "Device").
Definition linux_family (d : DiskEntry) : bool :=
  negb (is_device d) && negb (mac_family d) && negb (windows_family d).

(** The release-metadata probe or the operator prompt was called. *)
Definition is_name_fallback (ev : Event) : bool :=
  match ev with
  | EvGetOsNameWithLsb _ _ _ _ | EvAskForOsName _ _ _ => true
  | _ => false
  end.

(** The architecture probe answered [None], or answered an architecture. *)
Definition arch_failed (ev : Event) : bool :=
  match ev with
  | EvDetermineOsArchitecture _ None => true
  | _ => false
  end.
Definition arch_determined (ev : Event) : bool :=
  match ev with
  | EvDetermineOsArchitecture _ (Some _) => true
  | _ => false
  end.

(** The distribution probe failed or printed a blank name. *)
Definition distro_probe_blank (ev : Event) : bool :=
  match ev with
  | EvStartProcess _ (retval, temp) => blank_name retval (remove_newlines temp)
  | _ => false
  end.

(** The package manager probe answered "Unknown"; the operator declined to
    name the system. *)
Definition package_manager_unknown (ev : Event) : bool :=
  match ev with
  | EvDeterminePackageManager _ _ pm => bool_decide (pm = Unknown)
  | _ => false
  end.
Definition name_declined (ev : Event) : bool :=
  match ev with
  | EvAskForOsName _ _ None => true
  | _ => false
  end.
Definition unresolved (ev : Event) : bool :=
  arch_failed ev || package_manager_unknown ev || name_declined ev.

(** An unmount that returned a nonzero exit code. *)
Definition failed_unmount (ev : Event) : bool :=
  match ev with
  | EvUnmount _ r => bool_decide (r ≠ 0)
  | _ => false
  end.

(** Positive signatures: a kernel file, a Windows directory, and the three
    sources of a Linux name. *)
Definition kernel_found (ev : Event) : bool :=
  match ev with
  | EvPathExists _ true => true
  | _ => false
  end.
Definition windows_dir_found (ev : Event) : bool :=
  match ev with
  | EvPathIsdir _ true => true
  | _ => false
  end.
Definition names_os (name : string) (ev : Event) : bool :=
  match ev with
  | EvStartProcess _ (retval, temp) =>
      negb (blank_name retval (remove_newlines temp))
      && bool_decide (remove_newlines temp = name)
  | EvGetOsNameWithLsb _ _ _ (Some n) => bool_decide (n = name)
  | EvAskForOsName _ _ (Some n) => bool_decide (n = name)
  | _ => false
  end.
Definition determines_arch (arch : string) (ev : Event) : bool :=
  match ev with
  | EvDetermineOsArchitecture _ (Some a) => bool_decide (a = arch)
  | _ => false
  end.
Definition determines_package_manager (pm : string) (ev : Event) : bool :=
  match ev with
  | EvDeterminePackageManager _ _ p => bool_decide (p = pm)
  | _ => false
  end.

(** What the events of one iteration show about the row it stored. *)
Definition identified (rec : OSRecord) (evs : list Event) : Prop :=
  (PackageManager rec = "Mac App Store" ∧ Arch rec = Unknown ∧
   existsb kernel_found evs = true) ∨
  (PackageManager rec = "Windows Installer" ∧ Arch rec = Unknown ∧
   existsb windows_dir_found evs = true) ∨
  (existsb (names_os (Name rec)) evs = true ∧
   existsb (determines_arch (Arch rec)) evs = true ∧
   existsb (determines_package_manager (PackageManager rec)) evs = true).

(** The specification's words for a fully populated row: the architecture
    and the package manager are resolved. *)
Definition fully_populated (rec : OSRecord) : Prop :=
  Arch rec ≠ Unknown ∧ PackageManager rec ≠ Unknown.

(** [SYSTEM_INFO["CurrentOS"] = rec] *)
Definition with_current_os (i : SystemInfo) (rec : OSRecord) : SystemInfo :=
  mkSystemInfo (IsLiveDisk i) (Some rec) (DisableBootloaderOperations i)
               (DisableBootloaderOperationsBecause i).

(** The rules of the checkability classifier, as tests on one entry. *)
Definition checker_missing (missing_fsck_modules : list string)
  (d : DiskEntry) : bool :=
  str_in ("fsck." +:+ FileSystem d) missing_fsck_modules.
Definition is_busy_root (system_info : SystemInfo) (root_fs disk : string)
  : bool :=
  negb (IsLiveDisk system_info) && bool_decide (disk = root_fs).
Definition is_root_alias (root_fs : string) (d : DiskEntry) : bool :=
  bool_decide (Product d = LVM_PARTITION) &&
  match Aliases d with
  | Some aliases => str_in root_fs aliases
  | None => false
  end.
Definition unrecognised (d : DiskEntry) : bool :=
  str_in (FileSystem d) [Unknown; NotApplicable].

(** Every LVM partition of the inventory carries its list of aliases. *)
Definition lvm_has_aliases (DISK_INFO : gmap string DiskEntry) : Prop :=
  ∀ disk d, DISK_INFO !! disk = Some d → Product d = LVM_PARTITION →
            is_Some (Aliases d).

(** A line of the skip report for a disk, with one of the three reasons. *)
Definition is_skip_line (disk line : string) : Prop :=
  ∃ reason, reason ∈ [CHECKER_MISSING; DISK_BUSY; NOT_RECOGNISED] ∧
            line = skip_line disk reason.

(** The checker of a filesystem is absent: looking for it fails, whenever
    it is looked for. *)
Definition checker_absent {World : Type} {env : Environment World}
  (fs : string) : Prop :=
  ∀ w, (env_start_process ("which fsck." +:+ fs) w).1.1 ≠ 0.

(** The local variables of the classifier account for the entries visited:
    the keys of [filesystems_to_check] and the disks of the lines of
    [do_not_check_list], in order, are distinct and are together the visited
    entries that are not devices. *)
Definition classified (DISK_INFO : gmap string DiskEntry)
  (visited : list string) (filesystems_to_check : list (string * CheckEntry))
  (do_not_check_list : list string) : Prop :=
  ∃ skipped,
    NoDup (map fst filesystems_to_check ++ skipped) ∧
    (∀ disk, disk ∈ map fst filesystems_to_check ++ skipped ↔
             disk ∈ visited ∧
             ∃ d, DISK_INFO !! disk = Some d ∧ is_device d = false) ∧
    Forall2 is_skip_line skipped do_not_check_list.

(** No rule of the classifier skips the entries of [filesystems_to_check]. *)
Definition checked_safely (DISK_INFO : gmap string DiskEntry)
  (system_info : SystemInfo) (root_fs : string)
  (missing_fsck_modules : list string)
  (filesystems_to_check : list (string * CheckEntry)) : Prop :=
  ∀ disk d,
    disk ∈ map fst filesystems_to_check → DISK_INFO !! disk = Some d →
    checker_missing missing_fsck_modules d = false ∧
    is_busy_root system_info root_fs disk = false ∧
    is_root_alias root_fs d = false ∧ unrecognised d = false.

(** The entries visited whose checker is in the list of missing modules are
    reported with that reason. *)
Definition missing_reported (DISK_INFO : gmap string DiskEntry)
  (missing_fsck_modules : list string) (visited : list string)
  (do_not_check_list : list string) : Prop :=
  ∀ disk d,
    disk ∈ visited → DISK_INFO !! disk = Some d → is_device d = false →
    checker_missing missing_fsck_modules d = true →
    skip_line disk CHECKER_MISSING ∈ do_not_check_list.

(** The call that runs badblocks: a process whose command starts with the
    name of the program. *)
Definition runs_badblocks (ev : Event) : bool :=
  match ev with
  | EvStartProcess cmd _ => String.prefix "badblocks" cmd
  | _ => false
  end.

(** The filesystems whose checkers do not look for bad sectors. *)
Definition BADBLOCKS_FILESYSTEMS : list string :=
  ["jfs"; "minix"; "reiserfs"; "xfs"; "hfs"; "hfsplus"].

(** An event that does not run badblocks. *)
Definition quiet (ev : Event) : Prop := runs_badblocks ev = false.

(** What an event of the check shows when it runs badblocks. *)
Definition badblocks_justified (DISK_INFO : gmap string DiskEntry)
  (_type : string) (ev : Event) : Prop :=
  runs_badblocks ev = true →
  _type ≠ "Quick" ∧
  ∃ disk d out,
    ev = EvStartProcess (BADBLOCKS +:+ disk) out ∧
    DISK_INFO !! disk = Some d ∧ FileSystem d ∈ BADBLOCKS_FILESYSTEMS.

(** What holds of the table while the loop runs from an empty table: every
    row is stored under its name, for a partition already visited that is
    not a device, with a known package manager, and flagged as the current
    OS exactly when that partition is a Linux-family live root; no two rows
    belong to the same partition. *)
Definition scan_table (DISK_INFO : gmap string DiskEntry) (root_fs : string)
  (visited : list string) (t : gmap string OSRecord) : Prop :=
  (∀ name rec, t !! name = Some rec →
     Name rec = name ∧ PackageManager rec ≠ Unknown ∧
     Partition rec ∈ visited ∧
     ∃ d, DISK_INFO !! Partition rec = Some d ∧ is_device d = false ∧
          IsCurrentOS rec
          = linux_family d && is_live_root root_fs (Partition rec) d) ∧
  (∀ n1 r1 n2 r2, t !! n1 = Some r1 → t !! n2 = Some r2 →
     Partition r1 = Partition r2 → n1 = n2).

(** ** Concrete environments

    A machine whose answers depend only on the arguments of the call; the
    world carries nothing. Used to run the model on concrete inventories. *)

Record Machine := mkMachine {
  m_root_fs : string;
  m_is_mounted : string → bool;
  m_any_mounted : list string → bool;
  m_mount_point_of : string → string;
  m_mount : string → string → Z;
  m_unmount : string → Z;
  m_run : string → Z * string;
  m_exists : string → bool;
  m_isdir : string → bool;
  m_has_windows : WinVersion → string → bool;
  m_arch : string → option string;
  m_lsb : string → option string;
  m_ask : string → option string;
  m_package_manager : string → string;
  m_fstab : string → list string * string * string;
  m_yes_no : string → bool
}.

Definition machine_env (m : Machine) : Environment unit := {|
  env_get_partition_mounted_at := λ _ w, (m_root_fs m, w);
  env_is_mounted := λ p w, (m_is_mounted m p, w);
  env_any_mounted := λ al w, (m_any_mounted m al, w);
  env_get_mount_point_of := λ p w, (m_mount_point_of m p, w);
  env_mount_partition := λ p mp w, (m_mount m p mp, w);
  env_unmount := λ p w, (m_unmount m p, w);
  env_start_process := λ cmd w, (m_run m cmd, w);
  env_path_exists := λ path w, (m_exists m path, w);
  env_path_isdir := λ path w, (m_isdir m path, w);
  env_rmdir := λ _ w, (tt, w);
  env_has_windows := λ v mp w, (m_has_windows m v mp, w);
  env_determine_os_architecture := λ mp w, (m_arch m mp, w);
  env_get_os_name_with_lsb := λ p _ _ w, (m_lsb m p, w);
  env_ask_for_os_name := λ p _ w, (m_ask m p, w);
  env_determine_package_manager := λ apt _ w, (m_package_manager m apt, w);
  env_get_fstab_info := λ mp _ w, (m_fstab m mp, w);
  env_show_msg_dlg := λ _ _ w, (tt, w);
  env_show_yes_no_dlg := λ msg _ w, (m_yes_no m msg, w)
|}.

(** A machine on which nothing is mounted, every command fails and every
    probe answers no. *)
Definition bare_machine : Machine := {|
  m_root_fs := "/dev/sda2";
  m_is_mounted := λ _, false;
  m_any_mounted := λ _, false;
  m_mount_point_of := λ _, "";
  m_mount := λ _ _, 0;
  m_unmount := λ _, 0;
  m_run := λ _, (1, "");
  m_exists := λ _, false;
  m_isdir := λ _, false;
  m_has_windows := λ _ _, false;
  m_arch := λ _, None;
  m_lsb := λ _, None;
  m_ask := λ _, None;
  m_package_manager := λ _, Unknown;
  m_fstab := λ _, ([Unknown], Unknown, Unknown);
  m_yes_no := λ _, false
|}.

Definition initial_state (live : bool) : State unit :=
  mkState tt ∅ (mkSystemInfo live None false []).

Definition part (fs : string) : DiskEntry :=
  mkDiskEntry "Partition" fs Unknown "Host Partition" None.

Definition device : DiskEntry :=
  mkDiskEntry "Device" NotApplicable Unknown "Disk" None.

(** *** Inventories and tables used in the examples *)

Definition os_ubuntu : OSRecord :=
  mkOSRecord "Ubuntu 20.04" true "x86_64" "/dev/sda2" "apt-get" []
             "/dev/sda1" Unknown.

Definition matcher_os_info : gmap string OSRecord :=
  <["Ubuntu 20.04" := os_ubuntu]> ∅.

Definition matcher_disk_info : gmap string DiskEntry :=
  <["/dev/sda1" := mkDiskEntry "Partition" "vfat" "AB12-CD34" "Host Partition"
                               None]>
  (<["/dev/sda2" := mkDiskEntry "Partition" "ext4" Unknown "Host Partition"
                                None]> ∅).

(** *** Machines and inventories for the detector *)

(** A live Ubuntu on /dev/sda2; every other Linux partition answers the
    same probes once mounted. *)
Definition ubuntu_machine : Machine := {|
  m_root_fs := "/dev/sda2";
  m_is_mounted := λ p, bool_decide (p = "/dev/sda2");
  m_any_mounted := λ _, false;
  m_mount_point_of := λ _, "/";
  m_mount := λ _ _, 0;
  m_unmount := λ _, 0;
  m_run := λ _, (0, "Ubuntu 20.04" +:+ NEWLINE_STR);
  m_exists := λ _, false;
  m_isdir := λ _, false;
  m_has_windows := λ _ _, false;
  m_arch := λ _, Some "x86_64";
  m_lsb := λ _, None;
  m_ask := λ _, None;
  m_package_manager := λ _, "apt-get";
  m_fstab := λ _, ([], Unknown, Unknown);
  m_yes_no := λ _, false
|}.

(** The same machine when the architecture probe answers [None]. *)
Definition no_arch_machine : Machine := {|
  m_root_fs := "/dev/sda2";
  m_is_mounted := λ p, bool_decide (p = "/dev/sda2");
  m_any_mounted := λ _, false;
  m_mount_point_of := λ _, "/";
  m_mount := λ _ _, 0;
  m_unmount := λ _, 0;
  m_run := λ _, (0, "Ubuntu 20.04" +:+ NEWLINE_STR);
  m_exists := λ _, false;
  m_isdir := λ _, false;
  m_has_windows := λ _ _, false;
  m_arch := λ _, None;
  m_lsb := λ _, None;
  m_ask := λ _, None;
  m_package_manager := λ _, "apt-get";
  m_fstab := λ _, ([], Unknown, Unknown);
  m_yes_no := λ _, false
|}.

(** A machine with a Windows 7 directory on every partition it mounts. *)
Definition windows_machine : Machine := {|
  m_root_fs := "/dev/sdb1";
  m_is_mounted := λ _, false;
  m_any_mounted := λ _, false;
  m_mount_point_of := λ _, "";
  m_mount := λ _ _, 0;
  m_unmount := λ _, 0;
  m_run := λ _, (1, "");
  m_exists := λ _, false;
  m_isdir := λ _, true;
  m_has_windows := λ v _, match v with Win7 => true | _ => false end;
  m_arch := λ _, None;
  m_lsb := λ _, None;
  m_ask := λ _, None;
  m_package_manager := λ _, Unknown;
  m_fstab := λ _, ([], Unknown, Unknown);
  m_yes_no := λ _, false
|}.

(** The same machine when every unmount fails. *)
Definition stuck_machine : Machine := {|
  m_root_fs := "/dev/sdb1";
  m_is_mounted := λ _, false;
  m_any_mounted := λ _, false;
  m_mount_point_of := λ _, "";
  m_mount := λ _ _, 0;
  m_unmount := λ _, 1;
  m_run := λ _, (1, "");
  m_exists := λ _, true;
  m_isdir := λ _, true;
  m_has_windows := λ v _, match v with Win7 => true | _ => false end;
  m_arch := λ _, None;
  m_lsb := λ _, None;
  m_ask := λ _, None;
  m_package_manager := λ _, Unknown;
  m_fstab := λ _, ([], Unknown, Unknown);
  m_yes_no := λ _, false
|}.

(** A live system whose distribution probe fails, so that the operator is
    asked for a name and answers with a name per partition. *)
Definition operator_machine : Machine := {|
  m_root_fs := "/dev/sda2";
  m_is_mounted := λ _, true;
  m_any_mounted := λ _, true;
  m_mount_point_of := λ _, "/";
  m_mount := λ _ _, 0;
  m_unmount := λ _, 0;
  m_run := λ _, (1, "");
  m_exists := λ _, false;
  m_isdir := λ _, false;
  m_has_windows := λ _ _, false;
  m_arch := λ _, Some "x86_64";
  m_lsb := λ _, None;
  m_ask := λ p, Some ("Linux on " +:+ p);
  m_package_manager := λ _, "apt-get";
  m_fstab := λ _, ([], Unknown, Unknown);
  m_yes_no := λ _, false
|}.

Definition windows_inventory : gmap string DiskEntry :=
  <["/dev/sda" := device]> (<["/dev/sda1" := part "ntfs"]> ∅).

Definition linux_inventory : gmap string DiskEntry :=
  <["/dev/sda" := device]>
  (<["/dev/sda2" := part "ext4"]> (<["/dev/sda3" := part "ext4"]> ∅)).

Definition mixed_inventory : gmap string DiskEntry :=
  <["/dev/sda1" := part "ntfs"]>
  (<["/dev/sda2" := part "ext4"]> (<["/dev/sda3" := part "hfsplus"]> ∅)).

Definition devices_only : gmap string DiskEntry :=
  <["/dev/sda" := device]> (<["/dev/sdb" := device]> ∅).

(** The live root /dev/sda2 and a second entry that lists it as an alias. *)
Definition aliased_inventory : gmap string DiskEntry :=
  <["/dev/sda2" := part "ext4"]>
  (<["/dev/sda3" := mkDiskEntry "Partition" "ext4" Unknown LVM_PARTITION
                                (Some ["/dev/sda2"])]> ∅).

(** Runs of the detector on these machines. *)
Definition windows_run : Outcome GetOssResult * State unit * list Event :=
  Eval vm_compute in
    get_oss (env := machine_env windows_machine) windows_inventory
            (initial_state false).

Definition aliased_run : Outcome GetOssResult * State unit * list Event :=
  Eval vm_compute in
    get_oss (env := machine_env operator_machine) aliased_inventory
            (initial_state false).

Definition ubuntu_run : Outcome GetOssResult * State unit * list Event :=
  Eval vm_compute in
    get_oss (env := machine_env ubuntu_machine) linux_inventory
            (initial_state false).

Definition ubuntu_root_iteration
  : Outcome LoopCtl * State unit * list Event :=
  Eval vm_compute in
    get_oss_body (env := machine_env ubuntu_machine) linux_inventory
                 "/dev/sda2" "/dev/sda2" (initial_state false).

Definition no_arch_iteration : Outcome LoopCtl * State unit * list Event :=
  Eval vm_compute in
    get_oss_body (env := machine_env no_arch_machine) linux_inventory
                 "/dev/sda2" "/dev/sda3" (initial_state false).

Definition stuck_scan : Outcome unit * State unit * list Event :=
  Eval vm_compute in
    for_in (sorted_keys mixed_inventory)
           (get_oss_body (env := machine_env stuck_machine) mixed_inventory
                         "/dev/sdb1")
           (initial_state false).

(** *** Machines and inventories for the classifier *)

Definition unknown_inventory : gmap string DiskEntry :=
  <["/dev/sda" := device]> (<["/dev/sda1" := part Unknown]> ∅).

(** Runs of the classifier. *)
Definition unknown_scan
  : Outcome (list (string * CheckEntry) * list string) * State unit
    * list Event :=
  Eval vm_compute in
    checkable_scan (env := machine_env bare_machine) unknown_inventory
                   (initial_state false).

Definition bare_check
  : Outcome (list (string * CheckEntry)) * State unit * list Event :=
  Eval vm_compute in
    find_checkable_file_systems (env := machine_env bare_machine)
      linux_inventory (initial_state false).

Definition ubuntu_check
  : Outcome (list (string * CheckEntry)) * State unit * list Event :=
  Eval vm_compute in
    find_checkable_file_systems (env := machine_env ubuntu_machine)
      linux_inventory (initial_state false).

(** *** Machines and inventories for the filesystem check *)

Definition fsck_inventory : gmap string DiskEntry :=
  <["/dev/sdb1" := part "xfs"]>
  (<["/dev/sdb2" := part "ext4"]> (<["/dev/sdb3" := part "jfs"]> ∅)).

Definition quick_check : Outcome unit * State unit * list Event :=
  Eval vm_compute in
    filesystem_check (env := machine_env ubuntu_machine) fsck_inventory []
                     "Quick" "manage_bootloader" (initial_state false).

Definition thorough_check : Outcome unit * State unit * list Event :=
  Eval vm_compute in
    filesystem_check (env := machine_env ubuntu_machine) fsck_inventory []
                     "Thorough" "manage_bootloader" (initial_state false).

(** ** Further readings of traces *)

(** The calls of the mount manager that one iteration of the scan may make
    for a partition: it asks about that partition, mounts it at its
    temporary mount point and unmounts or removes that mount point only. *)
Definition about_partition (partition : string) (ev : Event) : Prop :=
  match ev with
  | EvIsMounted p _ | EvGetMountPointOf p _ => p = partition
  | EvMountPartition p mp _ => p = partition ∧ mp = MOUNTPOINTS +:+ partition
  | EvUnmount t _ | EvRmdir t _ => t = MOUNTPOINTS +:+ partition
  | EvGetPartitionMountedAt _ _ | EvAnyMounted _ _ => False
  | _ => True
  end.

(** An event of a detection run is the query of the live root or belongs to
    the iteration of an entry of the inventory that is not a device. *)
Definition about_some_partition (DISK_INFO : gmap string DiskEntry)
  (ev : Event) : Prop :=
  (∃ root_fs, ev = EvGetPartitionMountedAt "/" root_fs) ∨
  ∃ partition d,
    DISK_INFO !! partition = Some d ∧ is_device d = false ∧
    about_partition partition ev.

Definition mount_succeeded (ev : Event) : bool :=
  match ev with
  | EvMountPartition _ _ r => negb (bool_decide (r ≠ 0))
  | _ => false
  end.
Definition is_unmount (ev : Event) : bool :=
  match ev with
  | EvUnmount _ _ => true
  | _ => false
  end.
Definition unmount_succeeded (ev : Event) : bool :=
  match ev with
  | EvUnmount _ r => negb (bool_decide (r ≠ 0))
  | _ => false
  end.
Definition is_rmdir (ev : Event) : bool :=
  match ev with
  | EvRmdir _ _ => true
  | _ => false
  end.

(** How many events of a trace pass a test. *)
Definition count (test : Event → bool) (evs : list Event) : nat :=
  length (List.filter test evs).

(** The label of a Windows edition. *)
Definition edition_label (v : WinVersion) : string :=
  match v with
  | Win9x => "Windows 95/98/ME"
  | WinXP => "Windows XP"
  | WinVista => "Windows Vista"
  | Win7 => "Windows 7"
  | Win8 => "Windows 8/8.1"
  | Win10 => "Windows 10"
  end.

(** The edition probes of a trace that answered yes. *)
Definition editions_found (evs : list Event) : list WinVersion :=
  omap (λ ev, match ev with
              | EvHasWindows v _ true => Some v
              | _ => None
              end) evs.

(** The fields of [SYSTEM_INFO] that the detector and the filesystem check
    leave alone. *)
Definition same_live_disk (i i' : SystemInfo) : Prop :=
  IsLiveDisk i' = IsLiveDisk i.

(** *** Further machines, inventories and runs *)

(** A table with one stale row, on a machine where nothing is found. *)
Definition stale_state : State unit :=
  mkState tt (<["Ubuntu 20.04" := os_ubuntu]> ∅)
          (mkSystemInfo false None false []).

Definition stale_run : Outcome GetOssResult * State unit * list Event :=
  Eval vm_compute in
    get_oss (env := machine_env bare_machine) linux_inventory stale_state.


(** The filesystems of the entries of the inventory that a checker is
    looked for, in the order of the sorted keys (one per entry, so a kind of
    filesystem appears as often as it is used). *)
Definition recognised_filesystems (DISK_INFO : gmap string DiskEntry)
  (keys : list string) : list string :=
  omap (λ disk, match DISK_INFO !! disk with
                | Some d => if unrecognised d then None
                            else Some (FileSystem d)
                | None => None
                end) keys.

(** The probe for the checker of a filesystem, with its answer. *)
Definition checker_probe (fs : string) (answer : Z * string) : Event :=
  EvStartProcess ("which fsck." +:+ fs) answer.

(** The modules whose probes failed. *)
Definition failed_modules (probes : list (string * (Z * string)))
  : list string :=
  map (λ p, "fsck." +:+ p.1)
      (List.filter (λ p, bool_decide (p.2.1 ≠ 0)) probes).

Definition is_checker_probe (ev : Event) : Prop :=
  ∃ fs answer, ev = checker_probe fs answer.

(** A message shown to the operator. *)
Definition is_msg_dlg (ev : Event) : Prop :=
  ∃ kind message, ev = EvShowMsgDlg kind message tt.

(** A machine on which every partition is mounted under /media, the
    checker of jfs is not installed, /dev/sdb2 cannot be unmounted, every
    checker that runs exits with 4, and the operator agrees to everything. *)
Definition mounted_machine : Machine := {|
  m_root_fs := "/dev/sda2";
  m_is_mounted := λ _, true;
  m_any_mounted := λ _, true;
  m_mount_point_of := λ p, "/media" +:+ p;
  m_mount := λ _ _, 0;
  m_unmount := λ p, if bool_decide (p = "/dev/sdb2") then 1 else 0;
  m_run := λ cmd, if bool_decide (cmd = "which fsck.jfs") then (1, "")
                  else if String.prefix "which" cmd then (0, "")
                  else (4, "");
  m_exists := λ _, false;
  m_isdir := λ _, false;
  m_has_windows := λ _ _, false;
  m_arch := λ _, None;
  m_lsb := λ _, None;
  m_ask := λ _, None;
  m_package_manager := λ _, Unknown;
  m_fstab := λ _, ([], Unknown, Unknown);
  m_yes_no := λ _, true
|}.

Definition mounted_probes
  : Outcome (list string) * State unit * list Event :=
  Eval vm_compute in
    find_missing_fsck_modules (env := machine_env mounted_machine)
      fsck_inventory (initial_state false).

Definition mounted_check
  : Outcome (list (string * CheckEntry)) * State unit * list Event :=
  Eval vm_compute in
    find_checkable_file_systems (env := machine_env mounted_machine)
      fsck_inventory (initial_state false).

(** The dictionary of that run: /dev/sdb1 alone, to be remounted. *)
Definition mounted_checkable : list (string * CheckEntry) :=
  [("/dev/sdb1", mkCheckEntry true "/media/dev/sdb1")].

(** The search on the machine where every checker is installed and nothing
    but the live root is mounted: the three partitions, in order. *)
Definition sorted_check
  : Outcome (list (string * CheckEntry)) * State unit * list Event :=
  Eval vm_compute in
    find_checkable_file_systems (env := machine_env ubuntu_machine)
      fsck_inventory (initial_state false).

Definition ubuntu_check_all : list (string * CheckEntry) :=
  [("/dev/sdb1", mkCheckEntry false "None");
   ("/dev/sdb2", mkCheckEntry false "None");
   ("/dev/sdb3", mkCheckEntry false "None")].

(** An event that is not a call of the mount manager on the mount table. *)
Definition mount_free (ev : Event) : Prop :=
  match ev with
  | EvMountPartition _ _ _ | EvUnmount _ _ | EvGetMountPointOf _ _ => False
  | _ => True
  end.

(** The operator agreed to a question. *)
Definition agreed (ev : Event) : Prop :=
  ∃ message title, ev = EvShowYesNoDlg message title true.

(** What the filesystem check may do to [SYSTEM_INFO]: nothing but set the
    flag that disables the bootloader operations and append reasons. *)
Definition only_disables (i i' : SystemInfo) : Prop :=
  IsLiveDisk i' = IsLiveDisk i ∧ CurrentOS i' = CurrentOS i ∧
  (DisableBootloaderOperations i = true →
   DisableBootloaderOperations i' = true) ∧
  DisableBootloaderOperationsBecause i
    `prefix_of` DisableBootloaderOperationsBecause i'.

(** The checkers whose corrected errors the handler announces. *)
Definition ANNOUNCED_CHECKERS : list string :=
  ["xfs_repair"; "fsck.jfs"; "fsck.minix"; "fsck.reiserfs"; "fsck.vfat";
   "fsck.ext2"; "fsck.ex3"; "fsck.ext4"; "fsck.ext4dev"].

(** A call that mounts a partition. *)
Definition is_remount (ev : Event) : Prop :=
  ∃ partition mount_point code,
    ev = EvMountPartition partition mount_point code.

(** What a part of the filesystem check does to the tables: the OS table
    is left alone, and [SYSTEM_INFO] changes only by disabling the
    bootloader operations, which are then planned and which the operator
    agreed to disable. *)
Definition disables_on_request {World : Type} (OPERATIONS : list Operation)
  (manage_bootloader_function : string)
  (st st' : State World) (evs : list Event) : Prop :=
  st_OS_INFO st' = st_OS_INFO st ∧
  only_disables (st_SYSTEM_INFO st) (st_SYSTEM_INFO st') ∧
  (st_SYSTEM_INFO st' = st_SYSTEM_INFO st ∨
   doing_bootloader_operations OPERATIONS manage_bootloader_function = true ∧
   (∃ ev, ev ∈ evs ∧ agreed ev) ∧
   DisableBootloaderOperations (st_SYSTEM_INFO st') = true).

(** The trace of the iteration of the filesystem check on a disk: calls
    that leave the mount table alone and then, when the disk is recorded
    for a remount, one mount of the disk at its recorded mount point. *)
Definition remounts_after_check
  (filesystems_to_check : list (string * CheckEntry))
  (disk : string) (evs : list Event) : Prop :=
  ∃ entry evs0,
    dict_get disk filesystems_to_check = Some entry ∧
    Forall mount_free evs0 ∧
    if Remount entry
    then ∃ code,
           evs = evs0 ++ [EvMountPartition disk (MountPoint entry) code]
    else evs = evs0.

(** A plan that holds an operation of the bootloader. *)
Definition bootloader_plan : list Operation :=
  [OpFunction "filesystem_check";
   OpTuple "manage_bootloader" ["Ubuntu 20.04"]].

(** The quick check on the machine where every partition is mounted and
    the checkers fail, with that plan. *)
Definition disabling_check : Outcome unit * State unit * list Event :=
  Eval vm_compute in
    filesystem_check (env := machine_env mounted_machine) fsck_inventory
      bootloader_plan "Quick" "manage_bootloader" (initial_state false).

(** The handler on an exit code 1 of fsck.ext3. *)
Definition ext3_corrected : Outcome unit * State unit * list Event :=
  Eval vm_compute in
    handle_filesystem_check_return_values (env := machine_env mounted_machine)
      bootloader_plan "fsck.ext3 -yvf /dev/sdb2" 1 "/dev/sdb2"
      "manage_bootloader" (initial_state false).

(** * Properties *)

(** ** Running the monad *)

Section MonadFacts.
Context {World : Type}.
Implicit Types st : State World.

Lemma bind_ret_l {A B} (a : A) (k : A → M World B) st :
  bind (ret a) k st = k a st.
Proof. unfold bind, ret. destruct (k a st) as [[r st2] evs2]. done. Qed.

Lemma bind_assoc {A B C} (m : M World A) (f : A → M World B)
  (g : B → M World C) st :
  bind (bind m f) g st = bind m (λ a, bind (f a) g) st.
Proof.
  unfold bind. destruct (m st) as [[[a|e] st1] evs1]; [|done].
  destruct (f a st1) as [[[b|e] st2] evs2]; [|done].
  destruct (g b st2) as [[r st3] evs3]. by rewrite app_assoc.
Qed.

Lemma bind_raise {A B} (e : exn) (k : A → M World B) st :
  bind (raise e) k st = (Raise e, st, []).
Proof. done. Qed.

Lemma bind_get_OS_INFO {B} (k : gmap string OSRecord → M World B) st :
  bind get_OS_INFO k st = k (st_OS_INFO st) st.
Proof. unfold bind, get_OS_INFO. by destruct (k _ st) as [[r st2] evs2]. Qed.

Lemma bind_get_SYSTEM_INFO {B} (k : SystemInfo → M World B) st :
  bind get_SYSTEM_INFO k st = k (st_SYSTEM_INFO st) st.
Proof.
  unfold bind, get_SYSTEM_INFO. by destruct (k _ st) as [[r st2] evs2].
Qed.

Lemma bind_put_OS_INFO {B} t (k : unit → M World B) st :
  bind (put_OS_INFO t) k st
  = k tt (mkState (st_world st) t (st_SYSTEM_INFO st)).
Proof. unfold bind, put_OS_INFO. by destruct (k _ _) as [[r st2] evs2]. Qed.

Lemma bind_put_SYSTEM_INFO {B} i (k : unit → M World B) st :
  bind (put_SYSTEM_INFO i) k st
  = k tt (mkState (st_world st) (st_OS_INFO st) i).
Proof.
  unfold bind, put_SYSTEM_INFO. by destruct (k _ _) as [[r st2] evs2].
Qed.

(** A capability call followed by a continuation: the call answers, the
    world moves on, the event comes first in the trace. *)
Lemma bind_external_inv {A B} (f : World → A * World) (ev : A → Event)
  (k : A → M World B) st r st' evs :
  bind (external f ev) k st = (r, st', evs) →
  ∃ a w evs',
    f (st_world st) = (a, w) ∧
    k a (mkState w (st_OS_INFO st) (st_SYSTEM_INFO st)) = (r, st', evs') ∧
    evs = ev a :: evs'.
Proof.
  unfold bind, external. destruct (f (st_world st)) as [a w].
  destruct (k a _) as [[r2 st2] evs2] eqn:Hk. intros [= <- <- <-].
  by exists a, w, evs2.
Qed.

Lemma external_inv {A} (f : World → A * World) (ev : A → Event)
  st r st' evs :
  external f ev st = (r, st', evs) →
  ∃ a w,
    f (st_world st) = (a, w) ∧ r = Ok a ∧
    st' = mkState w (st_OS_INFO st) (st_SYSTEM_INFO st) ∧ evs = [ev a].
Proof.
  unfold external. destruct (f (st_world st)) as [a w].
  intros [= <- <- <-]. by exists a, w.
Qed.

Lemma ret_inv {A} (a : A) st r st' evs :
  ret a st = (r, st', evs) → r = Ok a ∧ st' = st ∧ evs = [].
Proof. by intros [= <- <- <-]. Qed.

Lemma raise_inv {A} (e : exn) st (r : Outcome A) st' evs :
  raise e st = (r, st', evs) → r = Raise e ∧ st' = st ∧ evs = [].
Proof. by intros [= <- <- <-]. Qed.

(** The general inversion of a bind: the first part returned and the
    continuation ran, or the first part raised. *)
Lemma bind_inv {A B} (m : M World A) (k : A → M World B) st r st' evs :
  bind m k st = (r, st', evs) →
  (∃ a st1 evs1 evs2,
     m st = (Ok a, st1, evs1) ∧ k a st1 = (r, st', evs2) ∧
     evs = evs1 ++ evs2) ∨
  (∃ e, m st = (Raise e, st', evs) ∧ r = Raise e).
Proof.
  unfold bind. destruct (m st) as [[[a|e] st1] evs1].
  - destruct (k a st1) as [[r2 st2] evs2] eqn:Hk. intros [= <- <- <-].
    left. by exists a, st1, evs1, evs2.
  - intros [= <- <- <-]. right. by exists e.
Qed.

End MonadFacts.

(** Symbolic execution of a run [H : m st = (r, st', evs)]. *)
Ltac run_step H :=
  lazymatch type of H with
  | bind (external _ _) _ _ = _ =>
      apply bind_external_inv in H;
      let a := fresh "a" in let w := fresh "w" in let evs := fresh "evs" in
      let Hc := fresh "Hcall" in
      destruct H as (a & w & evs & Hc & H & ->)
  | bind (ret _) _ _ = _ => rewrite bind_ret_l in H
  | bind (bind _ _) _ _ = _ => rewrite bind_assoc in H
  | bind (raise _) _ _ = _ => rewrite bind_raise in H
  | bind get_OS_INFO _ _ = _ => rewrite bind_get_OS_INFO in H
  | bind get_SYSTEM_INFO _ _ = _ => rewrite bind_get_SYSTEM_INFO in H
  | bind (put_OS_INFO _) _ _ = _ => rewrite bind_put_OS_INFO in H
  | bind (put_SYSTEM_INFO _) _ _ = _ => rewrite bind_put_SYSTEM_INFO in H
  | bind (match ?x with _ => _ end) _ _ = _ => destruct x eqn:?
  | (match ?x with _ => _ end) _ = _ => destruct x eqn:?
  | external _ _ _ = _ =>
      apply external_inv in H;
      let a := fresh "a" in let w := fresh "w" in
      let Hc := fresh "Hcall" in
      destruct H as (a & w & Hc & -> & -> & ->)
  | ret _ _ = _ => apply ret_inv in H; destruct H as (-> & -> & ->)
  | raise _ _ = _ => apply raise_inv in H; destruct H as (-> & -> & ->)
  | put_SYSTEM_INFO _ _ = _ =>
      unfold put_SYSTEM_INFO in H; injection H as <- <- <-
  | put_OS_INFO _ _ = _ => unfold put_OS_INFO in H; injection H as <- <- <-
  | (_, _, _) = (_, _, _) => injection H as <- <- <-
  end; cbn [st_world st_OS_INFO st_SYSTEM_INFO] in *.

(** Boolean tests as propositions. *)
Ltac bool_to_prop :=
  repeat match goal with
  | H : _ && _ = true |- _ => apply andb_true_iff in H; destruct H
  | H : _ || _ = false |- _ => apply orb_false_iff in H; destruct H
  | H : _ && _ = false |- _ => apply andb_false_iff in H
  | H : _ || _ = true |- _ => apply orb_true_iff in H
  | H : negb _ = true |- _ => apply negb_true_iff in H
  | H : negb _ = false |- _ => apply negb_false_iff in H
  | H : bool_decide _ = true |- _ => apply bool_decide_eq_true in H
  | H : bool_decide _ = false |- _ => apply bool_decide_eq_false in H
  end.

(** Membership in an explicit list of events. *)
Ltac in_events :=
  repeat match goal with
  | H : _ ∈ _ :: _ |- _ => apply elem_of_cons in H; destruct H
  | H : _ ∈ [] |- _ => apply elem_of_nil in H; destruct H
  | H : _ ∈ _ ++ _ |- _ => apply elem_of_app in H; destruct H
  end.

(** ** The matcher *)

Section MatcherFacts.
Context (OS_INFO : gmap string OSRecord) (DISK_INFO : gmap string DiskEntry).
Import Matcher.

Lemma str_in_pair (x a b : string) : str_in x [a; b] = true ↔ x = a ∨ x = b.
Proof.
  unfold str_in. rewrite bool_decide_eq_true.
  rewrite !elem_of_cons, elem_of_nil. tauto.
Qed.

(** A role test on a field of the inventory answers, and answers yes exactly
    when the field matches in the specification's sense. *)
Lemma role_test_spec (p field : string) :
  role_in_inventory DISK_INFO field →
  ∃ b, role_test DISK_INFO p field = Ok b ∧
       (b = true ↔ role_matches DISK_INFO p field).
Proof.
  intros Hin. unfold role_test, role_matches, disk_uuid.
  case_bool_decide as Hk.
  - destruct (Hin Hk) as [d Hd]. rewrite Hd.
    eexists; split; [reflexivity|].
    rewrite str_in_pair. split.
    + intros H. split; [done|]. exists d. done.
    + intros [_ (d' & Hd' & H)]. congruence.
  - exists false. split; [done|]. split; [done|].
    intros [Hne _]. done.
Qed.

(** An unknown field is never looked up nor compared. *)
Lemma role_test_unknown (p : string) : role_test DISK_INFO p Unknown = Ok false.
Proof. unfold role_test. rewrite bool_decide_eq_false_2; [done|]. auto. Qed.

(** The first positive match answers: when the root role matches, the boot
    and EFI fields are not even looked up. *)
Lemma partition_matches_os_first_match (p os : string) (r : OSRecord) :
  OS_INFO !! os = Some r →
  p ≠ Unknown →
  role_matches DISK_INFO p (Partition r) →
  partition_matches_os OS_INFO DISK_INFO p os = Ok true.
Proof.
  intros Hos Hp Hm. unfold partition_matches_os. rewrite Hos.
  rewrite bool_decide_eq_false_2 by done.
  destruct (role_test_spec p (Partition r)) as (b & -> & Hb).
  { intros _. destruct Hm as [_ (d & Hd & _)]. eauto. }
  apply Hb in Hm. subst b. done.
Qed.

(** C1. For an OS record whose known role fields are keys of the inventory,
    [partition_matches_os] answers, and answers true exactly when the
    identifier is not "Unknown" and is the device path or the inventory UUID
    of a known root, boot or EFI field of the record; the identifier
    "Unknown" matches nothing, and a record whose three role fields are
    "Unknown" matches no identifier. *)
Theorem partition_matches_os_spec (p os : string) (r : OSRecord) :
  OS_INFO !! os = Some r →
  role_in_inventory DISK_INFO (Partition r) →
  role_in_inventory DISK_INFO (BootPartition r) →
  role_in_inventory DISK_INFO (EFIPartition r) →
  (∃ b, partition_matches_os OS_INFO DISK_INFO p os = Ok b ∧
        (b = true ↔
         p ≠ Unknown ∧
         ∃ field, field ∈ [Partition r; BootPartition r; EFIPartition r] ∧
                  role_matches DISK_INFO p field)) ∧
  (p = Unknown → partition_matches_os OS_INFO DISK_INFO p os = Ok false) ∧
  (Partition r = Unknown → BootPartition r = Unknown →
   EFIPartition r = Unknown →
   partition_matches_os OS_INFO DISK_INFO p os = Ok false).
Proof.
  intros Hos H1 H2 H3. unfold partition_matches_os. rewrite Hos.
  split; [|split].
  - case_bool_decide as Hp.
    { exists false. split; [done|]. split; [done|]. intros [? _]. done. }
    destruct (role_test_spec p (Partition r) H1) as (b1 & -> & Hb1).
    destruct (role_test_spec p (BootPartition r) H2) as (b2 & -> & Hb2).
    destruct (role_test_spec p (EFIPartition r) H3) as (b3 & -> & Hb3).
    assert (Hany : (∃ field,
                field ∈ [Partition r; BootPartition r; EFIPartition r] ∧
                role_matches DISK_INFO p field) ↔
            b1 = true ∨ b2 = true ∨ b3 = true).
    { rewrite Hb1, Hb2, Hb3. split.
      - intros (f & Hf & Hm).
        rewrite !elem_of_cons, elem_of_nil in Hf.
        destruct Hf as [->|[->|[->|[]]]]; auto.
      - intros [H|[H|H]]; eexists; (split; [|exact H]);
          rewrite !elem_of_cons; auto. }
    destruct b1; [|destruct b2; [|destruct b3]];
      eexists; (split; [reflexivity|]); rewrite Hany;
      intuition congruence.
  - intros ->. rewrite bool_decide_eq_true_2; done.
  - intros -> -> ->. rewrite !role_test_unknown.
    case_bool_decide; done.
Qed.

End MatcherFacts.

Lemma partition_matches_os_witness :
  let r := os_ubuntu in
  let partition_matches_os := Matcher.partition_matches_os in
  let role_matches := Matcher.role_matches in
  (∃ b, partition_matches_os matcher_os_info matcher_disk_info
          "AB12-CD34" "Ubuntu 20.04" = Ok b ∧
        (b = true ↔
         "AB12-CD34" ≠ Unknown ∧
         ∃ field, field ∈ [Partition r; BootPartition r; EFIPartition r] ∧
                  role_matches matcher_disk_info "AB12-CD34" field)) ∧
  ("AB12-CD34" = Unknown →
   partition_matches_os matcher_os_info matcher_disk_info
     "AB12-CD34" "Ubuntu 20.04" = Ok false) ∧
  (Partition r = Unknown → BootPartition r = Unknown →
   EFIPartition r = Unknown →
   partition_matches_os matcher_os_info matcher_disk_info
     "AB12-CD34" "Ubuntu 20.04" = Ok false).
Proof.
  apply (partition_matches_os_spec matcher_os_info matcher_disk_info
           "AB12-CD34" "Ubuntu 20.04" os_ubuntu).
  - vm_compute. reflexivity.
  - intros _. vm_compute. eauto.
  - intros H. exfalso. apply H. reflexivity.
  - intros _. vm_compute. eauto.
Defined.

(** ** Sorted keys and loops *)

Lemma sorted_keys_elem_of {V} (d : gmap string V) (k : string) :
  k ∈ sorted_keys d ↔ is_Some (d !! k).
Proof.
  unfold sorted_keys. rewrite merge_sort_Permutation.
  rewrite list_elem_of_fmap. split.
  - intros ([k' v] & -> & Hin). apply elem_of_map_to_list in Hin. eauto.
  - intros [v Hv]. exists (k, v). split; [done|].
    by apply elem_of_map_to_list.
Qed.

Lemma sorted_keys_NoDup {V} (d : gmap string V) : NoDup (sorted_keys d).
Proof.
  unfold sorted_keys. rewrite merge_sort_Permutation.
  apply NoDup_fst_map_to_list.
Qed.

Lemma sorted_keys_sorted {V} (d : gmap string V) :
  Sorted string_le (sorted_keys d).
Proof. apply Sorted_merge_sort; apply _. Qed.

Section LoopFacts.
Context {World : Type} {A : Type}.
Implicit Types (st : State World) (body : A → M World LoopCtl).

(** The three ways the first iteration of a loop can end. *)
Lemma for_in_cons_inv body x l st r st' evs :
  for_in (x :: l) body st = (r, st', evs) →
  (∃ st1 evs1 evs2,
     body x st = (Ok Next, st1, evs1) ∧
     for_in l body st1 = (r, st', evs2) ∧ evs = evs1 ++ evs2) ∨
  (body x st = (Ok Break, st', evs) ∧ r = Ok tt) ∨
  (∃ e, body x st = (Raise e, st', evs) ∧ r = Raise e).
Proof.
  cbn [for_in]. intros H. apply bind_inv in H.
  destruct H as [(c & st1 & evs1 & evs2 & Hb & Hk & ->)|(e & Hb & ->)].
  - destruct c.
    + left. by exists st1, evs1, evs2.
    + apply ret_inv in Hk. destruct Hk as (-> & -> & ->).
      right; left. by rewrite app_nil_r.
  - right; right. by exists e.
Qed.

(** An invariant that may mention the elements already visited: it holds,
    for some visited prefix of the list, when the loop ends. *)
Lemma for_in_prefix_invariant (I : list A → State World → Prop) body l :
  (∀ pre x suf st r st' evs,
     l = pre ++ x :: suf → I pre st → body x st = (r, st', evs) →
     I (pre ++ [x]) st') →
  ∀ st r st' evs,
    I [] st → for_in l body st = (r, st', evs) →
    ∃ pre suf, l = pre ++ suf ∧ I pre st'.
Proof.
  intros Hstep.
  assert (Hgen : ∀ suf pre st r st' evs,
             l = pre ++ suf → I pre st →
             for_in suf body st = (r, st', evs) →
             ∃ pre' suf', l = pre' ++ suf' ∧ I pre' st').
  { induction suf as [|x suf IH]; intros pre st r st' evs Hl HI Hrun.
    - apply ret_inv in Hrun. destruct Hrun as (_ & -> & _). eauto.
    - apply for_in_cons_inv in Hrun.
      destruct Hrun as [(st1 & evs1 & evs2 & Hb & Hk & ->)|[[Hb ->]|(e & Hb & ->)]].
      + eapply (IH (pre ++ [x])); [|eapply Hstep; eauto|exact Hk].
        by rewrite <- app_assoc.
      + exists (pre ++ [x]), suf. split; [by rewrite <- app_assoc|].
        eapply Hstep; eauto.
      + exists (pre ++ [x]), suf. split; [by rewrite <- app_assoc|].
        eapply Hstep; eauto. }
  intros st r st' evs HI Hrun. eapply (Hgen l []); eauto.
Qed.

Lemma for_in_invariant (I : State World → Prop) body l :
  (∀ x st r st' evs, x ∈ l → I st → body x st = (r, st', evs) → I st') →
  ∀ st r st' evs, I st → for_in l body st = (r, st', evs) → I st'.
Proof.
  intros Hstep st r st' evs HI Hrun.
  destruct (for_in_prefix_invariant (λ _, I) body l) with st r st' evs
    as (? & ? & _ & ?); try done.
  intros pre x suf st0 r0 st0' evs0 -> HI0 Hb. eapply Hstep; [|done..].
  rewrite elem_of_app, elem_of_cons. auto.
Qed.

(** A loop whose iterations return is a loop that returns. *)
Lemma for_in_returns body l :
  (∀ x st r st' evs, x ∈ l → body x st = (r, st', evs) → ∃ c, r = Ok c) →
  ∀ st r st' evs, for_in l body st = (r, st', evs) → r = Ok tt.
Proof.
  induction l as [|x l IH]; intros Hb st r st' evs Hrun.
  - apply ret_inv in Hrun. by destruct Hrun.
  - apply for_in_cons_inv in Hrun.
    destruct Hrun as [(st1 & evs1 & evs2 & Hx & Hk & ->)|[[Hx ->]|(e & Hx & ->)]].
    + eapply IH; [|exact Hk]. intros. eapply Hb; [|done].
      by apply list_elem_of_further.
    + done.
    + apply Hb in Hx as [c [=]]. apply list_elem_of_here.
Qed.

(** A property of all the events of each iteration is a property of all
    the events of the loop. *)
Lemma for_in_events (P : Event → Prop) body l :
  (∀ x st r st' evs, x ∈ l → body x st = (r, st', evs) → Forall P evs) →
  ∀ st r st' evs, for_in l body st = (r, st', evs) → Forall P evs.
Proof.
  induction l as [|x l IH]; intros Hb st r st' evs Hrun.
  - apply ret_inv in Hrun. destruct Hrun as (_ & _ & ->). constructor.
  - apply for_in_cons_inv in Hrun.
    destruct Hrun as [(st1 & evs1 & evs2 & Hx & Hk & ->)|[[Hx ->]|(e & Hx & ->)]].
    + apply Forall_app. split.
      * eapply Hb; [|done]. apply list_elem_of_here.
      * eapply IH; [|exact Hk]. intros. eapply Hb; [|done].
        by apply list_elem_of_further.
    + eapply Hb; [|done]. apply list_elem_of_here.
    + eapply Hb; [|done]. apply list_elem_of_here.
Qed.

End LoopFacts.

(** ** The OS detector *)

(** Unfold the capabilities and the branches of the scan loop in a run. *)
Ltac unfold_capabilities H :=
  unfold has_windows_9x, has_windows_xp, has_windows_vista, has_windows_7,
    has_windows_8, has_windows_10, has_windows,
    get_partition_mounted_at, is_mounted, any_mounted, get_mount_point_of,
    mount_partition, unmount, start_process, start_process_output,
    path_exists, path_isdir, rmdir, determine_os_architecture,
    get_os_name_with_lsb, ask_for_os_name, determine_package_manager,
    get_fstab_info, show_msg_dlg, show_yes_no_dlg in H.

Ltac unfold_detector H :=
  unfold get_oss_body, disk_info, look_for_linux, look_for_mac,
    look_for_windows, probe_linux, name_fallback, mount_if_needed,
    unmount_if_needed, has_windows_dir, windows_edition, store_os,
    snapshot_current_os in H;
  unfold_capabilities H.

(** Evaluate the trace predicates on an explicit trace, splitting on the
    answers they depend on. *)
Ltac eval_trace :=
  unfold unresolved in *;
  cbn [existsb forallb last is_name_fallback arch_failed arch_determined
       distro_probe_blank package_manager_unknown name_declined unresolved
       failed_unmount kernel_found windows_dir_found names_os
       determines_arch determines_package_manager
       Name IsCurrentOS Arch Partition PackageManager
       orb andb negb] in *;
  repeat match goal with
  | H : context [bool_decide (Some _ ≠ None)] |- _ =>
      rewrite bool_decide_eq_true_2 in H by done
  | H : context [bool_decide (None ≠ None)] |- _ =>
      rewrite bool_decide_eq_false_2 in H by (intros ?; done)
  | H : context [blank_name ?a ?b] |- _ => destruct (blank_name a b)
  | |- context [blank_name ?a ?b] => destruct (blank_name a b)
  | |- context [match ?x with Some _ => _ | None => _ end] => destruct x
  | |- context [bool_decide (?x = ?x)] =>
      rewrite (bool_decide_eq_true_2 (x = x)) by reflexivity
  | H : negb ?b = _ |- _ =>
      is_var b; destruct b; cbn [negb] in H; try discriminate H; clear H
  | H : bool_decide _ = true |- _ => apply bool_decide_eq_true in H
  | H : bool_decide _ = false |- _ => apply bool_decide_eq_false in H
  | |- context [bool_decide ?P] => destruct (bool_decide_reflect P)
  end;
  cbn [orb andb negb] in *.

Section DetectorFacts.
Context {World : Type} {env : Environment World}.
Context (DISK_INFO : gmap string DiskEntry).
Implicit Types st : State World.

(** One iteration of the scan either leaves the tables alone or stores one
    row, under its own name, for the partition it looked at. *)
Lemma get_oss_body_effect root_fs partition st r st' evs :
  get_oss_body DISK_INFO root_fs partition st = (r, st', evs) →
  (st_OS_INFO st' = st_OS_INFO st ∧ st_SYSTEM_INFO st' = st_SYSTEM_INFO st) ∨
  (∃ rec d,
     st_OS_INFO st' = <[Name rec := rec]> (st_OS_INFO st) ∧
     DISK_INFO !! partition = Some d ∧ is_device d = false ∧
     Partition rec = partition ∧
     PackageManager rec ≠ Unknown ∧
     identified rec evs ∧
     IsCurrentOS rec = linux_family d && is_live_root root_fs partition d ∧
     st_SYSTEM_INFO st' =
       (if IsCurrentOS rec then with_current_os (st_SYSTEM_INFO st) rec
        else st_SYSTEM_INFO st)).
Proof.
  intros Hrun. unfold_detector Hrun.
  repeat (first [rewrite lookup_insert_eq in Hrun | run_step Hrun]);
    simplify_eq.
  all: try (left; split; reflexivity).
  all: match goal with
       | |- _ ∨ ∃ rec d0, <[_ := ?v]> _ = _ ∧ _ => right; exists v; eexists
       end.
  all: split; [reflexivity|]; split; [reflexivity|].
  all: split; [done|]; split; [reflexivity|].
  all: split; [eval_trace; done|].
  all: split;
    [unfold identified; eval_trace;
     first [left; done | right; left; done | right; right; done]|].
  all: unfold linux_family, mac_family, windows_family, is_device.
  all: repeat match goal with
       | H : ?b = _ |- context [?b] => rewrite H
       end.
  all: cbn [negb andb IsCurrentOS]; split; reflexivity.
Qed.


(** An iteration never raises on a key of the inventory, and a device is
    skipped without a single call. *)
Lemma get_oss_body_returns root_fs partition st r st' evs :
  is_Some (DISK_INFO !! partition) →
  get_oss_body DISK_INFO root_fs partition st = (r, st', evs) →
  ∃ c, r = Ok c.
Proof.
  intros [d Hd] Hrun. unfold_detector Hrun. rewrite Hd in Hrun.
  repeat (first [rewrite lookup_insert_eq in Hrun | run_step Hrun]);
    simplify_eq; eauto.
Qed.

Lemma get_oss_body_device root_fs partition d st :
  DISK_INFO !! partition = Some d → is_device d = true →
  get_oss_body DISK_INFO root_fs partition st = (Ok Next, st, []).
Proof.
  intros Hd Hdev. unfold get_oss_body, disk_info. rewrite Hd, bind_ret_l.
  unfold is_device in Hdev. by rewrite Hdev.
Qed.

(** A candidate with an unresolved name, architecture or package manager
    leaves no row. *)
Lemma get_oss_body_discards root_fs partition st r st' evs :
  get_oss_body DISK_INFO root_fs partition st = (r, st', evs) →
  existsb unresolved evs = true →
  st_OS_INFO st' = st_OS_INFO st ∧ st_SYSTEM_INFO st' = st_SYSTEM_INFO st.
Proof.
  intros Hrun. unfold_detector Hrun.
  repeat (first [rewrite lookup_insert_eq in Hrun | run_step Hrun]);
    simplify_eq.
  all: eval_trace; try done; try (intuition congruence).
Qed.

(** The iteration breaks the loop exactly when an unmount failed, and that
    unmount is then the last call it made. *)
Lemma get_oss_body_break root_fs partition st r st' evs :
  get_oss_body DISK_INFO root_fs partition st = (r, st', evs) →
  (existsb failed_unmount evs = true ↔ r = Ok Break) ∧
  (existsb failed_unmount evs = true →
   ∃ ev, last evs = Some ev ∧ failed_unmount ev = true).
Proof.
  intros Hrun. unfold_detector Hrun.
  repeat (first [rewrite lookup_insert_eq in Hrun | run_step Hrun]);
    simplify_eq.
  all: eval_trace; try done.
  all: try (split; [split|]; intros; simplify_eq; done).
  all: split; [done|]; intros _; eexists; split; [reflexivity|].
  all: eval_trace; done.
Qed.


(** *** The scan loop *)

Lemma scan_table_step root_fs pre x suf st r st' evs :
  NoDup (pre ++ x :: suf) →
  scan_table DISK_INFO root_fs pre (st_OS_INFO st) →
  get_oss_body DISK_INFO root_fs x st = (r, st', evs) →
  scan_table DISK_INFO root_fs (pre ++ [x]) (st_OS_INFO st').
Proof.
  intros Hnd [Hrows Hinj] Hrun.
  assert (Hx : x ∉ pre).
  { apply NoDup_app in Hnd as (_ & Hnd & _). intros Hin.
    apply (Hnd _ Hin). apply list_elem_of_here. }
  apply get_oss_body_effect in Hrun
    as [[-> _]|(rec & d & -> & Hd & Hdev & Hp & Hpm & _ & Hcur & _)].
  - split; [|done]. intros name rec' Hl.
    destruct (Hrows _ _ Hl) as (? & ? & ? & ?).
    repeat split; try done. apply elem_of_app; auto.
  - split.
    + intros name rec' Hl. apply lookup_insert_Some in Hl as [[<- <-]|[_ Hl]].
      * repeat split; try done.
        { rewrite Hp. apply elem_of_app. right. apply list_elem_of_here. }
        exists d. by rewrite Hp.
      * destruct (Hrows _ _ Hl) as (? & ? & ? & ?).
        repeat split; try done. apply elem_of_app; auto.
    + intros n1 r1 n2 r2 H1 H2 Heq.
      apply lookup_insert_Some in H1 as [[<- <-]|[Hn1 H1]];
        apply lookup_insert_Some in H2 as [[<- <-]|[Hn2 H2]].
      * done.
      * destruct (Hrows _ _ H2) as (_ & _ & Hin & _).
        rewrite <- Heq, Hp in Hin. done.
      * destruct (Hrows _ _ H1) as (_ & _ & Hin & _).
        rewrite Heq, Hp in Hin. done.
      * eauto.
Qed.

Lemma scan_table_loop root_fs keys st r st' evs :
  NoDup keys →
  st_OS_INFO st = ∅ →
  for_in keys (get_oss_body DISK_INFO root_fs) st = (r, st', evs) →
  scan_table DISK_INFO root_fs keys (st_OS_INFO st').
Proof.
  intros Hnd Hempty Hrun.
  destruct (for_in_prefix_invariant
              (λ pre st, scan_table DISK_INFO root_fs pre (st_OS_INFO st))
              (get_oss_body DISK_INFO root_fs) keys) with st r st' evs
    as (pre & suf & -> & [Hrows Hinj]); try done.
  - intros pre x suf st0 r0 st0' evs0 -> HI Hb.
    eapply scan_table_step; eauto.
  - rewrite Hempty. split; intros *; by rewrite lookup_empty.
  - split; [|done]. intros name rec Hl.
    destruct (Hrows _ _ Hl) as (? & ? & ? & ?).
    repeat split; try done. apply elem_of_app; auto.
Qed.

(** [get_oss] is the mount query, the loop, and the final test. *)
Lemma get_oss_inv st r st' evs :
  get_oss DISK_INFO st = (r, st', evs) →
  ∃ root_fs w evs',
    env_get_partition_mounted_at "/" (st_world st) = (root_fs, w) ∧
    for_in (sorted_keys DISK_INFO) (get_oss_body DISK_INFO root_fs)
           (mkState w (st_OS_INFO st) (st_SYSTEM_INFO st))
    = (Ok tt, st', evs') ∧
    evs = EvGetPartitionMountedAt "/" root_fs :: evs' ∧
    r = Ok (if bool_decide (1 ≤ size (st_OS_INFO st'))%nat
            then OSsFound (st_OS_INFO st') (st_SYSTEM_INFO st')
            else NoOSFound).
Proof.
  intros Hrun. unfold get_oss, get_partition_mounted_at in Hrun.
  run_step Hrun. exists a, w.
  apply bind_inv in Hrun
    as [(u & st1 & evs1 & evs2 & Hloop & Hk & ->)|(e & Hloop & ->)].
  - destruct u. exists evs1.
    repeat run_step Hk; rewrite app_nil_r; repeat split; try done.
    all: by rewrite Heqb.
  - apply for_in_returns in Hloop; [done|].
    intros x ? ? ? ? Hx.
    apply get_oss_body_returns. by apply sorted_keys_elem_of.
Qed.

End DetectorFacts.

(** *** The claims about the detector *)

Section DetectorClaims.
Context {World : Type} {env : Environment World}.
Context (DISK_INFO : gmap string DiskEntry).
Implicit Types st : State World.

(** C3. [get_oss] always returns: the pair of tables when the OS table holds
    at least one row after the scan, the pair (False, False) when it holds
    none; an inventory without partition entries scanned from an empty table
    gives (False, False). *)
Theorem get_oss_result st :
  ∃ r st' evs,
    get_oss DISK_INFO st = (Ok r, st', evs) ∧
    ((1 ≤ size (st_OS_INFO st'))%nat →
     r = OSsFound (st_OS_INFO st') (st_SYSTEM_INFO st')) ∧
    (size (st_OS_INFO st') = 0%nat → r = NoOSFound) ∧
    ((∀ k d, DISK_INFO !! k = Some d → is_device d = true) →
     st_OS_INFO st = ∅ → r = NoOSFound).
Proof.
  destruct (get_oss DISK_INFO st) as [[r st'] evs] eqn:Hrun.
  destruct (get_oss_inv _ _ _ _ _ Hrun)
    as (root_fs & w & evs' & Hroot & Hloop & -> & ->).
  eexists _, st', _. split; [reflexivity|]. split; [|split].
  - intros Hsize. by rewrite bool_decide_eq_true_2.
  - intros Hsize. rewrite bool_decide_eq_false_2; [done|]. lia.
  - intros Hdev Hempty.
    assert (Hst' : st_OS_INFO st' = ∅).
    { revert Hloop. apply (for_in_invariant (λ s, st_OS_INFO s = ∅));
        [|done].
      intros x s r s' evs0 Hx Hs Hb.
      apply sorted_keys_elem_of in Hx as [d Hd].
      rewrite (get_oss_body_device _ _ _ d) in Hb by eauto.
      by simplify_eq. }
    rewrite Hst', map_size_empty. by rewrite bool_decide_eq_false_2 by lia.
Qed.

(** C4 (amended). An iteration of the scan stores at most one row, and when
    it stores one its own calls show the identification: a kernel file for
    macOS, a Windows directory for Windows (both rows carry the architecture
    "Unknown" and a fixed package manager), and for Linux a name (a distro
    string that is not blank, a release-metadata name or a name the operator
    gave), a determined architecture and a package manager; the package
    manager of a stored row is never "Unknown", and an iteration in which the
    architecture, the package manager or the name stayed unresolved stores
    nothing. From an empty table, every row of the final table is stored
    under its name with a package manager other than "Unknown". *)
Theorem stored_rows_are_identified root_fs partition st r st' evs :
  get_oss_body DISK_INFO root_fs partition st = (r, st', evs) →
  ((st_OS_INFO st' = st_OS_INFO st ∧
    st_SYSTEM_INFO st' = st_SYSTEM_INFO st) ∨
   (∃ rec,
      st_OS_INFO st' = <[Name rec := rec]> (st_OS_INFO st) ∧
      Partition rec = partition ∧ PackageManager rec ≠ Unknown ∧
      identified rec evs)) ∧
  (existsb unresolved evs = true → st_OS_INFO st' = st_OS_INFO st) ∧
  (∀ keys s0 r1 s1 evs1,
     NoDup keys → st_OS_INFO s0 = ∅ →
     for_in keys (get_oss_body DISK_INFO root_fs) s0 = (r1, s1, evs1) →
     ∀ name rec, st_OS_INFO s1 !! name = Some rec →
       Name rec = name ∧ PackageManager rec ≠ Unknown ∧
       Partition rec ∈ keys).
Proof.
  intros Hrun. split; [|split].
  - apply get_oss_body_effect in Hrun
      as [?|(rec & d & ? & _ & _ & ? & ? & ? & _)]; [by left|].
    right. by exists rec.
  - intros Hun. by eapply get_oss_body_discards.
  - intros keys s0 r1 s1 evs1 Hnd Hempty Hloop name rec Hl.
    apply scan_table_loop in Hloop as [Hrows _]; [|done..].
    destruct (Hrows _ _ Hl) as (? & ? & ? & _). done.
Qed.

(** C5 (amended). In a detection run from an empty table, every row with
    IsCurrentOS = true belongs to a Linux-family partition of the inventory
    that is the live root or lists it among its aliases, and no two such rows
    belong to the same partition; so when at most one entry of the inventory
    is such a partition, at most one row has IsCurrentOS = true. An iteration
    that stores a row with IsCurrentOS = true also copies it into
    SYSTEM_INFO["CurrentOS"]. *)
Theorem current_os_rows st r st' evs :
  st_OS_INFO st = ∅ →
  get_oss DISK_INFO st = (r, st', evs) →
  let root_fs := (env_get_partition_mounted_at "/" (st_world st)).1 in
  (∀ name rec, st_OS_INFO st' !! name = Some rec → IsCurrentOS rec = true →
     ∃ d, DISK_INFO !! Partition rec = Some d ∧ linux_family d = true ∧
          is_live_root root_fs (Partition rec) d = true) ∧
  (∀ n1 r1 n2 r2,
     st_OS_INFO st' !! n1 = Some r1 → st_OS_INFO st' !! n2 = Some r2 →
     Partition r1 = Partition r2 → n1 = n2) ∧
  ((∀ p1 d1 p2 d2,
      DISK_INFO !! p1 = Some d1 → DISK_INFO !! p2 = Some d2 →
      linux_family d1 = true → linux_family d2 = true →
      is_live_root root_fs p1 d1 = true → is_live_root root_fs p2 d2 = true →
      p1 = p2) →
   ∀ n1 r1 n2 r2,
     st_OS_INFO st' !! n1 = Some r1 → st_OS_INFO st' !! n2 = Some r2 →
     IsCurrentOS r1 = true → IsCurrentOS r2 = true → n1 = n2) ∧
  (∀ partition s0 c s1 evs1 rec,
     get_oss_body DISK_INFO root_fs partition s0 = (c, s1, evs1) →
     st_OS_INFO s1 = <[Name rec := rec]> (st_OS_INFO s0) →
     st_OS_INFO s1 ≠ st_OS_INFO s0 →
     IsCurrentOS rec = true →
     CurrentOS (st_SYSTEM_INFO s1) = Some rec).
Proof.
  intros Hempty Hrun root_fs.
  destruct (get_oss_inv _ _ _ _ _ Hrun)
    as (root & w & evs' & Hroot & Hloop & -> & ->).
  assert (root_fs = root) as -> by (unfold root_fs; by rewrite Hroot).
  apply scan_table_loop in Hloop as [Hrows Hinj];
    [|apply sorted_keys_NoDup|done].
  assert (Hcur : ∀ name rec,
             st_OS_INFO st' !! name = Some rec → IsCurrentOS rec = true →
             ∃ d, DISK_INFO !! Partition rec = Some d ∧
                  linux_family d = true ∧
                  is_live_root root (Partition rec) d = true).
  { intros name rec Hl Hc.
    destruct (Hrows _ _ Hl) as (_ & _ & _ & d & Hd & _ & Heq).
    rewrite Hc in Heq. symmetry in Heq. apply andb_true_iff in Heq as [? ?].
    by exists d. }
  split; [exact Hcur|]. split; [exact Hinj|]. split.
  - intros Huniq n1 r1 n2 r2 H1 H2 Hc1 Hc2.
    destruct (Hcur _ _ H1 Hc1) as (d1 & ? & ? & ?).
    destruct (Hcur _ _ H2 Hc2) as (d2 & ? & ? & ?).
    eapply Hinj; eauto.
  - intros partition s0 c s1 evs1 rec Hb Hins Hne Hc.
    apply get_oss_body_effect in Hb
      as [[? _]|(rec' & d & Hins' & _ & _ & _ & _ & _ & _ & Hsys)]; [done|].
    assert (rec' = rec) as ->.
    { assert (Hl : st_OS_INFO s1 !! Name rec = Some rec)
        by (rewrite Hins; apply lookup_insert_eq).
      rewrite Hins' in Hl.
      apply lookup_insert_Some in Hl as [[_ ?]|[Hn Hl]]; [done|].
      exfalso. apply Hne. rewrite Hins. by apply insert_id. }
    rewrite Hsys, Hc. done.
Qed.

(** C6. In an iteration of the scan, when the architecture probe answers
    [None] no row is stored and neither the release-metadata probe nor the
    operator prompt is called, whatever the distribution probe printed; the
    name fallback is called exactly when the distribution probe failed or
    printed a blank name and the architecture was determined. *)
Theorem architecture_gates_linux_detection root_fs partition st r st' evs :
  get_oss_body DISK_INFO root_fs partition st = (r, st', evs) →
  (existsb arch_failed evs = true →
   st_OS_INFO st' = st_OS_INFO st ∧ existsb is_name_fallback evs = false) ∧
  (existsb is_name_fallback evs = true ↔
   existsb distro_probe_blank evs = true ∧
   existsb arch_determined evs = true).
Proof.
  intros Hrun. unfold_detector Hrun.
  repeat (first [rewrite lookup_insert_eq in Hrun | run_step Hrun]);
    simplify_eq.
  all: eval_trace; try done; try (intuition congruence).
Qed.

(** C8. In the scan loop, a failed unmount ends the scan: it is the last
    call of the loop, the loop returns, and the entries after the one being
    examined are never reached: whatever they are, the scan ends in the same
    state with the same trace. *)
Theorem failed_unmount_aborts_scan root_fs keys st r st' evs :
  for_in keys (get_oss_body DISK_INFO root_fs) st = (r, st', evs) →
  existsb failed_unmount evs = true →
  r = Ok tt ∧
  (∃ ev, last evs = Some ev ∧ failed_unmount ev = true) ∧
  ∃ pre x suf,
    keys = pre ++ x :: suf ∧
    ∀ suf', for_in (pre ++ x :: suf') (get_oss_body DISK_INFO root_fs) st
            = (Ok tt, st', evs).
Proof.
  revert st evs. induction keys as [|x keys IH]; intros st evs Hrun Hfail.
  { apply ret_inv in Hrun. destruct Hrun as (_ & _ & ->). done. }
  apply for_in_cons_inv in Hrun.
  destruct Hrun as [(st1 & evs1 & evs2 & Hx & Hk & ->)|[[Hx ->]|(e & Hx & ->)]].
  - destruct (get_oss_body_break _ _ _ _ _ _ _ Hx) as [Hiff _].
    rewrite existsb_app in Hfail. apply orb_true_iff in Hfail as [Hf|Hf].
    { apply Hiff in Hf. done. }
    destruct (IH _ _ Hk Hf) as (-> & (ev & Hlast & Hev) & pre & y & suf & -> & Hsuf).
    split; [done|]. split.
    + exists ev. split; [|done]. rewrite last_app, Hlast. done.
    + exists (x :: pre), y, suf. split; [done|]. intros suf'.
      cbn [app for_in]. unfold bind at 1. rewrite Hx.
      specialize (Hsuf suf'). cbn [app] in Hsuf. by rewrite Hsuf.
  - destruct (get_oss_body_break _ _ _ _ _ _ _ Hx) as [_ Hlast].
    split; [done|]. split; [by apply Hlast|].
    exists [], x, keys. split; [done|]. intros suf'.
    cbn [app for_in]. unfold bind at 1. rewrite Hx.
    cbn. by rewrite app_nil_r.
  - destruct (get_oss_body_break _ _ _ _ _ _ _ Hx) as [Hiff _].
    apply Hiff in Hfail. done.
Qed.

End DetectorClaims.

(** *** The detector on concrete machines *)

(** The recorded runs are runs of the model. *)
Lemma recorded_runs :
  get_oss (env := machine_env windows_machine) windows_inventory
          (initial_state false) = windows_run ∧
  get_oss (env := machine_env operator_machine) aliased_inventory
          (initial_state false) = aliased_run ∧
  get_oss (env := machine_env ubuntu_machine) linux_inventory
          (initial_state false) = ubuntu_run ∧
  get_oss_body (env := machine_env ubuntu_machine) linux_inventory
               "/dev/sda2" "/dev/sda2" (initial_state false)
  = ubuntu_root_iteration ∧
  get_oss_body (env := machine_env no_arch_machine) linux_inventory
               "/dev/sda2" "/dev/sda3" (initial_state false)
  = no_arch_iteration ∧
  for_in (sorted_keys mixed_inventory)
         (get_oss_body (env := machine_env stuck_machine) mixed_inventory
                       "/dev/sdb1")
         (initial_state false) = stuck_scan.
Proof. repeat split; vm_compute; reflexivity. Qed.

(** An inventory of devices alone yields (False, False). *)
Example no_partitions_no_os :
  (get_oss (env := machine_env ubuntu_machine) devices_only
           (initial_state false)).1.1 = Ok NoOSFound.
Proof. vm_compute. reflexivity. Qed.

(** C4, the claim as stated fails: the row of a Windows installation is
    stored with the architecture "Unknown". *)
Lemma windows_row_not_fully_populated :
  get_oss (env := machine_env windows_machine) windows_inventory
          (initial_state false) = windows_run ∧
  ∃ rec,
    st_OS_INFO windows_run.1.2 !! "Windows 7 (/dev/sda1)" = Some rec ∧
    ¬ fully_populated rec.
Proof.
  split; [vm_compute; reflexivity|].
  eexists. split; [vm_compute; reflexivity|].
  intros [Harch _]. apply Harch. reflexivity.
Qed.

Lemma stored_rows_are_identified_witness :
  let r := ubuntu_root_iteration.1.1 in
  let st' := ubuntu_root_iteration.1.2 in
  let evs := ubuntu_root_iteration.2 in
  let st := initial_state false in
  ((st_OS_INFO st' = st_OS_INFO st ∧
    st_SYSTEM_INFO st' = st_SYSTEM_INFO st) ∨
   (∃ rec,
      st_OS_INFO st' = <[Name rec := rec]> (st_OS_INFO st) ∧
      Partition rec = "/dev/sda2" ∧ PackageManager rec ≠ Unknown ∧
      identified rec evs)) ∧
  (existsb unresolved evs = true → st_OS_INFO st' = st_OS_INFO st) ∧
  (∀ keys (s0 : State unit) r1 s1 evs1,
     NoDup keys → st_OS_INFO s0 = ∅ →
     for_in keys (get_oss_body (env := machine_env ubuntu_machine)
                               linux_inventory "/dev/sda2") s0
     = (r1, s1, evs1) →
     ∀ name rec, st_OS_INFO s1 !! name = Some rec →
       Name rec = name ∧ PackageManager rec ≠ Unknown ∧
       Partition rec ∈ keys).
Proof.
  apply (stored_rows_are_identified (env := machine_env ubuntu_machine)
           linux_inventory "/dev/sda2" "/dev/sda2" (initial_state false)
           ubuntu_root_iteration.1.1 ubuntu_root_iteration.1.2
           ubuntu_root_iteration.2).
  vm_compute. reflexivity.
Defined.

(** C5, the claim as stated fails: the live root and an entry that lists it
    as an alias, named differently by the operator, leave two rows with
    IsCurrentOS = true. *)
Lemma two_current_os_rows :
  get_oss (env := machine_env operator_machine) aliased_inventory
          (initial_state false) = aliased_run ∧
  st_OS_INFO (initial_state false) = ∅ ∧
  ∃ r1 r2,
    st_OS_INFO aliased_run.1.2 !! "Linux on /dev/sda2" = Some r1 ∧
    st_OS_INFO aliased_run.1.2 !! "Linux on /dev/sda3" = Some r2 ∧
    IsCurrentOS r1 = true ∧ IsCurrentOS r2 = true ∧
    "Linux on /dev/sda2" ≠ "Linux on /dev/sda3".
Proof.
  split; [vm_compute; reflexivity|]. split; [reflexivity|].
  eexists _, _. split; [vm_compute; reflexivity|].
  split; [vm_compute; reflexivity|]. done.
Qed.

Lemma current_os_rows_witness :
  let st := initial_state false in
  let st' := ubuntu_run.1.2 in
  let DISK_INFO := linux_inventory in
  let root_fs := "/dev/sda2" in
  (∀ name rec, st_OS_INFO st' !! name = Some rec → IsCurrentOS rec = true →
     ∃ d, DISK_INFO !! Partition rec = Some d ∧ linux_family d = true ∧
          is_live_root root_fs (Partition rec) d = true) ∧
  (∀ n1 r1 n2 r2,
     st_OS_INFO st' !! n1 = Some r1 → st_OS_INFO st' !! n2 = Some r2 →
     Partition r1 = Partition r2 → n1 = n2) ∧
  ((∀ p1 d1 p2 d2,
      DISK_INFO !! p1 = Some d1 → DISK_INFO !! p2 = Some d2 →
      linux_family d1 = true → linux_family d2 = true →
      is_live_root root_fs p1 d1 = true → is_live_root root_fs p2 d2 = true →
      p1 = p2) →
   ∀ n1 r1 n2 r2,
     st_OS_INFO st' !! n1 = Some r1 → st_OS_INFO st' !! n2 = Some r2 →
     IsCurrentOS r1 = true → IsCurrentOS r2 = true → n1 = n2) ∧
  (∀ partition (s0 : State unit) c s1 evs1 rec,
     get_oss_body (env := machine_env ubuntu_machine) DISK_INFO root_fs
                  partition s0 = (c, s1, evs1) →
     st_OS_INFO s1 = <[Name rec := rec]> (st_OS_INFO s0) →
     st_OS_INFO s1 ≠ st_OS_INFO s0 →
     IsCurrentOS rec = true →
     CurrentOS (st_SYSTEM_INFO s1) = Some rec).
Proof.
  apply (current_os_rows (env := machine_env ubuntu_machine) linux_inventory
           (initial_state false) ubuntu_run.1.1 ubuntu_run.1.2 ubuntu_run.2).
  - reflexivity.
  - vm_compute. reflexivity.
Defined.

Lemma architecture_gates_linux_detection_witness :
  let st := initial_state false in
  let st' := no_arch_iteration.1.2 in
  let evs := no_arch_iteration.2 in
  (existsb arch_failed evs = true →
   st_OS_INFO st' = st_OS_INFO st ∧ existsb is_name_fallback evs = false) ∧
  (existsb is_name_fallback evs = true ↔
   existsb distro_probe_blank evs = true ∧
   existsb arch_determined evs = true).
Proof.
  apply (architecture_gates_linux_detection
           (env := machine_env no_arch_machine) linux_inventory
           "/dev/sda2" "/dev/sda3" (initial_state false)
           no_arch_iteration.1.1 no_arch_iteration.1.2 no_arch_iteration.2).
  vm_compute. reflexivity.
Defined.

(** In that iteration the distribution probe succeeded and the architecture
    probe answered [None]. *)
Example no_arch_iteration_trace :
  existsb arch_failed no_arch_iteration.2 = true ∧
  existsb distro_probe_blank no_arch_iteration.2 = false ∧
  st_OS_INFO no_arch_iteration.1.2 = ∅.
Proof. repeat split; vm_compute; reflexivity. Qed.

Lemma failed_unmount_aborts_scan_witness :
  let keys := sorted_keys mixed_inventory in
  let st := initial_state false in
  let body := get_oss_body (env := machine_env stuck_machine) mixed_inventory
                           "/dev/sdb1" in
  stuck_scan.1.1 = Ok tt ∧
  (∃ ev, last stuck_scan.2 = Some ev ∧ failed_unmount ev = true) ∧
  ∃ pre x suf,
    keys = pre ++ x :: suf ∧
    ∀ suf', for_in (pre ++ x :: suf') body st
            = (Ok tt, stuck_scan.1.2, stuck_scan.2).
Proof.
  apply (failed_unmount_aborts_scan (env := machine_env stuck_machine)
           mixed_inventory "/dev/sdb1" (sorted_keys mixed_inventory)
           (initial_state false) stuck_scan.1.1 stuck_scan.1.2 stuck_scan.2).
  - vm_compute. reflexivity.
  - vm_compute. reflexivity.
Defined.

(** The three branches break alike: an unmount that fails after a macOS,
    a Windows or a chrooted Linux probe ends the iteration with [Break]. *)
Example failed_unmount_breaks_in_each_branch :
  (get_oss_body (env := machine_env stuck_machine) mixed_inventory
                "/dev/sdb1" "/dev/sda1" (initial_state false)).1.1 = Ok Break ∧
  (get_oss_body (env := machine_env stuck_machine) mixed_inventory
                "/dev/sdb1" "/dev/sda2" (initial_state false)).1.1 = Ok Break ∧
  (get_oss_body (env := machine_env stuck_machine) mixed_inventory
                "/dev/sdb1" "/dev/sda3" (initial_state false)).1.1 = Ok Break.
Proof. repeat split; vm_compute; reflexivity. Qed.

(** ** The checkability classifier *)

Section AccumulateFacts.
Context {World : Type} {A S : Type}.
Implicit Types (st : State World) (body : A → S → M World S).

Lemma for_acc_cons_inv body x l acc st r st' evs :
  for_acc (x :: l) acc body st = (r, st', evs) →
  (∃ acc1 st1 evs1 evs2,
     body x acc st = (Ok acc1, st1, evs1) ∧
     for_acc l acc1 body st1 = (r, st', evs2) ∧ evs = evs1 ++ evs2) ∨
  (∃ e, body x acc st = (Raise e, st', evs) ∧ r = Raise e).
Proof. cbn [for_acc]. apply bind_inv. Qed.

(** An invariant of the local variables and the state that may mention the
    elements already visited holds of the whole list when the loop returns. *)
Lemma for_acc_prefix_invariant (I : list A → S → State World → Prop) body l :
  (∀ pre x suf acc st acc' st' evs,
     l = pre ++ x :: suf → I pre acc st →
     body x acc st = (Ok acc', st', evs) → I (pre ++ [x]) acc' st') →
  ∀ acc st acc' st' evs,
    I [] acc st → for_acc l acc body st = (Ok acc', st', evs) →
    I l acc' st'.
Proof.
  intros Hstep.
  assert (Hgen : ∀ suf pre acc st acc' st' evs,
             l = pre ++ suf → I pre acc st →
             for_acc suf acc body st = (Ok acc', st', evs) → I l acc' st').
  { induction suf as [|x suf IH]; intros pre acc st acc' st' evs Hl HI Hrun.
    - apply ret_inv in Hrun. destruct Hrun as ([= <-] & -> & _).
      by rewrite Hl, app_nil_r.
    - apply for_acc_cons_inv in Hrun.
      destruct Hrun as [(acc1 & st1 & evs1 & evs2 & Hb & Hk & ->)|(e & _ & [=])].
      eapply (IH (pre ++ [x])); [|eapply Hstep; eauto|exact Hk].
      by rewrite <- app_assoc. }
  intros acc st acc' st' evs HI Hrun. eapply (Hgen l []); eauto.
Qed.

Lemma for_acc_returns body l :
  (∀ x acc st r st' evs,
     x ∈ l → body x acc st = (r, st', evs) → ∃ acc', r = Ok acc') →
  ∀ acc st r st' evs,
    for_acc l acc body st = (r, st', evs) → ∃ acc', r = Ok acc'.
Proof.
  induction l as [|x l IH]; intros Hb acc st r st' evs Hrun.
  - apply ret_inv in Hrun. destruct Hrun as (-> & _). eauto.
  - apply for_acc_cons_inv in Hrun.
    destruct Hrun as [(acc1 & st1 & evs1 & evs2 & Hx & Hk & ->)|(e & Hx & ->)].
    + eapply IH; [|exact Hk]. intros. eapply Hb; [|done].
      by apply list_elem_of_further.
    + apply Hb in Hx as [c [=]]. apply list_elem_of_here.
Qed.

Lemma for_acc_events (P : Event → Prop) body l :
  (∀ x acc st r st' evs,
     x ∈ l → body x acc st = (r, st', evs) → Forall P evs) →
  ∀ acc st r st' evs, for_acc l acc body st = (r, st', evs) → Forall P evs.
Proof.
  induction l as [|x l IH]; intros Hb acc st r st' evs Hrun.
  - apply ret_inv in Hrun. destruct Hrun as (_ & _ & ->). constructor.
  - apply for_acc_cons_inv in Hrun.
    destruct Hrun as [(acc1 & st1 & evs1 & evs2 & Hx & Hk & ->)|(e & Hx & ->)].
    + apply Forall_app. split.
      * eapply Hb; [|done]. apply list_elem_of_here.
      * eapply IH; [|exact Hk]. intros. eapply Hb; [|done].
        by apply list_elem_of_further.
    + eapply Hb; [|done]. apply list_elem_of_here.
Qed.

End AccumulateFacts.

Ltac unfold_gate H :=
  unfold checkable_body, checkable_verdict, disk_aliases, disk_info in H;
  unfold_capabilities H.

Section GateFacts.
Context {World : Type} {env : Environment World}.
Context (DISK_INFO : gmap string DiskEntry).
Implicit Types st : State World.

(** One iteration of the classifier: a device is passed over; a partition
    is added to the dictionary, when no rule skips it, or reported with the
    reason of the first rule that does; the iteration raises only on an LVM
    partition without aliases. *)
Lemma checkable_body_spec root_fs missing disk d fs dnc st r st' evs :
  DISK_INFO !! disk = Some d →
  checkable_body DISK_INFO root_fs missing disk (fs, dnc) st
  = (r, st', evs) →
  st_OS_INFO st' = st_OS_INFO st ∧ st_SYSTEM_INFO st' = st_SYSTEM_INFO st ∧
  match r with
  | Raise _ => Product d = LVM_PARTITION ∧ Aliases d = None
  | Ok (fs', dnc') =>
      if is_device d then fs' = fs ∧ dnc' = dnc
      else
        (∃ e, fs' = dict_set disk e fs ∧ dnc' = dnc ∧
              checker_missing missing d = false ∧
              is_busy_root (st_SYSTEM_INFO st) root_fs disk = false ∧
              is_root_alias root_fs d = false ∧ unrecognised d = false) ∨
        (∃ reason, fs' = fs ∧ dnc' = dnc ++ [skip_line disk reason] ∧
                   reason ∈ [CHECKER_MISSING; DISK_BUSY; NOT_RECOGNISED] ∧
                   (checker_missing missing d = true ↔
                    reason = CHECKER_MISSING))
  end.
Proof.
  intros Hd Hrun. unfold_gate Hrun. rewrite Hd in Hrun.
  repeat (cbn [reason check_this_fs mount_point remount_fs_after] in Hrun;
          run_step Hrun); simplify_eq.
  all: split; [reflexivity|]; split; [reflexivity|].
  all: unfold is_device, checker_missing, is_busy_root, is_root_alias,
         unrecognised.
  all: repeat match goal with
       | H : ?b = _ |- context [?b] => rewrite H
       end.
  all: cbn [negb andb] in *; try done.
  all: try (left; eexists; repeat split; done).
  all: try (bool_to_prop; split; done).
  all: right; eexists; split; [done|]; split; [done|].
  all: split; [rewrite !elem_of_cons; auto|].
  all: split; intros; done.
Qed.


(** One iteration of the search for missing checkers: the module of a
    recognised filesystem is appended when looking for it fails. *)
Lemma missing_fsck_body_spec disk d failed_list st r st' evs :
  DISK_INFO !! disk = Some d →
  missing_fsck_body DISK_INFO disk failed_list st = (r, st', evs) →
  st_OS_INFO st' = st_OS_INFO st ∧ st_SYSTEM_INFO st' = st_SYSTEM_INFO st ∧
  ∃ failed_list',
    r = Ok failed_list' ∧
    (failed_list' = failed_list ∨
     failed_list' = failed_list ++ ["fsck." +:+ FileSystem d] ∧
     unrecognised d = false) ∧
    (unrecognised d = false → checker_absent (FileSystem d) →
     failed_list' = failed_list ++ ["fsck." +:+ FileSystem d]).
Proof.
  intros Hd Hrun. unfold missing_fsck_body, disk_info in Hrun.
  unfold_capabilities Hrun. rewrite Hd in Hrun.
  repeat run_step Hrun; simplify_eq.
  all: split; [reflexivity|]; split; [reflexivity|].
  all: eexists; split; [reflexivity|].
  all: unfold unrecognised; bool_to_prop.
  - split; [right; split; [done|]|done].
    by destruct (str_in _ _).
  - split; [by left|]. intros _ Habs. exfalso.
    specialize (Habs (st_world st)). rewrite Hcall in Habs.
    cbn in *. destruct a as [z out]. cbn in *. tauto.
  - split; [by left|]. intros Hrec. by rewrite Hrec in *.
Qed.

Lemma find_missing_fsck_modules_spec st r st' evs :
  find_missing_fsck_modules DISK_INFO st = (r, st', evs) →
  st_OS_INFO st' = st_OS_INFO st ∧ st_SYSTEM_INFO st' = st_SYSTEM_INFO st ∧
  ∃ missing,
    r = Ok missing ∧
    (∀ m, m ∈ missing →
       ∃ d, unrecognised d = false ∧ m = "fsck." +:+ FileSystem d) ∧
    (∀ disk d, DISK_INFO !! disk = Some d → unrecognised d = false →
               checker_absent (FileSystem d) →
               "fsck." +:+ FileSystem d ∈ missing).
Proof.
  intros Hrun. unfold find_missing_fsck_modules in Hrun.
  assert (∃ missing, r = Ok missing) as [missing ->].
  { revert Hrun. apply for_acc_returns.
    intros x acc s r0 s' e Hx Hb.
    apply sorted_keys_elem_of in Hx as [d Hd].
    destruct (missing_fsck_body_spec _ _ _ _ _ _ _ Hd Hb)
      as (_ & _ & l & -> & _). eauto. }
  pose (I := λ (pre : list string) (acc : list string) (s : State World),
          st_OS_INFO s = st_OS_INFO st ∧
          st_SYSTEM_INFO s = st_SYSTEM_INFO st ∧
          (∀ m, m ∈ acc →
             ∃ d, unrecognised d = false ∧ m = "fsck." +:+ FileSystem d) ∧
          (∀ disk d, disk ∈ pre → DISK_INFO !! disk = Some d →
                     unrecognised d = false → checker_absent (FileSystem d) →
                     "fsck." +:+ FileSystem d ∈ acc)).
  assert (HI : I (sorted_keys DISK_INFO) missing st').
  { revert Hrun. apply for_acc_prefix_invariant.
    - intros pre x suf acc s acc' s' e Hkeys (HO & HS & Hin & Hall) Hb.
      assert (Hx : x ∈ sorted_keys DISK_INFO).
      { rewrite Hkeys, elem_of_app, elem_of_cons. auto. }
      apply sorted_keys_elem_of in Hx as [d Hd].
      destruct (missing_fsck_body_spec _ _ _ _ _ _ _ Hd Hb)
        as (HO' & HS' & l & [= <-] & Hshape & Habs).
      split; [congruence|]. split; [congruence|]. split.
      + intros m Hm. destruct Hshape as [->|[-> Hrec]]; [eauto|].
        apply elem_of_app in Hm as [Hm|Hm]; [eauto|].
        apply list_elem_of_singleton in Hm as ->. eauto.
      + intros disk d' Hdisk Hd' Hrec Hab.
        apply elem_of_app in Hdisk as [Hdisk|Hdisk].
        * destruct Hshape as [->|[-> _]]; [eauto|].
          apply elem_of_app. left. eauto.
        * apply list_elem_of_singleton in Hdisk as ->.
          assert (d' = d) as -> by congruence.
          rewrite (Habs Hrec Hab). apply elem_of_app. right.
          apply list_elem_of_here.
    - repeat split; try done; intros *; by rewrite ?elem_of_nil. }
  destruct HI as (HO & HS & Hin & Hall).
  split; [done|]. split; [done|]. exists missing. split; [done|]. split; [done|].
  intros disk d Hd. apply (Hall disk d); [|done].
  apply sorted_keys_elem_of. eauto.
Qed.


(** Assigning a key that the dictionary does not hold appends it. *)
Lemma dict_set_fresh {V} (k : string) (v : V) (d : list (string * V)) :
  k ∉ map fst d → dict_set k v d = d ++ [(k, v)].
Proof.
  induction d as [|[k' v'] d IH]; intros Hk; cbn; [done|].
  cbn in Hk. apply not_elem_of_cons in Hk as [Hne Hk].
  rewrite bool_decide_eq_false_2 by congruence. by rewrite IH.
Qed.

(** The loop of the classifier, from empty local variables. *)
Lemma checkable_loop_spec root_fs missing keys st fs dnc st' evs :
  NoDup keys →
  (∀ k, k ∈ keys → is_Some (DISK_INFO !! k)) →
  for_acc keys ([], []) (checkable_body DISK_INFO root_fs missing) st
  = (Ok (fs, dnc), st', evs) →
  st_SYSTEM_INFO st' = st_SYSTEM_INFO st ∧
  classified DISK_INFO keys fs dnc ∧
  checked_safely DISK_INFO (st_SYSTEM_INFO st) root_fs missing fs ∧
  missing_reported DISK_INFO missing keys dnc.
Proof.
  intros Hnd Hkeys Hrun.
  pose (I := λ (pre : list string)
               (acc : list (string * CheckEntry) * list string)
               (s : State World),
          st_SYSTEM_INFO s = st_SYSTEM_INFO st ∧
          classified DISK_INFO pre acc.1 acc.2 ∧
          checked_safely DISK_INFO (st_SYSTEM_INFO st) root_fs missing acc.1 ∧
          missing_reported DISK_INFO missing pre acc.2).
  change (I keys (fs, dnc) st'). revert Hrun.
  apply for_acc_prefix_invariant.
  - intros pre x suf [fs0 dnc0] s [fs1 dnc1] s' e Hl
      (HS & (skipped & Hnd0 & Hmem & HF2) & Hsafe & Hrep) Hb.
    cbn [fst snd] in *.
    assert (Hx : x ∉ pre).
    { rewrite Hl in Hnd. apply NoDup_app in Hnd as (_ & Hnd & _).
      intros Hin. apply (Hnd _ Hin). apply list_elem_of_here. }
    destruct (Hkeys x) as [d Hd].
    { rewrite Hl, elem_of_app, elem_of_cons. auto. }
    assert (Hfresh : x ∉ map fst fs0 ++ skipped).
    { intros Hin. apply Hmem in Hin as [Hin _]. done. }
    destruct (checkable_body_spec _ _ _ _ _ _ _ _ _ _ Hd Hb)
      as (_ & HS' & Hcase).
    rewrite HS in Hcase.
    split; [congruence|].
    unfold classified, checked_safely, missing_reported. cbn [fst snd].
    destruct (is_device d) eqn:Hdev.
    + destruct Hcase as [-> ->]. split; [|split]; [|done|].
      * exists skipped. split; [done|]. split; [|done].
        intros disk. rewrite Hmem, elem_of_app, list_elem_of_singleton.
        split; [naive_solver|].
        intros [[?| ->] (d' & Hd' & Hnd')]; [eauto|]. congruence.
      * intros disk d' Hin Hd' Hdev' Hmiss.
        apply elem_of_app in Hin as [Hin|Hin]; [eauto|].
        apply list_elem_of_singleton in Hin as ->. congruence.
    + destruct Hcase as [(entry & -> & -> & Hm & Hb2 & Ha & Hu)|
                         (reason & -> & -> & Hreason & Hiff)].
      * rewrite dict_set_fresh
          by (intros Hin; apply Hfresh, elem_of_app; auto).
        rewrite map_app. cbn [map fst].
        split; [|split].
        -- exists skipped. split; [|split; [|done]].
           ++ rewrite <- app_assoc. cbn [app].
              apply NoDup_app in Hnd0 as (HA & HAS & HSk).
              apply NoDup_app. split; [done|]. split.
              ** intros y Hy Hin. apply elem_of_cons in Hin as [->|Hin].
                 { apply Hfresh, elem_of_app. auto. }
                 by apply (HAS y).
              ** apply NoDup_cons. split; [|done].
                 intros Hin. apply Hfresh, elem_of_app. auto.
           ++ intros disk.
              rewrite !elem_of_app, list_elem_of_singleton.
              specialize (Hmem disk). rewrite elem_of_app in Hmem.
              split.
              ** intros [[Hin| ->]|Hin]; [naive_solver| |naive_solver].
                 split; [by right|]. eauto.
              ** intros [[Hin| ->] Hnd']; [naive_solver|auto].
        -- intros disk d' Hin Hd'.
           apply elem_of_app in Hin as [Hin|Hin]; [eauto|].
           apply list_elem_of_singleton in Hin as ->.
           assert (d' = d) as -> by congruence. done.
        -- intros disk d' Hin Hd' Hdev' Hmiss.
           apply elem_of_app in Hin as [Hin|Hin]; [eauto|].
           apply list_elem_of_singleton in Hin as ->.
           assert (d' = d) as -> by congruence. congruence.
      * split; [|split]; [|done|].
        -- exists (skipped ++ [x]). split; [|split].
           ++ rewrite app_assoc. apply NoDup_app. split; [done|].
              split; [|apply NoDup_singleton].
              intros y Hy Hin. apply list_elem_of_singleton in Hin as ->.
              done.
           ++ intros disk.
              rewrite app_assoc, elem_of_app, list_elem_of_singleton.
              rewrite Hmem, elem_of_app, list_elem_of_singleton.
              split; [naive_solver|].
              intros [[Hin| ->] Hnd']; [naive_solver|auto].
           ++ apply Forall2_app; [done|].
              constructor; [|constructor]. by exists reason.
        -- intros disk d' Hin Hd' Hdev' Hmiss.
           apply elem_of_app. apply elem_of_app in Hin as [Hin|Hin]; [eauto|].
           apply list_elem_of_singleton in Hin as ->.
           assert (d' = d) as -> by congruence.
           right. apply Hiff in Hmiss as ->. apply list_elem_of_here.
  - split; [done|]. split; [|split].
    + exists []. split; [constructor|]. split; [|constructor].
      intros disk. cbn. rewrite elem_of_nil. naive_solver.
    + intros disk d Hin. cbn in Hin. by apply elem_of_nil in Hin.
    + intros disk d Hin. by apply elem_of_nil in Hin.
Qed.

(** A loop of the classifier over keys of an inventory whose LVM partitions
    carry their aliases returns. *)
Lemma checkable_loop_returns root_fs missing keys acc st r st' evs :
  lvm_has_aliases DISK_INFO →
  (∀ k, k ∈ keys → is_Some (DISK_INFO !! k)) →
  for_acc keys acc (checkable_body DISK_INFO root_fs missing) st
  = (r, st', evs) →
  ∃ acc', r = Ok acc'.
Proof.
  intros Hlvm Hkeys. apply for_acc_returns.
  intros x [fs0 dnc0] s r0 s' e Hx Hb.
  destruct (Hkeys x Hx) as [d Hd].
  destruct (checkable_body_spec _ _ _ _ _ _ _ _ _ _ Hd Hb)
    as (_ & _ & Hcase).
  destruct r0 as [acc'|err]; [eauto|].
  destruct Hcase as [HP HA]. destruct (Hlvm _ _ Hd HP) as [al Hal].
  congruence.
Qed.

(** [checkable_scan] is the mount query, the search for missing checkers
    and the loop. *)
Lemma checkable_scan_inv st r st' evs :
  checkable_scan DISK_INFO st = (r, st', evs) →
  ∃ root_fs w missing st1 evs1 evs2,
    env_get_partition_mounted_at "/" (st_world st) = (root_fs, w) ∧
    find_missing_fsck_modules DISK_INFO
      (mkState w (st_OS_INFO st) (st_SYSTEM_INFO st))
    = (Ok missing, st1, evs1) ∧
    for_acc (sorted_keys DISK_INFO) ([], [])
            (checkable_body DISK_INFO root_fs missing) st1
    = (r, st', evs2) ∧
    evs = EvGetPartitionMountedAt "/" root_fs :: evs1 ++ evs2.
Proof.
  intros Hrun. unfold checkable_scan, get_partition_mounted_at in Hrun.
  run_step Hrun. exists a, w.
  apply bind_inv in Hrun
    as [(missing & st1 & evs1 & evs2 & Hm & Hk & ->)|(e & Hm & ->)].
  - by exists missing, st1, evs1, evs2.
  - apply find_missing_fsck_modules_spec in Hm as (_ & _ & ? & [=] & _).
Qed.

End GateFacts.

(** *** The claims about the classifier *)

Section GateClaims.
Context {World : Type} {env : Environment World}.
Context (DISK_INFO : gmap string DiskEntry).
Implicit Types st : State World.

Lemma dict_get_None {V} (k : string) (d : list (string * V)) :
  dict_get k d = None ↔ k ∉ map fst d.
Proof.
  induction d as [|[k' v'] d IH]; cbn.
  - split; [intros _; apply not_elem_of_nil|done].
  - rewrite not_elem_of_cons. case_bool_decide; naive_solver.
Qed.

(** What a run of [find_checkable_file_systems] that returns has done: the
    returned dictionary and the list it reported classify the inventory. *)
Lemma find_checkable_file_systems_spec st r st' evs :
  find_checkable_file_systems DISK_INFO st = (r, st', evs) →
  (lvm_has_aliases DISK_INFO → ∃ fs, r = Ok fs) ∧
  ∀ fs, r = Ok fs →
    ∃ root_fs w missing dnc st1 evs1,
      env_get_partition_mounted_at "/" (st_world st) = (root_fs, w) ∧
      checkable_scan DISK_INFO st = (Ok (fs, dnc), st1, evs1) ∧
      (∀ disk d, DISK_INFO !! disk = Some d → unrecognised d = false →
                 checker_absent (FileSystem d) →
                 checker_missing missing d = true) ∧
      classified DISK_INFO (sorted_keys DISK_INFO) fs dnc ∧
      checked_safely DISK_INFO (st_SYSTEM_INFO st) root_fs missing fs ∧
      missing_reported DISK_INFO missing (sorted_keys DISK_INFO) dnc ∧
      (dnc ≠ [] → EvShowMsgDlg "info" (skip_report dnc) tt ∈ evs).
Proof.
  intros Hrun. unfold find_checkable_file_systems in Hrun.
  assert (Hkeys : ∀ k, k ∈ sorted_keys DISK_INFO → is_Some (DISK_INFO !! k))
    by (intros k; apply sorted_keys_elem_of).
  apply bind_inv in Hrun
    as [([fs0 dnc] & st1 & evs1 & evs2 & Hscan & Hk & ->)|(e & Hscan & ->)].
  - assert (r = Ok fs0 ∧
            (dnc ≠ [] → EvShowMsgDlg "info" (skip_report dnc) tt ∈ evs2))
      as [-> Hdlg].
    { unfold show_msg_dlg in Hk. repeat run_step Hk; bool_to_prop.
      - destruct a. split; [done|]. intros _. apply list_elem_of_here.
      - split; [done|]. intros Hne. contradiction. }
    split; [eauto|]. intros fs [= <-].
    destruct (checkable_scan_inv _ _ _ _ _ Hscan)
      as (root_fs & w & missing & st2 & evs3 & evs4 & Hroot & Hmiss & Hloop & ->).
    destruct (find_missing_fsck_modules_spec _ _ _ _ _ Hmiss)
      as (_ & HS & missing' & [= <-] & _ & Habs).
    cbn [st_SYSTEM_INFO] in HS.
    destruct (checkable_loop_spec _ _ _ _ _ _ _ _ _
                (sorted_keys_NoDup DISK_INFO) Hkeys Hloop)
      as (_ & Hcl & Hsafe & Hrep).
    rewrite HS in Hsafe.
    exists root_fs, w, missing, dnc, st1.
    eexists. split; [done|]. split; [done|]. split.
    { intros disk d Hd Hrec Hab. unfold checker_missing, str_in.
      apply bool_decide_eq_true. eauto. }
    split; [done|]. split; [done|]. split; [done|].
    intros Hne. apply elem_of_app. right. auto.
  - split; [|intros fs [=]]. intros Hlvm. exfalso.
    destruct (checkable_scan_inv _ _ _ _ _ Hscan)
      as (root_fs & w & missing & st2 & evs3 & evs4 & Hroot & Hmiss & Hloop & ->).
    destruct (checkable_loop_returns _ _ _ _ _ _ _ _ _ Hlvm Hkeys Hloop)
      as [acc' [=]].
Qed.

(** C2. When IsLiveDisk is false, the dictionary that
    [find_checkable_file_systems] returns holds neither the partition
    mounted at "/" nor an LVM partition whose aliases contain it (and the
    function returns, for an inventory whose LVM partitions carry their
    aliases). *)
Theorem live_root_never_checkable st r st' evs :
  IsLiveDisk (st_SYSTEM_INFO st) = false →
  find_checkable_file_systems DISK_INFO st = (r, st', evs) →
  let root_fs := (env_get_partition_mounted_at "/" (st_world st)).1 in
  (lvm_has_aliases DISK_INFO → ∃ fs, r = Ok fs) ∧
  ∀ fs, r = Ok fs →
    ∀ disk d, DISK_INFO !! disk = Some d →
      (disk = root_fs ∨
       (Product d = LVM_PARTITION ∧
        ∃ aliases, Aliases d = Some aliases ∧ root_fs ∈ aliases)) →
      dict_get disk fs = None.
Proof.
  intros Hlive Hrun root_fs.
  destruct (find_checkable_file_systems_spec _ _ _ _ Hrun) as [Hret Hspec].
  split; [done|]. intros fs -> disk d Hd Hroot.
  destruct (Hspec _ eq_refl)
    as (root & w & missing & dnc & st1 & evs1 & Hq & _ & _ & _ & Hsafe & _).
  assert (root_fs = root) as -> by (unfold root_fs; by rewrite Hq).
  apply dict_get_None. intros Hin.
  destruct (Hsafe _ _ Hin Hd) as (_ & Hbusy & Halias & _).
  destruct Hroot as [->|(HP & al & Hal & Hmem)].
  - unfold is_busy_root in Hbusy. rewrite Hlive in Hbusy.
    by rewrite bool_decide_eq_true_2 in Hbusy.
  - unfold is_root_alias, str_in in Halias. rewrite Hal in Halias.
    by rewrite !bool_decide_eq_true_2 in Halias.
Qed.

(** C7 (amended). A partition whose filesystem is recognised (neither
    "Unknown" nor "N/A") and whose checker is absent is left out of the
    returned dictionary and reported, in the list shown to the operator,
    with the reason "filesystem checker was not found." -- whatever else
    holds of it: the rule comes first, before the busy live root and the
    LVM alias. *)
Theorem missing_checker_is_reported_first st r st' evs disk d :
  DISK_INFO !! disk = Some d → is_device d = false →
  unrecognised d = false →
  checker_absent (FileSystem d) →
  find_checkable_file_systems DISK_INFO st = (r, st', evs) →
  (lvm_has_aliases DISK_INFO → ∃ fs, r = Ok fs) ∧
  ∀ fs, r = Ok fs →
    dict_get disk fs = None ∧
    ∃ dnc st1 evs1,
      checkable_scan DISK_INFO st = (Ok (fs, dnc), st1, evs1) ∧
      skip_line disk CHECKER_MISSING ∈ dnc ∧
      EvShowMsgDlg "info" (skip_report dnc) tt ∈ evs.
Proof.
  intros Hd Hdev Hrec Habs Hrun.
  destruct (find_checkable_file_systems_spec _ _ _ _ Hrun) as [Hret Hspec].
  split; [done|]. intros fs ->.
  destruct (Hspec _ eq_refl)
    as (root & w & missing & dnc & st1 & evs1 & _ & Hscan & Hmiss & _
        & Hsafe & Hrep & Hdlg).
  specialize (Hmiss _ _ Hd Hrec Habs).
  assert (Hline : skip_line disk CHECKER_MISSING ∈ dnc).
  { eapply Hrep; eauto. apply sorted_keys_elem_of. eauto. }
  split.
  - apply dict_get_None. intros Hin.
    destruct (Hsafe _ _ Hin Hd) as (Hm & _). congruence.
  - exists dnc, st1, evs1. split; [done|]. split; [done|].
    apply Hdlg. intros ->. by apply elem_of_nil in Hline.
Qed.

(** C10. A run of [find_checkable_file_systems] that returns has put every
    entry of the inventory that is not a device either in the returned
    dictionary or, with one of the three reasons, in the list of skipped
    filesystems, never in both and never twice, and has put no device in
    either; the function returns for an inventory whose LVM partitions
    carry their aliases, and a list that is not empty is shown to the
    operator. *)
Theorem every_partition_is_classified st r st' evs :
  find_checkable_file_systems DISK_INFO st = (r, st', evs) →
  (lvm_has_aliases DISK_INFO → ∃ fs, r = Ok fs) ∧
  ∀ fs, r = Ok fs →
    ∃ dnc st1 evs1 skipped,
      checkable_scan DISK_INFO st = (Ok (fs, dnc), st1, evs1) ∧
      Forall2 is_skip_line skipped dnc ∧
      NoDup (map fst fs ++ skipped) ∧
      (∀ disk d, DISK_INFO !! disk = Some d →
         if is_device d
         then dict_get disk fs = None ∧ disk ∉ skipped
         else (is_Some (dict_get disk fs) ∧ disk ∉ skipped) ∨
              (dict_get disk fs = None ∧ disk ∈ skipped)) ∧
      (dnc ≠ [] → EvShowMsgDlg "info" (skip_report dnc) tt ∈ evs).
Proof.
  intros Hrun.
  destruct (find_checkable_file_systems_spec _ _ _ _ Hrun) as [Hret Hspec].
  split; [done|]. intros fs ->.
  destruct (Hspec _ eq_refl)
    as (root & w & missing & dnc & st1 & evs1 & _ & Hscan & _
        & (skipped & Hnd & Hmem & HF2) & _ & _ & Hdlg).
  exists dnc, st1, evs1, skipped. repeat split; try done.
  intros disk d Hd.
  assert (Hin : disk ∈ map fst fs ++ skipped ↔ is_device d = false).
  { rewrite Hmem. split.
    - intros (_ & d' & Hd' & ?). congruence.
    - intros ?. split; [apply sorted_keys_elem_of|]; eauto. }
  rewrite elem_of_app in Hin.
  apply NoDup_app in Hnd as (_ & Hdisj & _).
  destruct (is_device d).
  - split.
    + apply dict_get_None. intros ?.
      assert (true = false) by (apply Hin; by left). done.
    + intros ?. assert (true = false) by (apply Hin; by right). done.
  - destruct (proj2 Hin eq_refl) as [Hfs|Hsk].
    + left. split; [|by apply Hdisj].
      destruct (dict_get disk fs) eqn:Hg; [eauto|].
      by apply dict_get_None in Hg.
    + right. split; [|done]. apply dict_get_None.
      intros Hfs. by apply (Hdisj _ Hfs).
Qed.

End GateClaims.

(** *** The classifier on concrete machines *)

Lemma recorded_checks :
  checkable_scan (env := machine_env bare_machine) unknown_inventory
                 (initial_state false) = unknown_scan ∧
  find_checkable_file_systems (env := machine_env bare_machine)
    linux_inventory (initial_state false) = bare_check ∧
  find_checkable_file_systems (env := machine_env ubuntu_machine)
    linux_inventory (initial_state false) = ubuntu_check.
Proof. repeat split; vm_compute; reflexivity. Qed.

Lemma bare_machine_has_no_checker (fs : string) :
  checker_absent (env := machine_env bare_machine) fs.
Proof. intros w. cbn. discriminate. Qed.

Lemma live_root_never_checkable_witness :
  let DISK_INFO := linux_inventory in
  let root_fs := "/dev/sda2" in
  (lvm_has_aliases DISK_INFO → ∃ fs, ubuntu_check.1.1 = Ok fs) ∧
  ∀ fs, ubuntu_check.1.1 = Ok fs →
    ∀ disk d, DISK_INFO !! disk = Some d →
      (disk = root_fs ∨
       (Product d = LVM_PARTITION ∧
        ∃ aliases, Aliases d = Some aliases ∧ root_fs ∈ aliases)) →
      dict_get disk fs = None.
Proof.
  apply (live_root_never_checkable (env := machine_env ubuntu_machine)
           linux_inventory (initial_state false)
           ubuntu_check.1.1 ubuntu_check.1.2 ubuntu_check.2).
  - reflexivity.
  - vm_compute. reflexivity.
Defined.

(** C7, the claim as stated fails: on a machine without any checker, a
    partition whose filesystem is "Unknown" is reported as not recognised,
    and not with the reason of the missing checker. *)
Lemma unrecognised_is_not_reported_missing :
  checkable_scan (env := machine_env bare_machine) unknown_inventory
                 (initial_state false) = unknown_scan ∧
  unknown_inventory !! "/dev/sda1" = Some (part Unknown) ∧
  is_device (part Unknown) = false ∧
  checker_absent (env := machine_env bare_machine)
                 (FileSystem (part Unknown)) ∧
  unknown_scan.1.1
  = Ok ([], [skip_line "/dev/sda1" NOT_RECOGNISED]) ∧
  skip_line "/dev/sda1" CHECKER_MISSING
  ∉ [skip_line "/dev/sda1" NOT_RECOGNISED].
Proof.
  split; [vm_compute; reflexivity|]. split; [vm_compute; reflexivity|].
  split; [reflexivity|]. split; [apply bare_machine_has_no_checker|].
  split; [vm_compute; reflexivity|].
  intros Hin. apply list_elem_of_singleton in Hin. vm_compute in Hin.
  discriminate Hin.
Qed.

Lemma missing_checker_is_reported_first_witness :
  let DISK_INFO := linux_inventory in
  let st := initial_state false in
  let disk := "/dev/sda2" in
  (lvm_has_aliases DISK_INFO → ∃ fs, bare_check.1.1 = Ok fs) ∧
  ∀ fs, bare_check.1.1 = Ok fs →
    dict_get disk fs = None ∧
    ∃ dnc st1 evs1,
      checkable_scan (env := machine_env bare_machine) DISK_INFO st
      = (Ok (fs, dnc), st1, evs1) ∧
      skip_line disk CHECKER_MISSING ∈ dnc ∧
      EvShowMsgDlg "info" (skip_report dnc) tt ∈ bare_check.2.
Proof.
  apply (missing_checker_is_reported_first (env := machine_env bare_machine)
           linux_inventory (initial_state false)
           bare_check.1.1 bare_check.1.2 bare_check.2
           "/dev/sda2" (part "ext4")).
  - vm_compute. reflexivity.
  - reflexivity.
  - vm_compute. reflexivity.
  - intros w. vm_compute. discriminate.
  - vm_compute. reflexivity.
Defined.

(** In that run the partition is also the live root of a system that is
    not a live disk: the rule of the missing checker came first. *)
Example missing_checker_on_the_live_root :
  m_root_fs bare_machine = "/dev/sda2" ∧
  IsLiveDisk (st_SYSTEM_INFO (initial_state false)) = false ∧
  bare_check.1.1 = Ok [].
Proof. repeat split; vm_compute; reflexivity. Qed.

Lemma every_partition_is_classified_witness :
  let DISK_INFO := linux_inventory in
  let st := initial_state false in
  (lvm_has_aliases DISK_INFO → ∃ fs, ubuntu_check.1.1 = Ok fs) ∧
  ∀ fs, ubuntu_check.1.1 = Ok fs →
    ∃ dnc st1 evs1 skipped,
      checkable_scan (env := machine_env ubuntu_machine) DISK_INFO st
      = (Ok (fs, dnc), st1, evs1) ∧
      Forall2 is_skip_line skipped dnc ∧
      NoDup (map fst fs ++ skipped) ∧
      (∀ disk d, DISK_INFO !! disk = Some d →
         if is_device d
         then dict_get disk fs = None ∧ disk ∉ skipped
         else (is_Some (dict_get disk fs) ∧ disk ∉ skipped) ∨
              (dict_get disk fs = None ∧ disk ∈ skipped)) ∧
      (dnc ≠ [] → EvShowMsgDlg "info" (skip_report dnc) tt ∈ ubuntu_check.2).
Proof.
  apply (every_partition_is_classified (env := machine_env ubuntu_machine)
           linux_inventory (initial_state false)
           ubuntu_check.1.1 ubuntu_check.1.2 ubuntu_check.2).
  vm_compute. reflexivity.
Defined.

(** ** The filesystem check *)

Ltac unfold_essentials H :=
  unfold filesystem_check_body, plan_check, run_and_handle,
    handle_filesystem_check_return_values, first_word, disk_info in H;
  unfold_capabilities H.

(** Decide [runs_badblocks] on the events of an explicit trace; a command
    that starts with a literal is compared on its first character. *)
Ltac no_badblocks :=
  repeat first
    [ apply Forall_nil_2
    | apply Forall_cons; split; [reflexivity|] ].

Section EssentialsFacts.
Context {World : Type} {env : Environment World}.
Context (DISK_INFO : gmap string DiskEntry) (OPERATIONS : list Operation).
Implicit Types st : State World.

(** The handler of exit codes only talks to the operator. *)
Lemma handler_is_quiet exec_cmds retval partition mbf st r st' evs :
  handle_filesystem_check_return_values OPERATIONS exec_cmds retval
    partition mbf st = (r, st', evs) →
  Forall quiet evs.
Proof.
  intros Hrun. unfold handle_filesystem_check_return_values, first_word in Hrun.
  unfold_capabilities Hrun.
  repeat run_step Hrun; simplify_eq; unfold quiet; no_badblocks.
Qed.

(** Running a command and handling its exit code starts that one process. *)
Lemma run_and_handle_events cmd disk mbf st r st' evs :
  run_and_handle OPERATIONS cmd disk mbf st = (r, st', evs) →
  ∃ out tail, evs = EvStartProcess cmd out :: tail ∧ Forall quiet tail.
Proof.
  intros Hrun. unfold run_and_handle, start_process, start_process_output in Hrun.
  rewrite bind_assoc in Hrun. run_step Hrun. rewrite bind_ret_l in Hrun.
  exists a. eexists. split; [reflexivity|].
  destruct (bool_decide (a.1 = 0)).
  - run_step Hrun. constructor.
  - by eapply handler_is_quiet.
Qed.

(** The plan for one disk: the command is empty or a checker, never
    badblocks, and [run_badblocks] is set only outside the quick mode and
    only for the filesystems whose checkers skip bad sectors. *)
Lemma plan_check_spec _type disk fs st r st' evs :
  plan_check _type disk fs st = (r, st', evs) →
  Forall quiet evs ∧
  ∃ exec_cmds run_badblocks,
    r = Ok (exec_cmds, run_badblocks) ∧
    String.prefix "badblocks" exec_cmds = false ∧
    (run_badblocks = true →
     _type ≠ "Quick" ∧ fs ∈ BADBLOCKS_FILESYSTEMS).
Proof.
  intros Hrun. unfold plan_check in Hrun. unfold_capabilities Hrun.
  repeat run_step Hrun; simplify_eq.
  all: split; [unfold quiet; no_badblocks|].
  all: eexists _, _; split; [reflexivity|]; split; [reflexivity|].
  all: intros Hrb; try discriminate Hrb; clear Hrb.
  all: unfold BADBLOCKS_FILESYSTEMS, str_in in *; bool_to_prop.
  all: split; [done|].
  all: rewrite ?elem_of_cons in *; tauto.
Qed.

Lemma quiet_justified _type evs :
  Forall quiet evs → Forall (badblocks_justified DISK_INFO _type) evs.
Proof.
  intros Hq. eapply Forall_impl; [exact Hq|].
  intros ev Hev Hb. unfold quiet in Hev. congruence.
Qed.

Lemma filesystem_check_body_events _type mbf fss disk st r st' evs :
  filesystem_check_body DISK_INFO OPERATIONS _type mbf fss disk st
  = (r, st', evs) →
  Forall (badblocks_justified DISK_INFO _type) evs.
Proof.
  intros Hrun. unfold filesystem_check_body, disk_info in Hrun.
  destruct (DISK_INFO !! disk) as [d|] eqn:Hd.
  2: { repeat run_step Hrun. constructor. }
  rewrite bind_ret_l in Hrun.
  apply bind_inv in Hrun
    as [([exec_cmds rb] & st1 & evs1 & evs2 & Hplan & Hk & ->)|(e & Hplan & ->)].
  2: { apply plan_check_spec in Hplan as [Hq _]. by apply quiet_justified. }
  apply plan_check_spec in Hplan
    as (Hq & ? & ? & [= <- <-] & Hcmd & Hrb).
  apply Forall_app. split; [by apply quiet_justified|].
  apply bind_inv in Hk
    as [([] & st2 & evs3 & evs4 & Hexec & Hk & ->)|(e & Hexec & ->)].
  2: { destruct (bool_decide (exec_cmds ≠ "")).
       - apply run_and_handle_events in Hexec as (out & tail & -> & Ht).
         apply quiet_justified. constructor; [exact Hcmd|done].
       - apply ret_inv in Hexec as [[=] _]. }
  assert (Hexec_ok : Forall (badblocks_justified DISK_INFO _type) evs3).
  { destruct (bool_decide (exec_cmds ≠ "")).
    - apply run_and_handle_events in Hexec as (out & tail & -> & Ht).
      apply quiet_justified. constructor; [exact Hcmd|done].
    - apply ret_inv in Hexec as (_ & _ & ->). constructor. }
  apply Forall_app. split; [done|].
  assert (Hbad : ∀ s r0 s' e0,
            (if rb then run_and_handle OPERATIONS (BADBLOCKS +:+ disk) disk mbf
             else ret tt) s = (r0, s', e0) →
            Forall (badblocks_justified DISK_INFO _type) e0).
  { intros s r0 s' e0 Hb. destruct rb.
    - destruct (Hrb eq_refl) as [Hq' Hfs].
      apply run_and_handle_events in Hb as (out & tail & -> & Ht).
      constructor; [|by apply quiet_justified].
      intros _. split; [done|]. by exists disk, d, out.
    - apply ret_inv in Hb as (_ & _ & ->). constructor. }
  apply bind_inv in Hk
    as [([] & st3 & evs5 & evs6 & Hb & Hk & ->)|(e & Hb & ->)].
  2: { by eapply Hbad. }
  apply Forall_app. split; [by eapply Hbad|].
  apply quiet_justified. unfold_capabilities Hk.
  repeat run_step Hk; unfold quiet; no_badblocks.
Qed.

(** The search for checkable filesystems never starts badblocks. *)
Lemma find_checkable_file_systems_quiet st r st' evs :
  find_checkable_file_systems DISK_INFO st = (r, st', evs) →
  Forall quiet evs.
Proof.
  intros Hrun. unfold find_checkable_file_systems in Hrun.
  assert (Hscan : ∀ s r0 s' e0,
            checkable_scan DISK_INFO s = (r0, s', e0) → Forall quiet e0).
  { intros s r0 s' e0 Hs. unfold checkable_scan in Hs.
    unfold get_partition_mounted_at in Hs. run_step Hs.
    constructor; [reflexivity|].
    apply bind_inv in Hs
      as [(missing & st1 & evs1 & evs2 & Hm & Hk & ->)|(e & Hm & ->)].
    - apply Forall_app. split.
      + revert Hm. apply for_acc_events.
        intros x acc s0 r1 s1 e1 _ Hb.
        unfold missing_fsck_body, disk_info in Hb. unfold_capabilities Hb.
        repeat run_step Hb; unfold quiet; no_badblocks.
      + revert Hk. apply for_acc_events.
        intros x [fs0 dnc0] s0 r1 s1 e1 _ Hb. unfold_gate Hb.
        repeat (cbn [reason check_this_fs mount_point remount_fs_after] in Hb;
                run_step Hb); unfold quiet; no_badblocks.
    - revert Hm. apply for_acc_events.
      intros x acc s0 r1 s1 e1 _ Hb.
      unfold missing_fsck_body, disk_info in Hb. unfold_capabilities Hb.
      repeat run_step Hb; unfold quiet; no_badblocks. }
  apply bind_inv in Hrun
    as [([fs0 dnc] & st1 & evs1 & evs2 & Hs & Hk & ->)|(e & Hs & ->)].
  - apply Forall_app. split; [by eapply Hscan|].
    unfold_capabilities Hk. repeat run_step Hk; unfold quiet; no_badblocks.
  - by eapply Hscan.
Qed.

(** C9. In a filesystem check, every call that runs badblocks is made
    outside the "Quick" mode, on a disk of the inventory whose filesystem is
    jfs, minix, reiserfs, xfs, hfs or hfsplus; in the "Quick" mode no call
    runs badblocks. *)
Theorem badblocks_only_outside_quick_mode _type mbf st r st' evs :
  filesystem_check DISK_INFO OPERATIONS _type mbf st = (r, st', evs) →
  Forall (badblocks_justified DISK_INFO _type) evs ∧
  (_type = "Quick" → existsb runs_badblocks evs = false).
Proof.
  intros Hrun.
  assert (Hall : Forall (badblocks_justified DISK_INFO _type) evs).
  { unfold filesystem_check in Hrun.
    apply bind_inv in Hrun
      as [(fss & st1 & evs1 & evs2 & Hf & Hk & ->)|(e & Hf & ->)].
    2: { apply quiet_justified. by eapply find_checkable_file_systems_quiet. }
    apply Forall_app. split.
    { apply quiet_justified. by eapply find_checkable_file_systems_quiet. }
    unfold show_msg_dlg in Hk. run_step Hk.
    constructor; [intros [=]|].
    revert Hk. apply for_in_events.
    intros x s r0 s' e0 _. apply filesystem_check_body_events. }
  split; [done|]. intros ->.
  apply not_true_iff_false. intros Hex.
  apply existsb_exists in Hex as (ev & Hin & Hev).
  rewrite Forall_forall in Hall.
  apply list_elem_of_In in Hin.
  destruct (Hall ev Hin Hev) as [Hne _]. done.
Qed.

End EssentialsFacts.

Lemma recorded_filesystem_checks :
  filesystem_check (env := machine_env ubuntu_machine) fsck_inventory []
                   "Quick" "manage_bootloader" (initial_state false)
  = quick_check ∧
  filesystem_check (env := machine_env ubuntu_machine) fsck_inventory []
                   "Thorough" "manage_bootloader" (initial_state false)
  = thorough_check.
Proof. split; vm_compute; reflexivity. Qed.

Lemma badblocks_only_outside_quick_mode_witness :
  Forall (badblocks_justified fsck_inventory "Thorough") thorough_check.2 ∧
  ("Thorough" = "Quick" → existsb runs_badblocks thorough_check.2 = false).
Proof.
  apply (badblocks_only_outside_quick_mode
           (env := machine_env ubuntu_machine) fsck_inventory []
           "Thorough" "manage_bootloader" (initial_state false)
           thorough_check.1.1 thorough_check.1.2 thorough_check.2).
  vm_compute. reflexivity.
Defined.

(** The same disks checked in both modes: badblocks runs on the xfs and
    the jfs disk outside the quick mode, and on none in the quick mode. *)
Example badblocks_in_both_modes :
  existsb runs_badblocks quick_check.2 = false ∧
  filter (λ ev, runs_badblocks ev = true) thorough_check.2
  = [EvStartProcess "badblocks -sv /dev/sdb1"
       (0, "Ubuntu 20.04" +:+ NEWLINE_STR);
     EvStartProcess "badblocks -sv /dev/sdb3"
       (0, "Ubuntu 20.04" +:+ NEWLINE_STR)].
Proof. split; vm_compute; reflexivity. Qed.

(** * Further properties *)

(** ** The detector: mounts, devices and the tables *)

Lemma count_app (test : Event → bool) (l1 l2 : list Event) :
  count test (l1 ++ l2) = (count test l1 + count test l2)%nat.
Proof. unfold count. by rewrite List.filter_app, length_app. Qed.

(** Evaluate the readings of the mount calls on an explicit trace. *)
Ltac eval_mounts :=
  unfold count;
  cbn [List.filter length existsb mount_succeeded is_unmount
       unmount_succeeded is_rmdir negb orb andb] in *;
  repeat match goal with
  | H : bool_decide _ = true |- _ => rewrite H in *
  | H : bool_decide _ = false |- _ => rewrite H in *
  | H : negb ?b = _ |- _ =>
      is_var b; destruct b; cbn [negb] in H; try discriminate H; clear H
  end;
  cbn [List.filter length existsb negb orb andb] in *.

Ltac about_events :=
  repeat first
    [ apply Forall_nil_2
    | apply Forall_cons; split; [cbn; auto|] ].

Section LoopCounts.
Context {World : Type} {A : Type}.
Implicit Types (st : State World) (body : A → M World LoopCtl).

(** Two counts that agree on every iteration agree on the loop. *)
Lemma for_in_count (f g : Event → bool) body l :
  (∀ x st r st' evs, x ∈ l → body x st = (r, st', evs) →
     count f evs = count g evs) →
  ∀ st r st' evs, for_in l body st = (r, st', evs) →
    count f evs = count g evs.
Proof.
  induction l as [|x l IH]; intros Hb st r st' evs Hrun.
  - apply ret_inv in Hrun. by destruct Hrun as (_ & _ & ->).
  - apply for_in_cons_inv in Hrun.
    destruct Hrun as [(st1 & evs1 & evs2 & Hx & Hk & ->)|[[Hx ->]|(e & Hx & ->)]].
    + rewrite !count_app. f_equal.
      * eapply Hb; [|done]. apply list_elem_of_here.
      * eapply IH; [|exact Hk]. intros. eapply Hb; [|done].
        by apply list_elem_of_further.
    + eapply Hb; [|done]. apply list_elem_of_here.
    + eapply Hb; [|done]. apply list_elem_of_here.
Qed.

End LoopCounts.

Section DetectorMore.
Context {World : Type} {env : Environment World}.
Context (DISK_INFO : gmap string DiskEntry).
Implicit Types st : State World.

(** What an iteration does to the mount table, and for which entry. *)
Lemma get_oss_body_mounts root_fs partition st r st' evs :
  get_oss_body DISK_INFO root_fs partition st = (r, st', evs) →
  (evs = [] ∨
   ∃ d, DISK_INFO !! partition = Some d ∧ is_device d = false ∧
        Forall (about_partition partition) evs) ∧
  count is_unmount evs = count mount_succeeded evs.
Proof.
  intros Hrun. unfold_detector Hrun.
  repeat (first [rewrite lookup_insert_eq in Hrun | run_step Hrun]);
    simplify_eq.
  all: split; [|eval_mounts; done].
  all: try (left; reflexivity).
  all: right; eexists; split; [reflexivity|]; split; [done|about_events].
Qed.

(** X1. An iteration of the scan touches only the partition it examines:
    it mounts it only at its temporary mount point, and unmounts and
    removes only that mount point. It mounts at most once, attempts exactly
    one unmount for each mount that succeeded (so a partition found mounted
    is left mounted), and removes the mount point only after an unmount
    that succeeded. *)
Theorem temporary_mounts_are_released root_fs partition st r st' evs :
  get_oss_body DISK_INFO root_fs partition st = (r, st', evs) →
  Forall (about_partition partition) evs ∧
  count is_unmount evs = count mount_succeeded evs ∧
  (count mount_succeeded evs ≤ 1)%nat ∧
  (count is_rmdir evs ≤ count unmount_succeeded evs)%nat.
Proof.
  intros Hrun. unfold_detector Hrun.
  repeat (first [rewrite lookup_insert_eq in Hrun | run_step Hrun]);
    simplify_eq.
  all: split; [about_events|].
  all: eval_mounts; repeat split; try done; try lia.
Qed.

(** X2. In a whole detection run every call of the mount manager belongs
    to an entry of the inventory that is not a device (after the query of
    the live root): nothing else is asked about, mounted, unmounted or
    removed, each mount goes to the temporary mount point of its partition,
    and the run attempts as many unmounts as it made successful mounts. *)
Theorem detection_touches_only_partitions st r st' evs :
  get_oss DISK_INFO st = (r, st', evs) →
  Forall (about_some_partition DISK_INFO) evs ∧
  count is_unmount evs = count mount_succeeded evs.
Proof.
  intros Hrun.
  destruct (get_oss_inv _ _ _ _ _ Hrun)
    as (root & w & evs' & Hroot & Hloop & -> & ->).
  split.
  - apply Forall_cons. split; [left; by exists root|].
    revert Hloop. apply for_in_events.
    intros x s r s' evs0 Hx Hb.
    apply get_oss_body_mounts in Hb as [[->|(d & Hd & Hdev & Hev)] _].
    + constructor.
    + eapply Forall_impl; [exact Hev|].
      intros ev Hab. right. by exists x, d.
  - change (EvGetPartitionMountedAt "/" root :: evs')
      with ([EvGetPartitionMountedAt "/" root] ++ evs').
    rewrite !count_app. f_equal.
    revert Hloop. apply for_in_count.
    intros x s r s' evs0 Hx Hb.
    by apply get_oss_body_mounts in Hb as [_ ?].
Qed.

(** X3. A detection run never drops a row of the OS table: every name that
    had a row before the run has one after it (a row is only ever replaced
    by a row stored under the same name), so a run that starts from a table
    with rows returns the tables, whatever it finds. *)
Theorem get_oss_keeps_existing_rows st r st' evs :
  get_oss DISK_INFO st = (r, st', evs) →
  (∀ name, is_Some (st_OS_INFO st !! name) →
           is_Some (st_OS_INFO st' !! name)) ∧
  (st_OS_INFO st ≠ ∅ →
   r = Ok (OSsFound (st_OS_INFO st') (st_SYSTEM_INFO st'))).
Proof.
  intros Hrun.
  destruct (get_oss_inv _ _ _ _ _ Hrun)
    as (root & w & evs' & Hroot & Hloop & -> & ->).
  assert (Hkeep : ∀ name, is_Some (st_OS_INFO st !! name) →
                          is_Some (st_OS_INFO st' !! name)).
  { revert Hloop.
    apply (for_in_invariant
             (λ s, ∀ name, is_Some (st_OS_INFO st !! name) →
                           is_Some (st_OS_INFO s !! name))); [|done].
    intros x s r s' evs0 _ Hs Hb name Hname.
    apply get_oss_body_effect in Hb as [[-> _]|(rec & d & -> & _)]; [auto|].
    rewrite lookup_insert_is_Some. destruct (decide (Name rec = name)); auto. }
  split; [exact Hkeep|]. intros Hne.
  rewrite bool_decide_eq_true_2; [done|].
  apply map_choose in Hne as (name & rec & Hl).
  destruct (Hkeep name) as [rec' Hl']; [by exists rec|].
  assert (size (st_OS_INFO st') ≠ 0%nat); [|lia].
  intros Hz. apply map_size_empty_inv in Hz. by rewrite Hz in Hl'.
Qed.

(** X4. A detection run changes [SYSTEM_INFO] in one place only: the flags
    of the live disk and of the bootloader operations keep their values,
    and CurrentOS either keeps its value or holds a row, marked as the
    current OS, of a Linux-family entry that is the live root or lists it
    among its aliases. When the inventory has no such entry the whole of
    [SYSTEM_INFO] is left as it was. *)
Theorem get_oss_system_info st r st' evs :
  get_oss DISK_INFO st = (r, st', evs) →
  let root_fs := (env_get_partition_mounted_at "/" (st_world st)).1 in
  let i := st_SYSTEM_INFO st in
  let i' := st_SYSTEM_INFO st' in
  IsLiveDisk i' = IsLiveDisk i ∧
  DisableBootloaderOperations i' = DisableBootloaderOperations i ∧
  DisableBootloaderOperationsBecause i' = DisableBootloaderOperationsBecause i ∧
  (CurrentOS i' = CurrentOS i ∨
   ∃ rec d, CurrentOS i' = Some rec ∧ IsCurrentOS rec = true ∧
            PackageManager rec ≠ Unknown ∧
            DISK_INFO !! Partition rec = Some d ∧ linux_family d = true ∧
            is_live_root root_fs (Partition rec) d = true) ∧
  ((∀ p d, DISK_INFO !! p = Some d → linux_family d = true →
           is_live_root root_fs p d = false) → i' = i).
Proof.
  intros Hrun root_fs i i'.
  destruct (get_oss_inv _ _ _ _ _ Hrun)
    as (root & w & evs' & Hroot & Hloop & -> & ->).
  assert (root_fs = root) as -> by (unfold root_fs; by rewrite Hroot).
  pose (I := λ s : State World,
    let j := st_SYSTEM_INFO s in
    IsLiveDisk j = IsLiveDisk i ∧
    DisableBootloaderOperations j = DisableBootloaderOperations i ∧
    DisableBootloaderOperationsBecause j
    = DisableBootloaderOperationsBecause i ∧
    (CurrentOS j = CurrentOS i ∨
     ∃ rec d, CurrentOS j = Some rec ∧ IsCurrentOS rec = true ∧
              PackageManager rec ≠ Unknown ∧
              DISK_INFO !! Partition rec = Some d ∧ linux_family d = true ∧
              is_live_root root (Partition rec) d = true) ∧
    ((∀ p d, DISK_INFO !! p = Some d → linux_family d = true →
             is_live_root root p d = false) → j = i)).
  change (I st'). revert Hloop. apply (for_in_invariant I).
  - intros x s r s' evs0 _ (HL & HD & HB & HC & HN) Hb.
    apply get_oss_body_effect in Hb
      as [[_ Hsys]|(rec & d & _ & Hd & _ & Hp & Hpm & _ & Hcur & Hsys)].
    { unfold I. rewrite Hsys. done. }
    unfold I. rewrite Hsys. destruct (IsCurrentOS rec) eqn:Hc; [|done].
    symmetry in Hcur. apply andb_true_iff in Hcur as [Hlin Hroot'].
    cbn [with_current_os IsLiveDisk DisableBootloaderOperations
         DisableBootloaderOperationsBecause CurrentOS].
    repeat split; try done.
    + right. exists rec, d. rewrite Hp. done.
    + intros Hnone. rewrite (Hnone _ _ Hd Hlin) in Hroot'. done.
  - unfold I. cbn [st_SYSTEM_INFO]. repeat split; auto.
Qed.

End DetectorMore.

Lemma temporary_mounts_are_released_witness :
  let evs := no_arch_iteration.2 in
  Forall (about_partition "/dev/sda3") evs ∧
  count is_unmount evs = count mount_succeeded evs ∧
  (count mount_succeeded evs ≤ 1)%nat ∧
  (count is_rmdir evs ≤ count unmount_succeeded evs)%nat.
Proof.
  apply (temporary_mounts_are_released
           (env := machine_env no_arch_machine) linux_inventory
           "/dev/sda2" "/dev/sda3" (initial_state false)
           no_arch_iteration.1.1 no_arch_iteration.1.2 no_arch_iteration.2).
  vm_compute. reflexivity.
Defined.

(** In that iteration the partition was mounted, unmounted and its mount
    point removed, once each. *)
Example no_arch_iteration_mounts :
  count mount_succeeded no_arch_iteration.2 = 1%nat ∧
  count is_unmount no_arch_iteration.2 = 1%nat ∧
  count is_rmdir no_arch_iteration.2 = 1%nat.
Proof. repeat split; vm_compute; reflexivity. Qed.

Lemma detection_touches_only_partitions_witness :
  Forall (about_some_partition linux_inventory) ubuntu_run.2 ∧
  count is_unmount ubuntu_run.2 = count mount_succeeded ubuntu_run.2.
Proof.
  apply (detection_touches_only_partitions
           (env := machine_env ubuntu_machine) linux_inventory
           (initial_state false) ubuntu_run.1.1 ubuntu_run.1.2 ubuntu_run.2).
  vm_compute. reflexivity.
Defined.

Lemma get_oss_keeps_existing_rows_witness :
  (∀ name, is_Some (st_OS_INFO stale_state !! name) →
           is_Some (st_OS_INFO stale_run.1.2 !! name)) ∧
  (st_OS_INFO stale_state ≠ ∅ →
   stale_run.1.1 = Ok (OSsFound (st_OS_INFO stale_run.1.2)
                                (st_SYSTEM_INFO stale_run.1.2))).
Proof.
  apply (get_oss_keeps_existing_rows
           (env := machine_env bare_machine) linux_inventory
           stale_state stale_run.1.1 stale_run.1.2 stale_run.2).
  vm_compute. reflexivity.
Defined.

(** On that machine nothing is detected, and the stale row alone makes the
    run return the tables. *)
Example stale_run_finds_nothing :
  st_OS_INFO stale_run.1.2 = st_OS_INFO stale_state ∧
  st_OS_INFO stale_state ≠ ∅ ∧
  (get_oss (env := machine_env bare_machine) linux_inventory
           (initial_state false)).1.1 = Ok NoOSFound.
Proof.
  split; [vm_compute; reflexivity|]. split; [|vm_compute; reflexivity].
  intros Hempty.
  assert (Hl : st_OS_INFO stale_state !! "Ubuntu 20.04" = Some os_ubuntu)
    by apply lookup_insert_eq.
  rewrite Hempty in Hl. by rewrite lookup_empty in Hl.
Qed.

Lemma get_oss_system_info_witness :
  let i := st_SYSTEM_INFO (initial_state false) in
  let i' := st_SYSTEM_INFO ubuntu_run.1.2 in
  IsLiveDisk i' = IsLiveDisk i ∧
  DisableBootloaderOperations i' = DisableBootloaderOperations i ∧
  DisableBootloaderOperationsBecause i' = DisableBootloaderOperationsBecause i ∧
  (CurrentOS i' = CurrentOS i ∨
   ∃ rec d, CurrentOS i' = Some rec ∧ IsCurrentOS rec = true ∧
            PackageManager rec ≠ Unknown ∧
            linux_inventory !! Partition rec = Some d ∧
            linux_family d = true ∧
            is_live_root "/dev/sda2" (Partition rec) d = true) ∧
  ((∀ p d, linux_inventory !! p = Some d → linux_family d = true →
           is_live_root "/dev/sda2" p d = false) → i' = i).
Proof.
  apply (get_oss_system_info
           (env := machine_env ubuntu_machine) linux_inventory
           (initial_state false) ubuntu_run.1.1 ubuntu_run.1.2 ubuntu_run.2).
  vm_compute. reflexivity.
Defined.

(** ** The matcher: the keys it needs *)

Section MatcherErrors.
Context (OS_INFO : gmap string OSRecord) (DISK_INFO : gmap string DiskEntry).
Import Matcher.



End MatcherErrors.

(** The record of [os_ubuntu] against an inventory that lacks its root
    partition: the identifier is the root partition itself, and the call
    raises instead of answering yes; an OS that has no row raises even for
    the identifier "Unknown". *)
Example partition_matches_os_raises :
  Matcher.partition_matches_os matcher_os_info ∅ "/dev/sda2" "Ubuntu 20.04"
  = Raise (KeyError "/dev/sda2") ∧
  Matcher.partition_matches_os matcher_os_info matcher_disk_info
    Unknown "Fedora" = Raise (KeyError "Fedora").
Proof. split; vm_compute; reflexivity. Qed.

(** ** The classifier: unmounts, order and report *)

(** Looking up a key after an assignment. *)
Lemma dict_get_set {V} (k k' : string) (v : V) (d : list (string * V)) :
  dict_get k (dict_set k' v d)
  = if bool_decide (k' = k) then Some v else dict_get k d.
Proof.
  induction d as [|[k0 v0] d IH]; cbn [dict_set dict_get]; [done|].
  destruct (decide (k0 = k')) as [->|Hne].
  - rewrite (bool_decide_eq_true_2 (k' = k')) by done.
    cbn [dict_get]. by destruct (bool_decide (k' = k)).
  - rewrite (bool_decide_eq_false_2 (k0 = k')) by done.
    cbn [dict_get]. rewrite IH.
    repeat case_bool_decide; congruence.
Qed.

(** The end of a run whose outcome is known. *)
Ltac run_end H :=
  lazymatch type of H with
  | ret _ _ = _ =>
      apply ret_inv in H;
      let He := fresh "He" in let Hs := fresh "Hs" in let Hv := fresh "Hv" in
      destruct H as (He & Hs & Hv); simplify_eq
  | raise _ _ = _ =>
      apply raise_inv in H;
      let He := fresh "He" in let Hs := fresh "Hs" in let Hv := fresh "Hv" in
      destruct H as (He & Hs & Hv); simplify_eq
  end.

Section AccumulateTraces.
Context {World : Type} {A S : Type}.
Implicit Types (st : State World) (body : A → S → M World S).

(** An invariant of the local variables, the state and the trace so far. *)
Lemma for_acc_trace_invariant
  (I : list A → S → State World → list Event → Prop) body l :
  (∀ pre x suf acc st acc' st' evs0 evs,
     l = pre ++ x :: suf → I pre acc st evs0 →
     body x acc st = (Ok acc', st', evs) →
     I (pre ++ [x]) acc' st' (evs0 ++ evs)) →
  ∀ acc st acc' st' evs,
    I [] acc st [] → for_acc l acc body st = (Ok acc', st', evs) →
    I l acc' st' evs.
Proof.
  intros Hstep.
  assert (Hgen : ∀ suf pre acc st acc' st' evs0 evs,
             l = pre ++ suf → I pre acc st evs0 →
             for_acc suf acc body st = (Ok acc', st', evs) →
             I l acc' st' (evs0 ++ evs)).
  { induction suf as [|x suf IH];
      intros pre acc st acc' st' evs0 evs Hl HI Hrun.
    - apply ret_inv in Hrun. destruct Hrun as ([= <-] & -> & ->).
      by rewrite Hl, !app_nil_r.
    - apply for_acc_cons_inv in Hrun.
      destruct Hrun as [(acc1 & st1 & evs1 & evs2 & Hb & Hk & ->)|(e & _ & [=])].
      rewrite app_assoc.
      eapply (IH (pre ++ [x])); [|eapply Hstep; eauto|exact Hk].
      by rewrite <- app_assoc. }
  intros acc st acc' st' evs HI Hrun.
  apply (Hgen l [] acc st acc' st' [] evs); done.
Qed.

End AccumulateTraces.

Section GateMore.
Context {World : Type} {env : Environment World}.
Context (DISK_INFO : gmap string DiskEntry).
Implicit Types st : State World.

(** One iteration of the classifier unmounts nothing, and then records a
    partition, if at all, as not to be remounted; or it asks for the mount
    point of its partition and unmounts it, once, and records it for a
    remount at that mount point exactly when the unmount succeeded. *)
Lemma checkable_body_unmount root_fs missing disk d fs dnc st r st' evs :
  DISK_INFO !! disk = Some d →
  checkable_body DISK_INFO root_fs missing disk (fs, dnc) st
  = (r, st', evs) →
  ∀ fs' dnc', r = Ok (fs', dnc') →
  ((∀ t c, EvUnmount t c ∉ evs) ∧
   (fs' = fs ∨ fs' = dict_set disk (mkCheckEntry false "None") fs)) ∨
  (∃ mp code,
     EvGetMountPointOf disk mp ∈ evs ∧ EvUnmount disk code ∈ evs ∧
     (∀ t c, EvUnmount t c ∈ evs → t = disk ∧ c = code) ∧
     is_device d = false ∧
     is_busy_root (st_SYSTEM_INFO st) root_fs disk = false ∧
     is_root_alias root_fs d = false ∧ unrecognised d = false ∧
     fs' = (if bool_decide (code ≠ 0) then fs
            else dict_set disk (mkCheckEntry true mp) fs)).
Proof.
  intros Hd Hrun. unfold_gate Hrun. rewrite Hd in Hrun.
  repeat (cbn [reason check_this_fs mount_point remount_fs_after] in Hrun;
          run_step Hrun); simplify_eq.
  all: intros fs' dnc' [= <- <-].
  all: try (left; split;
            [intros t c Hin; in_events; done|first [by left|by right]]).
  all: right; eexists _, _.
  all: split; [rewrite !elem_of_cons; auto 10|].
  all: split; [rewrite !elem_of_cons; auto 10|].
  all: split; [intros t c Hin; in_events; simplify_eq; done|].
  all: unfold is_device, is_busy_root, is_root_alias, unrecognised.
  all: repeat match goal with
       | H : ?b = _ |- context [?b] => rewrite H
       end.
  all: cbn [negb andb] in *; repeat split; done.
Qed.

(** The loop of the classifier: the entries it records for a remount are
    those it unmounted, with the mount point it was told, and every unmount
    it attempts is accounted for. *)
Lemma checkable_loop_unmounts root_fs missing keys st fs dnc st' evs :
  NoDup keys →
  (∀ k, k ∈ keys → is_Some (DISK_INFO !! k)) →
  for_acc keys ([], []) (checkable_body DISK_INFO root_fs missing) st
  = (Ok (fs, dnc), st', evs) →
  (∀ disk e, dict_get disk fs = Some e →
     if Remount e
     then EvGetMountPointOf disk (MountPoint e) ∈ evs ∧
          EvUnmount disk 0 ∈ evs
     else MountPoint e = "None") ∧
  (∀ t code, EvUnmount t code ∈ evs →
     (∃ d, DISK_INFO !! t = Some d ∧ is_device d = false ∧
           is_busy_root (st_SYSTEM_INFO st) root_fs t = false ∧
           is_root_alias root_fs d = false ∧ unrecognised d = false) ∧
     if bool_decide (code ≠ 0) then dict_get t fs = None
     else ∃ e, dict_get t fs = Some e ∧ Remount e = true).
Proof.
  intros Hnd Hkeys Hrun.
  pose (J := λ (pre : list string)
               (acc : list (string * CheckEntry) * list string)
               (s : State World) (evs0 : list Event),
          st_SYSTEM_INFO s = st_SYSTEM_INFO st ∧
          (∀ disk e, dict_get disk acc.1 = Some e →
             disk ∈ pre ∧
             if Remount e
             then EvGetMountPointOf disk (MountPoint e) ∈ evs0 ∧
                  EvUnmount disk 0 ∈ evs0
             else MountPoint e = "None") ∧
          (∀ t code, EvUnmount t code ∈ evs0 →
             t ∈ pre ∧
             (∃ d, DISK_INFO !! t = Some d ∧ is_device d = false ∧
                   is_busy_root (st_SYSTEM_INFO st) root_fs t = false ∧
                   is_root_alias root_fs d = false ∧ unrecognised d = false) ∧
             if bool_decide (code ≠ 0) then dict_get t acc.1 = None
             else ∃ e, dict_get t acc.1 = Some e ∧ Remount e = true)).
  assert (HJ : J keys (fs, dnc) st' evs).
  { revert Hrun. apply for_acc_trace_invariant.
    - intros pre x suf [fs0 dnc0] s [fs1 dnc1] s' evs0 e Hl (HS & H1 & H2) Hb.
      unfold J. cbn [fst snd] in *.
      assert (Hx : x ∉ pre).
      { rewrite Hl in Hnd. apply NoDup_app in Hnd as (_ & Hnd & _).
        intros Hin. apply (Hnd _ Hin). apply list_elem_of_here. }
      destruct (Hkeys x) as [d Hd].
      { rewrite Hl, elem_of_app, elem_of_cons. auto. }
      assert (Hold : ∀ t, t ∈ pre → bool_decide (x = t) = false).
      { intros t Ht. apply bool_decide_eq_false. by intros <-. }
      assert (HS' : st_SYSTEM_INFO s' = st_SYSTEM_INFO st).
      { destruct (checkable_body_spec _ _ _ _ _ _ _ _ _ _ _ Hd Hb)
          as (_ & HS' & _). congruence. }
      split; [exact HS'|].
      destruct (checkable_body_unmount _ _ _ _ _ _ _ _ _ _ Hd Hb _ _ eq_refl)
        as [[Hno Hfs]|(mp & code & Hmp & Hun & Honly & Hdev & Hb' & Ha & Hu & Hfs)].
      + split.
        * intros disk e0 Hg. destruct Hfs as [->| ->].
          -- destruct (H1 _ _ Hg) as [Hin Hr]. split; [apply elem_of_app; auto|].
             destruct (Remount e0); [|done].
             rewrite !elem_of_app. destruct Hr. auto.
          -- rewrite dict_get_set in Hg. case_bool_decide as Hk.
             ++ injection Hg as <-. subst disk. split; [|done].
                apply elem_of_app. right. apply list_elem_of_here.
             ++ destruct (H1 _ _ Hg) as [Hin Hr].
                split; [apply elem_of_app; auto|].
                destruct (Remount e0); [|done].
                rewrite !elem_of_app. destruct Hr. auto.
        * intros t code Hin. apply elem_of_app in Hin as [Hin|Hin];
            [|by apply Hno in Hin].
          destruct (H2 _ _ Hin) as (Ht & Hsafe & Hres).
          split; [apply elem_of_app; auto|]. split; [done|].
          destruct Hfs as [->| ->]; [done|].
          rewrite dict_get_set, (Hold t Ht). done.
      + destruct (decide (code = 0)) as [->|Hcode].
        * rewrite bool_decide_eq_false_2 in Hfs by (intros ?; done).
          subst fs1. split.
          -- intros disk e0 Hg. rewrite dict_get_set in Hg.
             case_bool_decide as Hk.
             ++ injection Hg as <-. subst disk.
                split; [apply elem_of_app; right; apply list_elem_of_here|].
                cbn [Remount MountPoint]. rewrite !elem_of_app. auto.
             ++ destruct (H1 _ _ Hg) as [Hin Hr].
                split; [apply elem_of_app; auto|].
                destruct (Remount e0); [|done].
                rewrite !elem_of_app. destruct Hr. auto.
          -- intros t c Hin. apply elem_of_app in Hin as [Hin|Hin].
             ++ destruct (H2 _ _ Hin) as (Ht & Hsafe & Hres).
                split; [apply elem_of_app; auto|]. split; [done|].
                rewrite dict_get_set, (Hold t Ht). done.
             ++ destruct (Honly _ _ Hin) as [-> ->].
                split; [apply elem_of_app; right; apply list_elem_of_here|].
                split; [exists d; by rewrite <- HS|].
                rewrite bool_decide_eq_false_2 by (intros ?; done).
                rewrite dict_get_set, bool_decide_eq_true_2 by done.
                by eexists.
        * rewrite bool_decide_eq_true_2 in Hfs by done.
          subst fs1. split.
          -- intros disk e0 Hg. destruct (H1 _ _ Hg) as [Hin Hr].
             split; [apply elem_of_app; auto|].
             destruct (Remount e0); [|done].
             rewrite !elem_of_app. destruct Hr. auto.
          -- intros t c Hin. apply elem_of_app in Hin as [Hin|Hin].
             ++ destruct (H2 _ _ Hin) as (Ht & Hsafe & Hres).
                split; [apply elem_of_app; auto|]. done.
             ++ destruct (Honly _ _ Hin) as [-> ->].
                split; [apply elem_of_app; right; apply list_elem_of_here|].
                split; [exists d; by rewrite <- HS|].
                rewrite bool_decide_eq_true_2 by done.
                destruct (dict_get x fs0) as [e0|] eqn:Hg; [|done].
                destruct (H1 _ _ Hg) as [Hin' _]. done.
    - split; [done|]. split; [intros disk e0 [=]|]. intros t code Hin.
      by apply elem_of_nil in Hin. }
  destruct HJ as (_ & H1 & H2). cbn [fst] in *. split.
  - intros disk e Hg. by destruct (H1 _ _ Hg) as [_ Hr].
  - intros t code Hin. by destruct (H2 _ _ Hin) as (_ & Hsafe & Hres).
Qed.

End GateMore.

Section GateTheorems.
Context {World : Type} {env : Environment World}.
Context (DISK_INFO : gmap string DiskEntry).
Implicit Types st : State World.

(** The loop of the search for missing checkers, from any list. *)
Lemma missing_loop_probes keys acc st r st' evs :
  (∀ k, k ∈ keys → is_Some (DISK_INFO !! k)) →
  for_acc keys acc (missing_fsck_body DISK_INFO) st = (r, st', evs) →
  let fss := recognised_filesystems DISK_INFO keys in
  ∃ answers,
    length answers = length fss ∧
    evs = zip_with checker_probe fss answers ∧
    r = Ok (acc ++ failed_modules (zip fss answers)) ∧
    st_OS_INFO st' = st_OS_INFO st ∧ st_SYSTEM_INFO st' = st_SYSTEM_INFO st.
Proof.
  revert acc st r evs. induction keys as [|x keys IH];
    intros acc st r evs Hkeys Hrun fss.
  - apply ret_inv in Hrun as (-> & -> & ->). exists [].
    unfold failed_modules. cbn. by rewrite app_nil_r.
  - destruct (Hkeys x) as [d Hd]; [apply list_elem_of_here|].
    assert (Hkeys' : ∀ k, k ∈ keys → is_Some (DISK_INFO !! k)).
    { intros k Hk. apply Hkeys. by apply list_elem_of_further. }
    unfold fss, recognised_filesystems. cbn [omap list_omap]. rewrite Hd.
    fold (recognised_filesystems DISK_INFO keys).
    apply for_acc_cons_inv in Hrun
      as [(acc1 & st1 & evs1 & evs2 & Hb & Hk & ->)|(e & Hb & ->)].
    + unfold missing_fsck_body, disk_info in Hb. unfold_capabilities Hb.
      rewrite Hd in Hb. unfold unrecognised.
      remember (Ok acc1) as r1 eqn:Hr1.
      repeat run_step Hb; simplify_eq; cbn [negb] in *.
      * destruct (IH _ _ _ _ Hkeys' Hk) as (answers & Hlen & -> & -> & HO & HS).
        cbn [st_OS_INFO st_SYSTEM_INFO] in *.
        bool_to_prop. rewrite Heqb.
        exists (a :: answers). cbn [length zip_with zip].
        split; [by rewrite Hlen|]. split; [done|].
        unfold failed_modules. cbn [List.filter fst snd].
        rewrite bool_decide_eq_true_2 by done.
        cbn [map fst]. by rewrite <- app_assoc.
      * destruct (IH _ _ _ _ Hkeys' Hk) as (answers & Hlen & -> & -> & HO & HS).
        cbn [st_OS_INFO st_SYSTEM_INFO] in *.
        bool_to_prop. rewrite Heqb.
        exists (a :: answers). cbn [length zip_with zip].
        split; [by rewrite Hlen|]. split; [done|].
        unfold failed_modules. cbn [List.filter fst snd].
        rewrite bool_decide_eq_false_2 by done. done.
      * destruct (IH _ _ _ _ Hkeys' Hk) as (answers & Hlen & -> & -> & HO & HS).
        bool_to_prop. rewrite Heqb. exists answers. done.
    + destruct (missing_fsck_body_spec _ _ _ _ _ _ _ _ Hd Hb)
        as (_ & _ & l & [=] & _).
Qed.

(** X6. The search for missing checkers looks for one checker per entry
    of the inventory whose filesystem is recognised (neither "Unknown" nor
    "N/A"), in the order of the sorted keys, with the command
    "which fsck.<filesystem>", and makes no other call; it returns the
    modules of the probes that failed, in that order and once per entry
    (so a module is listed as often as it is missed), and changes neither
    table. *)
Theorem find_missing_fsck_modules_probes st r st' evs :
  find_missing_fsck_modules DISK_INFO st = (r, st', evs) →
  let fss := recognised_filesystems DISK_INFO (sorted_keys DISK_INFO) in
  ∃ answers,
    length answers = length fss ∧
    evs = zip_with checker_probe fss answers ∧
    r = Ok (failed_modules (zip fss answers)) ∧
    st_OS_INFO st' = st_OS_INFO st ∧ st_SYSTEM_INFO st' = st_SYSTEM_INFO st.
Proof.
  intros Hrun fss. unfold find_missing_fsck_modules in Hrun.
  apply missing_loop_probes in Hrun.
  - destruct Hrun as (answers & Hlen & Hevs & Hr & HO & HS).
    exists answers. by rewrite app_nil_l in Hr.
  - intros k. apply sorted_keys_elem_of.
Qed.

(** The search for missing checkers only probes. *)
Lemma find_missing_fsck_modules_events st r st' evs :
  find_missing_fsck_modules DISK_INFO st = (r, st', evs) →
  Forall is_checker_probe evs.
Proof.
  apply for_acc_events. intros x acc s r0 s' e _ Hb.
  unfold missing_fsck_body, disk_info in Hb. unfold_capabilities Hb.
  repeat run_step Hb; simplify_eq;
    repeat first [apply Forall_nil_2
                 |apply Forall_cons; split; [by eexists _, _|]].
Qed.

(** The loop of the classifier shows no message. *)
Lemma checkable_loop_events root_fs missing keys acc st r st' evs :
  for_acc keys acc (checkable_body DISK_INFO root_fs missing) st
  = (r, st', evs) →
  Forall (λ ev, ¬ is_msg_dlg ev ∧ ¬ is_checker_probe ev ∧ ¬ is_remount ev)
         evs.
Proof.
  apply for_acc_events. intros x [fs0 dnc0] s r0 s' e _ Hb.
  unfold_gate Hb.
  repeat (cbn [reason check_this_fs mount_point remount_fs_after] in Hb;
          run_step Hb); simplify_eq.
  all: repeat first
         [apply Forall_nil_2
         |apply Forall_cons; split;
          [split; [|split]; [intros (? & ? & [=])
                            |intros (? & ? & [=])
                            |intros (? & ? & ? & [=])]|]].
Qed.

(** The parts of a run of [find_checkable_file_systems] that returns. *)
Lemma find_checkable_file_systems_inv st fs st' evs :
  find_checkable_file_systems DISK_INFO st = (Ok fs, st', evs) →
  ∃ root_fs w missing st1 evs1 dnc st2 evs2 evs3,
    env_get_partition_mounted_at "/" (st_world st) = (root_fs, w) ∧
    find_missing_fsck_modules DISK_INFO
      (mkState w (st_OS_INFO st) (st_SYSTEM_INFO st))
    = (Ok missing, st1, evs1) ∧
    for_acc (sorted_keys DISK_INFO) ([], [])
            (checkable_body DISK_INFO root_fs missing) st1
    = (Ok (fs, dnc), st2, evs2) ∧
    st_OS_INFO st' = st_OS_INFO st2 ∧
    st_SYSTEM_INFO st' = st_SYSTEM_INFO st2 ∧
    evs3 = (if bool_decide (dnc ≠ [])
            then [EvShowMsgDlg "info" (skip_report dnc) tt] else []) ∧
    evs = EvGetPartitionMountedAt "/" root_fs :: evs1 ++ evs2 ++ evs3.
Proof.
  intros Hrun. unfold find_checkable_file_systems in Hrun.
  apply bind_inv in Hrun
    as [([fs0 dnc] & st2 & evs12 & evs3 & Hscan & Hk & ->)|(e & _ & [=])].
  destruct (checkable_scan_inv _ _ _ _ _ Hscan)
    as (root_fs & w & missing & st1 & evs1 & evs2 & Hroot & Hmiss & Hloop & ->).
  exists root_fs, w, missing, st1, evs1, dnc, st2, evs2, evs3.
  unfold show_msg_dlg in Hk.
  repeat first [run_step Hk | run_end Hk]; simplify_eq.
  - destruct a. repeat split; try done.
    all: rewrite ?app_nil_r; cbn [app]; rewrite <- ?app_assoc; done.
  - repeat split; try done.
    all: rewrite ?app_nil_r; cbn [app]; rewrite <- ?app_assoc; done.
Qed.

(** X7. In a run of [find_checkable_file_systems] that returns, the
    entries recorded for a remount are those the run unmounted, each with
    the mount point the mount manager gave for it just before; an entry
    recorded without a remount carries the mount point "None". Every
    unmount the run attempts is on a partition of the inventory that no
    rule excludes (not a device, not the busy live root nor an alias of it,
    with a recognised filesystem); the partition is recorded, for a
    remount, when the unmount succeeds and left out when it fails. *)
Theorem unmounts_are_recorded st r st' evs :
  find_checkable_file_systems DISK_INFO st = (r, st', evs) →
  ∀ fs, r = Ok fs →
  let root_fs := (env_get_partition_mounted_at "/" (st_world st)).1 in
  (∀ disk e, dict_get disk fs = Some e →
     if Remount e
     then EvGetMountPointOf disk (MountPoint e) ∈ evs ∧
          EvUnmount disk 0 ∈ evs
     else MountPoint e = "None") ∧
  (∀ t code, EvUnmount t code ∈ evs →
     (∃ d, DISK_INFO !! t = Some d ∧ is_device d = false ∧
           is_busy_root (st_SYSTEM_INFO st) root_fs t = false ∧
           is_root_alias root_fs d = false ∧ unrecognised d = false) ∧
     if bool_decide (code ≠ 0) then dict_get t fs = None
     else ∃ e, dict_get t fs = Some e ∧ Remount e = true).
Proof.
  intros Hrun fs -> root_fs.
  destruct (find_checkable_file_systems_inv _ _ _ _ Hrun)
    as (root & w & missing & st1 & evs1 & dnc & st2 & evs2 & evs3
        & Hroot & Hmiss & Hloop & _ & _ & Hdlg & ->).
  assert (root_fs = root) as -> by (unfold root_fs; by rewrite Hroot).
  destruct (find_missing_fsck_modules_spec _ _ _ _ _ Hmiss)
    as (_ & HS & _). cbn [st_SYSTEM_INFO] in HS.
  apply find_missing_fsck_modules_events in Hmiss.
  destruct (checkable_loop_unmounts _ _ _ _ _ _ _ _ _
              (sorted_keys_NoDup DISK_INFO)
              (λ k, proj1 (sorted_keys_elem_of DISK_INFO k)) Hloop)
    as [H1 H2].
  rewrite HS in H2. split.
  - intros disk e Hg. specialize (H1 _ _ Hg).
    destruct (Remount e); [|done]. destruct H1 as [Ha Hb].
    rewrite !elem_of_cons, !elem_of_app. auto.
  - intros t code Hin. apply H2.
    apply elem_of_cons in Hin as [[=]|Hin].
    apply elem_of_app in Hin as [Hin|Hin].
    { rewrite Forall_forall in Hmiss.
      destruct (Hmiss _ Hin) as (? & ? & [=]). }
    apply elem_of_app in Hin as [Hin|Hin]; [done|].
    rewrite Hdlg in Hin. case_bool_decide; in_events; done.
Qed.

(** X8. The dictionary that [find_checkable_file_systems] returns lists
    its partitions in the order of the sorted keys of the inventory, each
    once: its keys are a subsequence of the sorted keys (this is the order
    in which the filesystem check then visits them). *)
Theorem checkable_file_systems_are_sorted st r st' evs :
  find_checkable_file_systems DISK_INFO st = (r, st', evs) →
  ∀ fs, r = Ok fs →
  map fst fs `sublist_of` sorted_keys DISK_INFO ∧ NoDup (map fst fs).
Proof.
  intros Hrun fs ->.
  destruct (find_checkable_file_systems_inv _ _ _ _ Hrun)
    as (root & w & missing & st1 & evs1 & dnc & st2 & evs2 & evs3
        & _ & _ & Hloop & _).
  assert (Hsub : map fst fs `sublist_of` sorted_keys DISK_INFO).
  { pose (I := λ (pre : list string)
                 (acc : list (string * CheckEntry) * list string)
                 (_ : State World),
            map fst acc.1 `sublist_of` pre).
    change (I (sorted_keys DISK_INFO) (fs, dnc) st2). revert Hloop.
    apply for_acc_prefix_invariant; [|apply sublist_nil].
    intros pre x suf [fs0 dnc0] s [fs1 dnc1] s' e Hl HI Hb.
    unfold I in *. cbn [fst] in *.
    assert (Hx : x ∉ pre).
    { pose proof (sorted_keys_NoDup DISK_INFO) as Hnd.
      rewrite Hl in Hnd. apply NoDup_app in Hnd as (_ & Hnd & _).
      intros Hin. apply (Hnd _ Hin). apply list_elem_of_here. }
    assert (Hd : is_Some (DISK_INFO !! x)).
    { apply sorted_keys_elem_of. rewrite Hl, elem_of_app, elem_of_cons. auto. }
    destruct Hd as [d Hd].
    destruct (checkable_body_spec _ _ _ _ _ _ _ _ _ _ _ Hd Hb)
      as (_ & _ & Hcase).
    assert (Hfs : fs1 = fs0 ∨ ∃ entry, fs1 = dict_set x entry fs0).
    { destruct (is_device d); [by destruct Hcase; auto|].
      destruct Hcase as [(entry & -> & _)|(reason & -> & _)]; eauto. }
    destruct Hfs as [->|[entry ->]].
    - by apply sublist_inserts_r.
    - rewrite dict_set_fresh.
      + rewrite map_app. by apply sublist_app.
      + intros Hin. apply Hx. eapply elem_of_sublist; eauto.
  }
  split; [done|]. eapply sublist_NoDup; [|exact Hsub].
  apply sorted_keys_NoDup.
Qed.

(** X9. [find_checkable_file_systems] changes neither table, and it
    tells the operator exactly when it leaves a partition out: in a run
    that returns, a message is shown if and only if some entry of the
    inventory that is not a device is missing from the returned
    dictionary; the message is then the report of the skipped partitions
    and the last call of the run. *)
Theorem skipped_partitions_are_reported st r st' evs :
  find_checkable_file_systems DISK_INFO st = (r, st', evs) →
  ∀ fs, r = Ok fs →
  st_OS_INFO st' = st_OS_INFO st ∧ st_SYSTEM_INFO st' = st_SYSTEM_INFO st ∧
  ((∃ ev, ev ∈ evs ∧ is_msg_dlg ev) ↔
   ∃ disk d, DISK_INFO !! disk = Some d ∧ is_device d = false ∧
             dict_get disk fs = None) ∧
  (∀ ev, ev ∈ evs → is_msg_dlg ev →
     last evs = Some ev ∧
     ∃ do_not_check_list, ev = EvShowMsgDlg "info"
                                 (skip_report do_not_check_list) tt).
Proof.
  intros Hrun fs ->.
  destruct (find_checkable_file_systems_inv _ _ _ _ Hrun)
    as (root & w & missing & st1 & evs1 & dnc & st2 & evs2 & evs3
        & Hroot & Hmiss & Hloop & HO & HS & Hdlg & ->).
  assert (Hkeys : ∀ k, k ∈ sorted_keys DISK_INFO → is_Some (DISK_INFO !! k))
    by (intros k; apply sorted_keys_elem_of).
  destruct (find_missing_fsck_modules_spec _ _ _ _ _ Hmiss)
    as (HO1 & HS1 & _). cbn [st_OS_INFO st_SYSTEM_INFO] in HO1, HS1.
  apply find_missing_fsck_modules_events in Hmiss.
  destruct (checkable_loop_spec _ _ _ _ _ _ _ _ _
              (sorted_keys_NoDup DISK_INFO) Hkeys Hloop)
    as (HS2 & (skipped & Hnd & Hmem & HF2) & _ & _).
  assert (HO2 : st_OS_INFO st2 = st_OS_INFO st1).
  { revert Hloop.
    apply (for_acc_prefix_invariant
             (λ _ (_ : list (string * CheckEntry) * list string) s,
                st_OS_INFO s = st_OS_INFO st1)); [|done].
    intros pre x suf [fs0 dnc0] s acc' s' e Hl HI Hb.
    destruct (Hkeys x) as [d Hd].
    { rewrite Hl, elem_of_app, elem_of_cons. auto. }
    destruct acc' as [fs1 dnc1].
    destruct (checkable_body_spec _ _ _ _ _ _ _ _ _ _ _ Hd Hb)
      as (HO' & _). congruence. }
  apply checkable_loop_events in Hloop.
  assert (Hshown : ∀ ev,
            ev ∈ EvGetPartitionMountedAt "/" root :: evs1 ++ evs2 ++ evs3 →
            is_msg_dlg ev →
            dnc ≠ [] ∧ ev = EvShowMsgDlg "info" (skip_report dnc) tt ∧
            evs3 = [ev]).
  { intros ev Hin (kind & msg & ->).
    apply elem_of_cons in Hin as [[=]|Hin].
    apply elem_of_app in Hin as [Hin|Hin].
    { rewrite Forall_forall in Hmiss.
      destruct (Hmiss _ Hin) as (? & ? & [=]). }
    apply elem_of_app in Hin as [Hin|Hin].
    { rewrite Forall_forall in Hloop.
      destruct (Hloop _ Hin) as [Hno _]. exfalso. apply Hno. by eexists _, _. }
    rewrite Hdlg in Hin |- *. case_bool_decide as Hne; in_events.
    simplify_eq. done. }
  assert (Hskip : dnc ≠ [] ↔
            ∃ disk d, DISK_INFO !! disk = Some d ∧ is_device d = false ∧
                      dict_get disk fs = None).
  { split.
    - intros Hne. destruct skipped as [|x skipped].
      { apply Forall2_nil_inv_l in HF2. done. }
      destruct (proj1 (Hmem x)) as (_ & d & Hd & Hdev).
      { apply elem_of_app. right. apply list_elem_of_here. }
      exists x, d. split; [done|]. split; [done|].
      apply dict_get_None. intros Hin.
      apply NoDup_app in Hnd as (_ & Hnd & _).
      apply (Hnd _ Hin). apply list_elem_of_here.
    - intros (disk & d & Hd & Hdev & Hg) ->.
      apply Forall2_nil_inv_r in HF2 as ->.
      apply dict_get_None in Hg. apply Hg.
      rewrite app_nil_r in Hmem. apply Hmem.
      split; [|eauto]. apply sorted_keys_elem_of. eauto. }
  split; [congruence|]. split; [congruence|]. split; [split|].
  - intros (ev & Hin & Hev). apply Hskip. by destruct (Hshown _ Hin Hev).
  - intros Hex. apply Hskip in Hex.
    exists (EvShowMsgDlg "info" (skip_report dnc) tt). split; [|by eexists _, _].
    rewrite Hdlg, bool_decide_eq_true_2 by done.
    rewrite !elem_of_cons, !elem_of_app, list_elem_of_singleton. auto.
  - intros ev Hin Hev. destruct (Hshown _ Hin Hev) as (_ & -> & ->).
    split; [|by eexists].
    change (EvGetPartitionMountedAt "/" root :: evs1 ++ evs2 ++ ?l)
      with ([EvGetPartitionMountedAt "/" root] ++ evs1 ++ evs2 ++ l).
    by rewrite !app_assoc, last_snoc.
Qed.

End GateTheorems.

Lemma find_missing_fsck_modules_probes_witness :
  let fss := recognised_filesystems fsck_inventory
               (sorted_keys fsck_inventory) in
  ∃ answers,
    length answers = length fss ∧
    mounted_probes.2 = zip_with checker_probe fss answers ∧
    mounted_probes.1.1 = Ok (failed_modules (zip fss answers)) ∧
    st_OS_INFO mounted_probes.1.2 = st_OS_INFO (initial_state false) ∧
    st_SYSTEM_INFO mounted_probes.1.2 = st_SYSTEM_INFO (initial_state false).
Proof.
  apply (find_missing_fsck_modules_probes
           (env := machine_env mounted_machine) fsck_inventory
           (initial_state false)
           mounted_probes.1.1 mounted_probes.1.2 mounted_probes.2).
  vm_compute. reflexivity.
Defined.

(** On that machine three checkers are looked for and one is missing. *)
Example mounted_probes_result :
  recognised_filesystems fsck_inventory (sorted_keys fsck_inventory)
  = ["xfs"; "ext4"; "jfs"] ∧
  mounted_probes.1.1 = Ok ["fsck.jfs"] ∧
  length mounted_probes.2 = 3%nat.
Proof. repeat split; vm_compute; reflexivity. Qed.

Lemma unmounts_are_recorded_witness :
  let fs := mounted_checkable in
  let evs := mounted_check.2 in
  (∀ disk e, dict_get disk fs = Some e →
     if Remount e
     then EvGetMountPointOf disk (MountPoint e) ∈ evs ∧
          EvUnmount disk 0 ∈ evs
     else MountPoint e = "None") ∧
  (∀ t code, EvUnmount t code ∈ evs →
     (∃ d, fsck_inventory !! t = Some d ∧ is_device d = false ∧
           is_busy_root (st_SYSTEM_INFO (initial_state false))
                        "/dev/sda2" t = false ∧
           is_root_alias "/dev/sda2" d = false ∧ unrecognised d = false) ∧
     if bool_decide (code ≠ 0) then dict_get t fs = None
     else ∃ e, dict_get t fs = Some e ∧ Remount e = true).
Proof.
  apply (unmounts_are_recorded
           (env := machine_env mounted_machine) fsck_inventory
           (initial_state false)
           mounted_check.1.1 mounted_check.1.2 mounted_check.2).
  - vm_compute. reflexivity.
  - vm_compute. reflexivity.
Defined.

(** In that run /dev/sdb1 is unmounted, /dev/sdb2 resists and /dev/sdb3
    lacks its checker. *)
Example mounted_check_trace :
  mounted_check.1.1 = Ok mounted_checkable ∧
  EvUnmount "/dev/sdb1" 0 ∈ mounted_check.2 ∧
  EvUnmount "/dev/sdb2" 1 ∈ mounted_check.2 ∧
  (∀ code, EvUnmount "/dev/sdb3" code ∉ mounted_check.2).
Proof.
  split; [vm_compute; reflexivity|].
  unfold mounted_check. cbn [snd].
  rewrite !elem_of_cons. split; [auto 20|]. split; [auto 20|].
  intros code Hin. in_events; done.
Qed.

Lemma checkable_file_systems_are_sorted_witness :
  map fst ubuntu_check_all `sublist_of` sorted_keys fsck_inventory ∧
  NoDup (map fst ubuntu_check_all).
Proof.
  apply (checkable_file_systems_are_sorted
           (env := machine_env ubuntu_machine) fsck_inventory
           (initial_state false)
           sorted_check.1.1 sorted_check.1.2 sorted_check.2).
  - vm_compute. reflexivity.
  - vm_compute. reflexivity.
Defined.

Lemma skipped_partitions_are_reported_witness :
  let fs := mounted_checkable in
  let evs := mounted_check.2 in
  st_OS_INFO mounted_check.1.2 = st_OS_INFO (initial_state false) ∧
  st_SYSTEM_INFO mounted_check.1.2 = st_SYSTEM_INFO (initial_state false) ∧
  ((∃ ev, ev ∈ evs ∧ is_msg_dlg ev) ↔
   ∃ disk d, fsck_inventory !! disk = Some d ∧ is_device d = false ∧
             dict_get disk fs = None) ∧
  (∀ ev, ev ∈ evs → is_msg_dlg ev →
     last evs = Some ev ∧
     ∃ do_not_check_list, ev = EvShowMsgDlg "info"
                                 (skip_report do_not_check_list) tt).
Proof.
  apply (skipped_partitions_are_reported
           (env := machine_env mounted_machine) fsck_inventory
           (initial_state false)
           mounted_check.1.1 mounted_check.1.2 mounted_check.2).
  - vm_compute. reflexivity.
  - vm_compute. reflexivity.
Defined.

(** ** The filesystem check: what it restores and what it changes *)

(** A word under construction is never lost. *)
Lemma split_words_nonempty (s word : string) :
  word ≠ "" → split_words s word ≠ [].
Proof.
  revert word. induction s as [|c s IH]; intros word Hw; cbn [split_words].
  - by rewrite bool_decide_eq_false_2.
  - destruct (is_whitespace c).
    + by rewrite bool_decide_eq_false_2.
    + apply IH. by destruct word.
Qed.

(** A command that starts with a letter has a first word. *)
Lemma split_has_first_word (c : ascii) (s : string) :
  is_whitespace c = false → ∃ w rest, split (String c s) = w :: rest.
Proof.
  intros Hc. unfold split. cbn [split_words]. rewrite Hc.
  destruct (split_words s ("" +:+ String c "")) as [|w rest] eqn:Hs.
  - by apply split_words_nonempty in Hs.
  - eauto.
Qed.

Section LoopVisits.
Context {World : Type} {A : Type}.
Implicit Types (st : State World) (body : A → M World LoopCtl).


(** A relation between the states and the trace of each iteration that
    composes is a relation on the loop. *)
Lemma for_in_relation (T : State World → State World → list Event → Prop)
  body l :
  (∀ st, T st st []) →
  (∀ s1 s2 s3 e1 e2, T s1 s2 e1 → T s2 s3 e2 → T s1 s3 (e1 ++ e2)) →
  (∀ x st r st' evs, x ∈ l → body x st = (r, st', evs) → T st st' evs) →
  ∀ st r st' evs, for_in l body st = (r, st', evs) → T st st' evs.
Proof.
  intros Hrefl Htrans. induction l as [|x l IH]; intros Hb st r st' evs Hrun.
  - apply ret_inv in Hrun as (_ & -> & ->). apply Hrefl.
  - apply for_in_cons_inv in Hrun.
    destruct Hrun as [(st1 & evs1 & evs2 & Hx & Hk & ->)|[[Hx ->]|(e & Hx & ->)]].
    + eapply Htrans.
      * eapply Hb; [apply list_elem_of_here|exact Hx].
      * eapply IH; [|exact Hk]. intros. eapply Hb; [|done].
        by apply list_elem_of_further.
    + eapply Hb; [apply list_elem_of_here|exact Hx].
    + eapply Hb; [apply list_elem_of_here|exact Hx].
Qed.

End LoopVisits.

Ltac mount_free_events :=
  repeat first
    [ apply Forall_nil_2
    | apply Forall_cons; split; [exact I|] ].

Section EssentialsMore.
Context {World : Type} {env : Environment World}.
Context (DISK_INFO : gmap string DiskEntry) (OPERATIONS : list Operation).
Implicit Types st : State World.

(** What the handler of exit codes does: it raises only on a command
    without a word; it never touches the mount table; it leaves the OS
    table alone, and it changes [SYSTEM_INFO] only by disabling the
    bootloader operations, after the operator agreed to that, when such
    operations are planned. *)
Lemma handler_effect exec_cmds retval partition mbf st r st' evs :
  handle_filesystem_check_return_values OPERATIONS exec_cmds retval
    partition mbf st = (r, st', evs) →
  (split exec_cmds ≠ [] → r = Ok tt) ∧
  Forall mount_free evs ∧
  st_OS_INFO st' = st_OS_INFO st ∧
  only_disables (st_SYSTEM_INFO st) (st_SYSTEM_INFO st') ∧
  (st_SYSTEM_INFO st' = st_SYSTEM_INFO st ∨
   doing_bootloader_operations OPERATIONS mbf = true ∧
   (∃ ev, ev ∈ evs ∧ agreed ev) ∧
   DisableBootloaderOperations (st_SYSTEM_INFO st') = true ∧
   DisableBootloaderOperationsBecause (st_SYSTEM_INFO st')
   = DisableBootloaderOperationsBecause (st_SYSTEM_INFO st)
     ++ ["Filesystem corruption was detected on " +:+ partition]).
Proof.
  intros Hrun. unfold handle_filesystem_check_return_values, first_word in Hrun.
  unfold_capabilities Hrun.
  repeat run_step Hrun; simplify_eq.
  all: split; [intros Hne; first [done|by destruct a]|].
  all: split; [mount_free_events|].
  all: split; [reflexivity|].
  all: unfold only_disables.
  all: cbn [IsLiveDisk CurrentOS DisableBootloaderOperations
            DisableBootloaderOperationsBecause].
  all: try (split; [done|left; reflexivity]).
  all: split; [repeat split; try done; by apply prefix_app_r|].
  all: right; repeat split; try done.
  all: eexists; split; [apply list_elem_of_here|by eexists _, _].
Qed.

End EssentialsMore.

Section EssentialsMore2.
Context {World : Type} {env : Environment World}.
Context (DISK_INFO : gmap string DiskEntry) (OPERATIONS : list Operation).
Implicit Types st : State World.

(** The plan for a disk: a command with a first word, or no command; made
    without touching the mount table or the tables. *)
Lemma plan_check_words _type disk fs st r st' evs :
  plan_check _type disk fs st = (r, st', evs) →
  ∃ exec_cmds run_badblocks,
    r = Ok (exec_cmds, run_badblocks) ∧
    Forall mount_free evs ∧
    st_OS_INFO st' = st_OS_INFO st ∧
    st_SYSTEM_INFO st' = st_SYSTEM_INFO st ∧
    (exec_cmds ≠ "" → split exec_cmds ≠ []).
Proof.
  intros Hrun. unfold plan_check in Hrun. unfold_capabilities Hrun.
  repeat run_step Hrun; simplify_eq.
  all: eexists _, _; split; [reflexivity|].
  all: split; [mount_free_events|].
  all: split; [reflexivity|]; split; [reflexivity|].
  all: try (intros Hne; exfalso; by apply Hne).
  all: intros _; lazy [String.append].
  all: match goal with
       | |- split (String ?c ?s) ≠ [] =>
           destruct (split_has_first_word c s) as (w & rest & ->); [reflexivity|done]
       end.
Qed.

End EssentialsMore2.

Section AccumulateStates.
Context {World : Type} {A S : Type}.
Implicit Types (st : State World) (body : A → S → M World S).

(** An invariant of the state, however the loop ends. *)
Lemma for_acc_state_invariant (I : State World → Prop) body l :
  (∀ x acc st r st' evs, x ∈ l → I st → body x acc st = (r, st', evs) →
     I st') →
  ∀ acc st r st' evs, I st → for_acc l acc body st = (r, st', evs) → I st'.
Proof.
  induction l as [|x l IH]; intros Hb acc st r st' evs HI Hrun.
  - apply ret_inv in Hrun as (_ & -> & _). done.
  - apply for_acc_cons_inv in Hrun.
    destruct Hrun as [(acc1 & st1 & evs1 & evs2 & Hx & Hk & ->)|(e & Hx & ->)].
    + eapply IH; [| |exact Hk].
      * intros. eapply Hb; [|done..]. by apply list_elem_of_further.
      * eapply Hb; [apply list_elem_of_here|exact HI|exact Hx].
    + eapply Hb; [apply list_elem_of_here|exact HI|exact Hx].
Qed.

End AccumulateStates.


Section EssentialsMore3.
Context {World : Type} {env : Environment World}.
Context (DISK_INFO : gmap string DiskEntry) (OPERATIONS : list Operation).
Implicit Types st : State World.

Local Notation T := (disables_on_request (World := World) OPERATIONS).

Lemma only_disables_refl (i : SystemInfo) : only_disables i i.
Proof. by repeat split. Qed.

Lemma only_disables_trans (i1 i2 i3 : SystemInfo) :
  only_disables i1 i2 → only_disables i2 i3 → only_disables i1 i3.
Proof.
  intros (? & ? & ? & ?) (? & ? & ? & ?).
  repeat split; [congruence|congruence|auto|by etrans].
Qed.

Lemma disables_on_request_refl mbf st : T mbf st st [].
Proof. split; [done|]. split; [apply only_disables_refl|by left]. Qed.

Lemma disables_on_request_frame mbf st st' evs :
  st_OS_INFO st' = st_OS_INFO st →
  st_SYSTEM_INFO st' = st_SYSTEM_INFO st → T mbf st st' evs.
Proof.
  intros HO HS. split; [done|]. rewrite HS.
  split; [apply only_disables_refl|by left].
Qed.

Lemma disables_on_request_trans mbf s1 s2 s3 e1 e2 :
  T mbf s1 s2 e1 → T mbf s2 s3 e2 → T mbf s1 s3 (e1 ++ e2).
Proof.
  intros (HO1 & HD1 & HC1) (HO2 & HD2 & HC2).
  split; [congruence|]. split; [by eapply only_disables_trans|].
  destruct HC2 as [HS2|(Hdo & (ev & Hin & Hev) & Hfl)].
  - destruct HC1 as [HS1|(Hdo & (ev & Hin & Hev) & Hfl)].
    + left. congruence.
    + right. split; [done|]. split; [|by rewrite HS2].
      exists ev. split; [|done]. apply elem_of_app. by left.
  - right. split; [done|]. split; [|done].
    exists ev. split; [|done]. apply elem_of_app. by right.
Qed.

(** Running a command and handling its exit code. *)
Lemma run_and_handle_effect cmd disk mbf st r st' evs :
  run_and_handle OPERATIONS cmd disk mbf st = (r, st', evs) →
  (split cmd ≠ [] → r = Ok tt) ∧ Forall mount_free evs ∧ T mbf st st' evs.
Proof.
  intros Hrun. unfold run_and_handle, start_process, start_process_output in Hrun.
  rewrite bind_assoc in Hrun. run_step Hrun. rewrite bind_ret_l in Hrun.
  destruct (bool_decide (a.1 = 0)).
  - run_step Hrun. split; [done|]. split; [mount_free_events|].
    by apply disables_on_request_frame.
  - apply handler_effect in Hrun as (Hr & Hfree & HO & HD & HC).
    cbn [st_OS_INFO st_SYSTEM_INFO] in *.
    split; [done|]. split; [by constructor|].
    split; [done|]. split; [done|].
    destruct HC as [?|(Hdo & (ev & Hin & Hev) & Hfl & _)]; [by left|].
    right. split; [done|]. split; [|done].
    exists ev. split; [|done]. by apply list_elem_of_further.
Qed.

(** One iteration of the filesystem check. *)
Lemma filesystem_check_body_effect _type mbf fss disk st r st' evs :
  filesystem_check_body DISK_INFO OPERATIONS _type mbf fss disk st
  = (r, st', evs) →
  T mbf st st' evs ∧
  (is_Some (DISK_INFO !! disk) → is_Some (dict_get disk fss) →
   r = Ok Next ∧ remounts_after_check fss disk evs).
Proof.
  intros Hrun. unfold filesystem_check_body, disk_info in Hrun.
  destruct (DISK_INFO !! disk) as [d|] eqn:Hd.
  2: { repeat run_step Hrun. split; [apply disables_on_request_refl|].
       by intros [? [=]]. }
  rewrite bind_ret_l in Hrun.
  apply bind_inv in Hrun
    as [([exec_cmds rb] & st1 & evs1 & evs2 & Hplan & Hk & ->)|(e & Hplan & ->)].
  2: { by apply plan_check_words in Hplan as (? & ? & [=] & _). }
  apply plan_check_words in Hplan
    as (? & ? & [= <- <-] & Hfree1 & HO1 & HS1 & Hword).
  assert (HT1 : T mbf st st1 evs1) by (by apply disables_on_request_frame).
  assert (Hexec : ∀ s r0 s' e0,
            (if bool_decide (exec_cmds ≠ "")
             then run_and_handle OPERATIONS exec_cmds disk mbf
             else ret tt) s = (r0, s', e0) →
            r0 = Ok tt ∧ Forall mount_free e0 ∧ T mbf s s' e0).
  { intros s r0 s' e0 He. case_bool_decide as Hne.
    - apply run_and_handle_effect in He as (Hr & ? & ?). auto.
    - apply ret_inv in He as (-> & -> & ->).
      split; [done|]. split; [constructor|apply disables_on_request_refl]. }
  assert (Hbad : ∀ s r0 s' e0,
            (if rb then run_and_handle OPERATIONS (BADBLOCKS +:+ disk) disk mbf
             else ret tt) s = (r0, s', e0) →
            r0 = Ok tt ∧ Forall mount_free e0 ∧ T mbf s s' e0).
  { intros s r0 s' e0 He. destruct rb.
    - apply run_and_handle_effect in He as (Hr & ? & ?).
      split; [|done]. apply Hr. unfold BADBLOCKS. lazy [String.append].
      match goal with
      | |- split (String ?c ?s) ≠ [] =>
          destruct (split_has_first_word c s) as (w & rest & ->);
            [reflexivity|done]
      end.
    - apply ret_inv in He as (-> & -> & ->).
      split; [done|]. split; [constructor|apply disables_on_request_refl]. }
  apply bind_inv in Hk
    as [([] & st2 & evs3 & evs4 & He & Hk & ->)|(e & He & ->)].
  2: { by apply Hexec in He as ([=] & _). }
  apply Hexec in He as (_ & Hfree2 & HT2).
  apply bind_inv in Hk
    as [([] & st3 & evs5 & evs6 & Hb & Hk & ->)|(e & Hb & ->)].
  2: { by apply Hbad in Hb as ([=] & _). }
  apply Hbad in Hb as (_ & Hfree3 & HT3).
  assert (HT : T mbf st st3 (evs1 ++ evs3 ++ evs5)).
  { eapply disables_on_request_trans; [exact HT1|].
    eapply disables_on_request_trans; [exact HT2|exact HT3]. }
  assert (Hfree : Forall mount_free (evs1 ++ evs3 ++ evs5)).
  { rewrite !Forall_app. auto. }
  destruct (dict_get disk fss) as [entry|] eqn:Hg.
  2: { repeat run_step Hk. rewrite app_nil_r. split; [done|].
       by intros _ [? [=]]. }
  unfold_capabilities Hk. destruct (Remount entry) eqn:Hre.
  - repeat run_step Hk.
    assert (Heq : evs1 ++ evs3 ++ evs5 ++
                  [EvMountPartition disk (MountPoint entry) a]
                  = (evs1 ++ evs3 ++ evs5) ++
                    [EvMountPartition disk (MountPoint entry) a])
      by (by rewrite <- !app_assoc).
    rewrite Heq. split.
    + eapply disables_on_request_trans; [exact HT|].
      by apply disables_on_request_frame.
    + intros _ _. split; [done|]. exists entry, (evs1 ++ evs3 ++ evs5).
      split; [done|]. split; [done|]. rewrite Hre. by exists a.
  - repeat run_step Hk. rewrite !app_nil_r. split; [done|].
    intros _ _. split; [done|]. exists entry, (evs1 ++ evs3 ++ evs5).
    split; [done|]. split; [done|]. by rewrite Hre.
Qed.

End EssentialsMore3.

Section EssentialsTheorems.
Context {World : Type} {env : Environment World}.
Context (DISK_INFO : gmap string DiskEntry) (OPERATIONS : list Operation).
Implicit Types st : State World.

(** The search for checkable filesystems changes neither table, however
    it ends. *)
Lemma find_checkable_file_systems_frame st r st' evs :
  find_checkable_file_systems DISK_INFO st = (r, st', evs) →
  st_OS_INFO st' = st_OS_INFO st ∧ st_SYSTEM_INFO st' = st_SYSTEM_INFO st.
Proof.
  intros Hrun. unfold find_checkable_file_systems in Hrun.
  assert (Hscan : ∀ r0 s' e0,
            checkable_scan DISK_INFO st = (r0, s', e0) →
            st_OS_INFO s' = st_OS_INFO st ∧
            st_SYSTEM_INFO s' = st_SYSTEM_INFO st).
  { intros r0 s' e0 Hs.
    destruct (checkable_scan_inv _ _ _ _ _ Hs)
      as (root & w & missing & st1 & evs1 & evs2 & _ & Hmiss & Hloop & _).
    destruct (find_missing_fsck_modules_spec _ _ _ _ _ Hmiss)
      as (HO1 & HS1 & _). cbn [st_OS_INFO st_SYSTEM_INFO] in HO1, HS1.
    rewrite <- HO1, <- HS1. revert Hloop.
    apply (for_acc_state_invariant
             (λ s, st_OS_INFO s = st_OS_INFO st1 ∧
                   st_SYSTEM_INFO s = st_SYSTEM_INFO st1)); [|done].
    intros x [fs0 dnc0] s r1 s1 e1 Hx [HO HS] Hb.
    apply sorted_keys_elem_of in Hx as [d Hd].
    destruct (checkable_body_spec _ _ _ _ _ _ _ _ _ _ _ Hd Hb)
      as (HO' & HS' & _). split; congruence. }
  apply bind_inv in Hrun
    as [([fs0 dnc] & st1 & evs1 & evs2 & Hs & Hk & ->)|(e & Hs & ->)].
  - destruct (Hscan _ _ _ Hs) as [HO HS]. rewrite <- HO, <- HS.
    unfold show_msg_dlg in Hk. repeat run_step Hk; done.
  - by eapply Hscan.
Qed.


(** X11. A filesystem check leaves the OS table alone, and all it may do
    to [SYSTEM_INFO] is to disable the bootloader operations: the flag of
    the live disk and the current OS keep their values, the flag that
    disables the bootloader operations is never cleared, and reasons are
    only appended. [SYSTEM_INFO] changes at all only when an operation of
    the bootloader is planned and the operator, asked after a failed check,
    agreed to disable them; the flag is then set. *)
Theorem filesystem_check_only_disables _type mbf st r st' evs :
  filesystem_check DISK_INFO OPERATIONS _type mbf st = (r, st', evs) →
  st_OS_INFO st' = st_OS_INFO st ∧
  only_disables (st_SYSTEM_INFO st) (st_SYSTEM_INFO st') ∧
  (st_SYSTEM_INFO st' ≠ st_SYSTEM_INFO st →
   doing_bootloader_operations OPERATIONS mbf = true ∧
   (∃ ev, ev ∈ evs ∧ agreed ev) ∧
   DisableBootloaderOperations (st_SYSTEM_INFO st') = true).
Proof.
  intros Hrun.
  assert (HT : disables_on_request OPERATIONS mbf st st' evs).
  { unfold filesystem_check in Hrun.
    apply bind_inv in Hrun
      as [(fss & st1 & evsf & evs2 & Hf & Hk & ->)|(e & Hf & ->)].
    2: { apply find_checkable_file_systems_frame in Hf as [? ?].
         by apply disables_on_request_frame. }
    apply find_checkable_file_systems_frame in Hf as [HO HS].
    apply (disables_on_request_trans _ _ st st1 st');
      [by apply disables_on_request_frame|].
    unfold show_msg_dlg in Hk. run_step Hk.
    change (EvShowMsgDlg ?k ?m a :: evs) with ([EvShowMsgDlg k m a] ++ evs).
    apply (disables_on_request_trans _ _ st1
             (mkState w (st_OS_INFO st1) (st_SYSTEM_INFO st1)) st');
      [by apply disables_on_request_frame|].
    revert Hk. apply (for_in_relation (disables_on_request OPERATIONS mbf)).
    - apply disables_on_request_refl.
    - apply disables_on_request_trans.
    - intros x s r0 s' e0 _ Hb.
      by apply filesystem_check_body_effect in Hb as [? _]. }
  destruct HT as (HO & HD & HC). split; [done|]. split; [done|].
  intros Hne. by destruct HC.
Qed.

(** X12. When a checker other than badblocks exits with 1, 2 or 3 (errors
    corrected), the handler returns without asking anything and without
    changing either table: bootloader operations are never disabled for
    such an exit code. It shows one warning when the checker is xfs_repair
    or one of the checkers it lists, and nothing otherwise; the list names
    "fsck.ex3", so that corrected errors of fsck.ext3 (and of fsck.hfsplus)
    are not announced. *)
Theorem corrected_errors_never_disable
  exec_cmds retval partition mbf w rest st r st' evs :
  retval ∈ [1; 2; 3] →
  split exec_cmds = w :: rest →
  w ≠ "badblocks" →
  handle_filesystem_check_return_values OPERATIONS exec_cmds retval
    partition mbf st = (r, st', evs) →
  r = Ok tt ∧
  st_OS_INFO st' = st_OS_INFO st ∧ st_SYSTEM_INFO st' = st_SYSTEM_INFO st ∧
  (if bool_decide (w ∈ ANNOUNCED_CHECKERS)
   then ∃ message, evs = [EvShowMsgDlg "warning" message tt]
   else evs = []) ∧
  (w = "fsck.ext3" ∨ w = "fsck.hfsplus" → evs = []).
Proof.
  intros Hret Hsplit Hw Hrun.
  assert (Hshown :
    r = Ok tt ∧
    st_OS_INFO st' = st_OS_INFO st ∧ st_SYSTEM_INFO st' = st_SYSTEM_INFO st ∧
    (if bool_decide (w ∈ ANNOUNCED_CHECKERS)
     then ∃ message, evs = [EvShowMsgDlg "warning" message tt]
     else evs = [])).
  { unfold handle_filesystem_check_return_values, first_word in Hrun.
    rewrite Hsplit in Hrun. unfold_capabilities Hrun.
    unfold ANNOUNCED_CHECKERS, str_in in *.
    repeat run_step Hrun; simplify_eq; bool_to_prop; try done.
    - destruct a. subst w.
      rewrite bool_decide_eq_true_2 by (rewrite !elem_of_cons; auto).
      repeat split. by eexists.
    - destruct a.
      rewrite bool_decide_eq_true_2
        by (rewrite elem_of_cons; by right).
      repeat split. by eexists.
    - rewrite bool_decide_eq_false_2; [done|].
      rewrite elem_of_cons. intros [?|?]; done. }
  destruct Hshown as (Hr & HO & HS & Hev). repeat split; try done.
  intros Hex. rewrite bool_decide_eq_false_2 in Hev; [done|].
  unfold ANNOUNCED_CHECKERS. rewrite !elem_of_cons, elem_of_nil.
  destruct Hex as [-> | ->]; intros H;
    repeat (destruct H as [H|H]; [discriminate H|]); done.
Qed.

End EssentialsTheorems.



(** In that run /dev/sdb1 is unmounted from /media/dev/sdb1 and mounted
    there again. *)
Example disabling_check_remounts :
  EvUnmount "/dev/sdb1" 0 ∈ disabling_check.2 ∧
  EvMountPartition "/dev/sdb1" "/media/dev/sdb1" 0 ∈ disabling_check.2.
Proof.
  unfold disabling_check. cbn [snd]. rewrite !elem_of_cons. auto 30.
Qed.

Lemma filesystem_check_only_disables_witness :
  let st := initial_state false in
  let st' := disabling_check.1.2 in
  st_OS_INFO st' = st_OS_INFO st ∧
  only_disables (st_SYSTEM_INFO st) (st_SYSTEM_INFO st') ∧
  (st_SYSTEM_INFO st' ≠ st_SYSTEM_INFO st →
   doing_bootloader_operations bootloader_plan "manage_bootloader" = true ∧
   (∃ ev, ev ∈ disabling_check.2 ∧ agreed ev) ∧
   DisableBootloaderOperations (st_SYSTEM_INFO st') = true).
Proof.
  apply (filesystem_check_only_disables
           (env := machine_env mounted_machine) fsck_inventory
           bootloader_plan "Quick" "manage_bootloader" (initial_state false)
           disabling_check.1.1 disabling_check.1.2 disabling_check.2).
  vm_compute. reflexivity.
Defined.

(** In that run the check of /dev/sdb1 fails, the operator agrees, and the
    bootloader operations are disabled with the reason. *)
Example disabling_check_disables :
  st_SYSTEM_INFO disabling_check.1.2
  = mkSystemInfo false None true
      ["Filesystem corruption was detected on /dev/sdb1"].
Proof. vm_compute. reflexivity. Qed.

Lemma corrected_errors_never_disable_witness :
  let st := initial_state false in
  ext3_corrected.1.1 = Ok tt ∧
  st_OS_INFO ext3_corrected.1.2 = st_OS_INFO st ∧
  st_SYSTEM_INFO ext3_corrected.1.2 = st_SYSTEM_INFO st ∧
  (if bool_decide ("fsck.ext3" ∈ ANNOUNCED_CHECKERS)
   then ∃ message, ext3_corrected.2 = [EvShowMsgDlg "warning" message tt]
   else ext3_corrected.2 = []) ∧
  ("fsck.ext3" = "fsck.ext3" ∨ "fsck.ext3" = "fsck.hfsplus" →
   ext3_corrected.2 = []).
Proof.
  apply (corrected_errors_never_disable
           (env := machine_env mounted_machine) bootloader_plan
           "fsck.ext3 -yvf /dev/sdb2" 1 "/dev/sdb2" "manage_bootloader"
           "fsck.ext3" ["-yvf"; "/dev/sdb2"] (initial_state false)
           ext3_corrected.1.1 ext3_corrected.1.2 ext3_corrected.2).
  - apply list_elem_of_here.
  - vm_compute. reflexivity.
  - discriminate.
  - vm_compute. reflexivity.
Defined.
